(** * OpenNN: device, neural-network parameters, testing analysis and
      model selection

    A shallow embedding of these parts of OpenNN, with the properties of
    them that the specification states (C1 to C10) and further
    properties of the code (the entries X):

    - [Device]           src/opennn/device.h
    - [TestingAnalysis]  src/opennn/testing_analysis.cpp
    - [ModelSelection]   src/opennn/model_selection.cpp
    - [NeuralNetwork]    the class exercised by src/tests/neural_network_test.cpp

    The definitions come first, the properties after them.

    Conventions.

    - A C++ function that can [throw logic_error(buffer.str())] returns a
      [result]: [Ok v], [Throw what] with the text streamed into the buffer,
      or [Undefined] where the C++ has no defined behaviour (a null pointer
      is dereferenced, a tensor is read outside its dimensions, an integer
      is divided by zero).
    - A pointer is an [option]: [nullptr] is [None], [new T(...)] is [Some]
      of the value the constructor builds, [delete] releases the object and
      has no other effect on the model.
    - [type], the scalar of the library (a typedef of config.h, single or
      double precision), is an IEEE-754 value [spec_float]; comparisons do
      not depend on the format, arithmetic takes the format [prec], [emax].
    - [Index] (Eigen's signed 64-bit index) is a [Z]; counters only count
      rows of a tensor and stay below its first dimension, the one product
      of two counters is wrapped to 64 bits. *)

From Stdlib Require Import String ZArith List Bool Lia PeanoNat.
From Stdlib Require Import Floats.SpecFloat.
From Stdlib Require DecimalString.
Import ListNotations.
Local Open Scope string_scope.
Local Open Scope nat_scope.
Local Open Scope list_scope.

Set Implicit Arguments.

(* ================================================================== *)
(** * Results of fallible code *)

Inductive result (A : Type) : Type :=
| Ok (a : A)
| Throw (what : string)
| Undefined.

Arguments Ok {A} a.
Arguments Throw {A} what.
Arguments Undefined {A}.

Definition bind {A B : Type} (c : result A) (k : A -> result B) : result B :=
  match c with
  | Ok a => k a
  | Throw what => Throw what
  | Undefined => Undefined
  end.

Notation "x <- c ;; k" := (bind c (fun x => k))
  (at level 61, c at next level, right associativity).

Definition throws {A : Type} (r : result A) : Prop :=
  exists what, r = Throw what.

Definition returns {A : Type} (r : result A) : Prop :=
  exists a, r = Ok a.

(** [for_each body l s] runs [body i] for every index of [l] in order,
    threading the loop state; the first failure ends the loop. *)
Fixpoint for_each {S : Type} (body : nat -> S -> result S) (l : list nat) (s : S)
  : result S :=
  match l with
  | [] => Ok s
  | i :: l' => s' <- body i s ;; for_each body l' s'
  end.

(* ================================================================== *)
(** * Scalars and indices *)

Definition type : Type := spec_float.
Definition Index : Type := Z.

(** Two's-complement wrap of a 64-bit signed product. *)
Definition Index_wrap (z : Z) : Index :=
  ((z + 2 ^ 63) mod 2 ^ 64 - 2 ^ 63)%Z.

Section Scalar.

(** The format of [type]: 24 and 128 for [float], 53 and 1024 for
    [double]. *)
Variables prec emax : Z.

(** The literals [0.0], [1.0] and [0.5] in the format of [type]. *)
Definition type_zero : type := S754_zero false.

Definition type_one : type :=
  S754_finite false (Pos.shiftl 1 (Z.to_N (prec - 1))) (1 - prec).

Definition type_half : type :=
  S754_finite false (Pos.shiftl 1 (Z.to_N (prec - 1))) (- prec).

(** [static_cast<type>(i)] *)
Definition type_of_Index (i : Index) : type :=
  binary_normalize prec emax i 0 false.

End Scalar.

(** Promotion of a [type] to [double], exact in both formats. *)
Definition to_double (x : type) : spec_float :=
  match x with
  | S754_finite s m e => binary_normalize 53 1024 (cond_Zopp s (Zpos m)) e s
  | _ => x
  end.

(** The [double] literals [1.0] and [1.0e-99]. *)
Definition double_one : spec_float := S754_finite false 4503599627370496 (-52).
Definition double_1e_99 : spec_float := S754_finite false 4925250774549310 (-381).

(** [static_cast<Index>(x)], truncation toward zero.  C++ gives no value
    to the conversion of an infinity or a NaN; the model takes 0. *)
Definition Index_of_type (x : type) : Index :=
  match x with
  | S754_finite s m e =>
      cond_Zopp s (if (0 <=? e)%Z then Zpos m * 2 ^ e else Zpos m / 2 ^ (- e))%Z
  | _ => 0%Z
  end.

(** [abs(t - 1.0) < 1.0e-99] and [abs(t) < 1.0e-99], computed in [double]
    as the literals are. *)
Definition near_one (t : type) : bool :=
  SFltb (SFabs (SFsub 53 1024 (to_double t) double_one)) double_1e_99.

Definition near_zero (t : type) : bool :=
  SFltb (to_double (SFabs t)) double_1e_99.

Definition is_nan (x : type) : bool :=
  match x with S754_nan => true | _ => false end.

Definition is_finite (x : type) : bool :=
  match x with S754_zero _ | S754_finite _ _ _ => true | _ => false end.

(* ================================================================== *)
(** * Tensors

    [Tensor<A, 2>] keeps its two dimensions and its coefficients in
    Eigen's default column-major order; [Tensor<A, 1>] is a list.  Eigen
    does not check indices in a release build: a read outside the
    dimensions is [Undefined]. *)

Record Tensor2 (A : Type) : Type := {
  dimension0 : nat;
  dimension1 : nat;
  coefficients : list A
}.

Definition Tensor1 (A : Type) : Type := list A.

Definition at1 {A : Type} (t : Tensor1 A) (i : nat) : result A :=
  match nth_error t i with
  | Some a => Ok a
  | None => Undefined
  end.

Definition at2 {A : Type} (t : Tensor2 A) (i j : nat) : result A :=
  if (i <? dimension0 t) && (j <? dimension1 t) then
    match nth_error (coefficients t) (i + j * dimension0 t) with
    | Some a => Ok a
    | None => Undefined
    end
  else Undefined.

(** [Tensor<A, 2>()] *)
Definition Tensor2_empty (A : Type) : Tensor2 A :=
  {| dimension0 := 0; dimension1 := 0; coefficients := [] |}.

(** A tensor with one column. *)
Definition column {A : Type} (l : list A) : Tensor2 A :=
  {| dimension0 := length l; dimension1 := 1; coefficients := l |}.

(** The coefficients fill the dimensions. *)
Definition well_formed {A : Type} (t : Tensor2 A) : Prop :=
  length (coefficients t) = dimension0 t * dimension1 t.

(** Testing targets with the outputs computed for them: a row for each
    testing instance in both, and at least one column. *)
Definition testing_data {A : Type} (targets outputs : Tensor2 A) : Prop :=
  well_formed targets /\ well_formed outputs
  /\ 1 <= dimension1 targets /\ 1 <= dimension1 outputs
  /\ dimension0 outputs = dimension0 targets.

(** The value in row [i] of the first column, NaN outside the tensor. *)
Definition first_column (t : Tensor2 type) (i : nat) : type :=
  match at2 t i 0 with
  | Ok x => x
  | _ => S754_nan
  end.

(** The number of testing instances whose target and output satisfy [p]. *)
Definition count_instances (p : type -> type -> bool)
           (targets outputs : Tensor2 type) : Index :=
  Z.of_nat
    (length (filter (fun i => p (first_column targets i) (first_column outputs i))
                    (seq 0 (dimension0 targets)))).

(* ================================================================== *)
(** * Device (device.h) *)

Module Device.

Inductive Type_ : Type := EigenDefault | EigenThreadPool.

(** Eigen's device objects, as far as the class builds them. *)
Inductive DefaultDevice : Type := new_DefaultDevice.

Record NonBlockingThreadPool : Type := new_NonBlockingThreadPool {
  pool_threads : Z
}.

Record ThreadPoolDevice : Type := new_ThreadPoolDevice {
  device_pool : NonBlockingThreadPool;
  device_cores : Z
}.

Inductive GpuDevice : Type := .

Record Device : Type := {
  type_ : Type_;
  default_device : option DefaultDevice;
  simple_thread_pool : option NonBlockingThreadPool;
  thread_pool_device : option ThreadPoolDevice;
  gpu_device : option GpuDevice
}.

(** [explicit Device() {}]: the members keep their default member
    initializers. *)
Definition Device_default : Device :=
  {| type_ := EigenThreadPool;
     default_device := None;
     simple_thread_pool := None;
     thread_pool_device := None;
     gpu_device := None |}.

Definition get_type (d : Device) : Type_ := type_ d.

Section SetType.

(** The value [omp_get_max_threads()] returns. *)
Variable omp_get_max_threads : Z.

Definition set_type (new_type : Type_) (d : Device) : Device :=
  match new_type with
  | EigenDefault =>
      {| type_ := new_type;
         default_device := Some new_DefaultDevice;
         simple_thread_pool := simple_thread_pool d;
         thread_pool_device := thread_pool_device d;
         gpu_device := gpu_device d |}
  | EigenThreadPool =>
      let n := omp_get_max_threads in
      let pool := new_NonBlockingThreadPool n in
      {| type_ := new_type;
         default_device := default_device d;
         simple_thread_pool := Some pool;
         thread_pool_device := Some (new_ThreadPoolDevice pool n);
         gpu_device := gpu_device d |}
  end.

(** [explicit Device(const Type& new_type)] *)
Definition Device_of_type (new_type : Type_) : Device :=
  set_type new_type Device_default.

End SetType.

Definition get_eigen_default_device (d : Device) := default_device d.
Definition get_eigen_thread_pool_device (d : Device) := thread_pool_device d.
Definition get_eigen_gpu_device (d : Device) := gpu_device d.

(** The invariant: a device of type [EigenThreadPool] has a thread-pool
    device. *)
Definition thread_pool_ready (d : Device) : Prop :=
  get_type d = EigenThreadPool -> get_eigen_thread_pool_device d <> None.

End Device.

(* ================================================================== *)
(** * Neural network

    neural_network.cpp, layer.h and the layer classes are not among the
    sources; src/tests/neural_network_test.cpp exercises them.  This part
    follows the specification (sections 3, 4.2 and 4.3) and the values the
    tests assert. *)

Module NeuralNetwork.

Inductive LayerType : Type :=
| Scaling | Convolutional | Perceptron | Pooling | Probabilistic
| LongShortTermMemory | Recurrent | Unscaling | Bounding
| PrincipalComponents.

Definition LayerType_eqb (a b : LayerType) : bool :=
  match a, b with
  | Scaling, Scaling | Convolutional, Convolutional
  | Perceptron, Perceptron | Pooling, Pooling
  | Probabilistic, Probabilistic
  | LongShortTermMemory, LongShortTermMemory | Recurrent, Recurrent
  | Unscaling, Unscaling | Bounding, Bounding
  | PrincipalComponents, PrincipalComponents => true
  | _, _ => false
  end.

Inductive ProjectType : Type :=
| Approximation | Classification | Forecasting
| ImageApproximation | ImageClassification.

(** Modelled from the spec: the layer classes (layer.h, perceptron_layer.h
    and the like) are missing.  Section 3: a layer has a kind, a declared
    input and output shape and zero or more parameter blocks, which it
    owns; a Probabilistic layer also stores a decision threshold. *)
Record Layer : Type := {
  get_type : LayerType;
  layer_inputs_number : nat;
  layer_neurons_number : nat;
  parameter_blocks : list (list type);
  get_decision_threshold : type
}.

(** Modelled from the spec: [parameter_count()] of section 4.2. *)
Definition Layer_get_parameters_number (l : Layer) : nat :=
  list_sum (map (@length type) (parameter_blocks l)).

(** [write_at out position block] copies [block] over the coefficients
    of [out] that start at [position]. *)
Fixpoint write_at (out : list type) (position : nat) (block : list type)
  : list type :=
  match out, position with
  | [], _ => []
  | x :: out', S p => x :: write_at out' p block
  | x :: out', O =>
      match block with
      | [] => x :: out'
      | b :: block' => b :: write_at out' O block'
      end
  end.

(** Modelled from the spec: the layer's own [get_parameters()] (the layer
    classes are missing), its blocks one after another. *)
Definition Layer_get_parameters (l : Layer) : Tensor1 type :=
  concat (parameter_blocks l).

(** Modelled from the spec: [pack_parameters(out_slice)] of section 4.2,
    the slice being the part of the network's flat vector that starts at
    [position]. *)
Definition pack_parameters (l : Layer) (out : list type) (position : nat)
  : list type :=
  write_at out position (Layer_get_parameters l).

Fixpoint unpack_blocks (blocks : list (list type)) (slice : list type)
  : list (list type) :=
  match blocks with
  | [] => []
  | b :: blocks' =>
      firstn (length b) slice :: unpack_blocks blocks' (skipn (length b) slice)
  end.

(** Modelled from the spec: [unpack_parameters(in_slice)] of section 4.2;
    the blocks keep their sizes. *)
Definition unpack_parameters (l : Layer) (v : list type) (position : nat)
  : Layer :=
  {| get_type := get_type l;
     layer_inputs_number := layer_inputs_number l;
     layer_neurons_number := layer_neurons_number l;
     parameter_blocks := unpack_blocks (parameter_blocks l) (skipn position v);
     get_decision_threshold := get_decision_threshold l |}.

(** Modelled from the spec: which layers are trainable is not in the
    sources; [test_get_layers_number] counts seven trainable layers among
    one of each kind, all but Scaling, Unscaling and Bounding. *)
Definition is_trainable (l : Layer) : bool :=
  match get_type l with
  | Scaling | Unscaling | Bounding => false
  | _ => true
  end.

Section Layers.

Variable prec : Z.

(** The value of the [i]-th parameter of a fresh layer (drawn at random
    by the library). *)
Variable initial : nat -> type.

(** Modelled from the spec: a parameter block of a fresh layer (the layer
    classes are missing), of the size its shape gives. *)
Definition new_block (n : nat) : list type := map initial (seq 0 n).

(** Modelled from the spec: a layer of kind [t] with its shape and blocks
    (the layer classes are missing); the decision threshold starts at 0.5. *)
Definition plain_layer (t : LayerType) (inputs neurons : nat)
           (blocks : list (list type)) : Layer :=
  {| get_type := t;
     layer_inputs_number := inputs;
     layer_neurons_number := neurons;
     parameter_blocks := blocks;
     get_decision_threshold := type_half prec |}.

(** Modelled from the spec: Scaling, Unscaling and Bounding (their classes
    are missing) have no parameters, section 4.2. *)
Definition ScalingLayer (n : nat) : Layer := plain_layer Scaling n n [].
Definition UnscalingLayer (n : nat) : Layer := plain_layer Unscaling n n [].
Definition BoundingLayer (n : nat) : Layer := plain_layer Bounding n n [].

(** Modelled from the spec: a Perceptron owns [synaptic_weights]
    [n_in, n_out] and [biases] [n_out]; [test_get_trainable_layers_parameters]
    finds the weights before the biases in the layer's block. *)
Definition PerceptronLayer (inputs neurons : nat) : Layer :=
  plain_layer Perceptron inputs neurons
              [new_block (inputs * neurons); new_block neurons].

(** Modelled from the spec: probabilistic_layer.h is missing; the layer
    normalizes the logits of its neurons, with the blocks of a Perceptron. *)
Definition ProbabilisticLayer (inputs neurons : nat) : Layer :=
  plain_layer Probabilistic inputs neurons
              [new_block (inputs * neurons); new_block neurons].

(** Modelled from the spec: long_short_term_memory_layer.h is missing and
    section 4.2 does not fix the blocks of this kind; four gates, each
    with input weights, recurrent weights and biases. *)
Definition LongShortTermMemoryLayer (inputs neurons : nat) : Layer :=
  plain_layer LongShortTermMemory inputs neurons
              (concat (repeat [new_block (inputs * neurons);
                               new_block (neurons * neurons);
                               new_block neurons] 4)).

End Layers.

(** Modelled from the spec: section 3, an ordered sequence of layers with
    the names of the input and output variables. *)
Record NeuralNetwork : Type := {
  layers_pointers : list Layer;
  inputs_names : list string;
  outputs_names : list string
}.

(** Modelled from the spec: the default constructor and [set()] of the
    missing neural_network.cpp; [test_constructor] finds no layer. *)
Definition NeuralNetwork_default : NeuralNetwork :=
  {| layers_pointers := []; inputs_names := []; outputs_names := [] |}.

(** Modelled from the spec: the accessors of the missing neural_network.cpp
    that the tests and the modelled code call, read off the sequence of
    layers of section 3. *)
Definition is_empty (nn : NeuralNetwork) : bool :=
  match layers_pointers nn with [] => true | _ => false end.

Definition get_layers_number (nn : NeuralNetwork) : nat :=
  length (layers_pointers nn).

Definition get_layer_pointer (nn : NeuralNetwork) (i : nat) : option Layer :=
  nth_error (layers_pointers nn) i.

Definition get_layers_types (nn : NeuralNetwork) : list LayerType :=
  map get_type (layers_pointers nn).

(** Modelled from the spec: the trainable layers of the missing
    neural_network.cpp, in layer order, and their parameter counts
    (section 3: the sum of all trainable layers' parameter counts). *)
Definition get_trainable_layers_pointers (nn : NeuralNetwork) : list Layer :=
  filter is_trainable (layers_pointers nn).

Definition get_trainable_layers_parameters_numbers (nn : NeuralNetwork)
  : list nat :=
  map Layer_get_parameters_number (get_trainable_layers_pointers nn).

Definition get_parameters_number (nn : NeuralNetwork) : nat :=
  list_sum (get_trainable_layers_parameters_numbers nn).

(** Modelled from the spec: [get_probabilistic_layer_pointer()] of the
    missing neural_network.cpp, the first Probabilistic layer and
    [nullptr] when there is none. *)
Definition get_probabilistic_layer_pointer (nn : NeuralNetwork) : option Layer :=
  find (fun l => LayerType_eqb (get_type l) Probabilistic) (layers_pointers nn).

(** Modelled from the spec: [get_inputs_number()] and [get_outputs_number()]
    of the missing neural_network.cpp, the input shape of the first layer
    and the output shape of the last one (section 3). *)
Definition get_inputs_number (nn : NeuralNetwork) : nat :=
  match layers_pointers nn with
  | [] => 0
  | l :: _ => layer_inputs_number l
  end.

Definition get_outputs_number (nn : NeuralNetwork) : nat :=
  layer_neurons_number
    (last (layers_pointers nn)
          {| get_type := Scaling; layer_inputs_number := 0;
             layer_neurons_number := 0; parameter_blocks := [];
             get_decision_threshold := type_zero |}).

(** Modelled from the spec: one turn of the loop of [get_parameters()]
    (neural_network.cpp is missing), a trainable layer packing its
    parameters into its slice and the position advancing by its count. *)
Definition pack_step (acc : list type * nat) (l : Layer) : list type * nat :=
  (pack_parameters l (fst acc) (snd acc),
   snd acc + Layer_get_parameters_number l).

(** Modelled from the spec: [get_parameters()] of section 4.3, "a single
    flat parameter vector by concatenating per-layer parameter blocks in
    layer order": a vector of [get_parameters_number] coefficients is
    allocated and every trainable layer packs its parameters into its
    slice, the position advancing by the layer's parameter count. *)
Definition get_parameters (nn : NeuralNetwork) : Tensor1 type :=
  fst (fold_left pack_step (get_trainable_layers_pointers nn)
                 (repeat type_zero (get_parameters_number nn), 0)).

(** Modelled from the spec: the loop of [set_parameters(flat_vector)]
    (neural_network.cpp is missing), every trainable layer unpacking its
    slice in layer order. *)
Fixpoint set_layers_parameters (layers : list Layer) (v : list type)
         (position : nat) : list Layer :=
  match layers with
  | [] => []
  | l :: layers' =>
      if is_trainable l then
        unpack_parameters l v position
          :: set_layers_parameters layers' v
               (position + Layer_get_parameters_number l)
      else l :: set_layers_parameters layers' v position
  end.

(** Modelled from the spec: [set_parameters(flat_vector)] of section 4.3;
    a vector of another length is a shape mismatch, which sections 4.1
    and 7 want reported. *)
Definition set_parameters (new_parameters : Tensor1 type) (nn : NeuralNetwork)
  : result NeuralNetwork :=
  if length new_parameters =? get_parameters_number nn then
    Ok {| layers_pointers :=
            set_layers_parameters (layers_pointers nn) new_parameters 0;
          inputs_names := inputs_names nn;
          outputs_names := outputs_names nn |}
  else Throw "ShapeMismatch".

Section Construction.

Variable prec : Z.
Variable initial : nat -> type.

(** Modelled from the spec: the hidden and output transforms of the
    construction shortcut (neural_network.cpp is missing), one Perceptron
    layer for every pair of consecutive sizes. *)
Fixpoint perceptron_layers (inputs : nat) (sizes : list nat) : list Layer :=
  match sizes with
  | [] => []
  | n :: sizes' =>
      PerceptronLayer prec initial inputs n :: perceptron_layers n sizes'
  end.

(** Modelled from the spec: the construction shortcut of section 4.3,
    [NeuralNetwork(model_type, architecture)] and
    [set(model_type, architecture)].  Section 3 puts one Scaling layer
    at position 0, ends a regression net with Unscaling and Bounding
    and a classification net with Probabilistic; [test_constructor]
    gives the stacks of the five model types. *)
Definition layers_of (model_type : ProjectType) (architecture : list nat)
  : list Layer :=
  match architecture with
  | [] | [_] => []
  | inputs_number :: rest =>
      let outputs_number := last rest 0 in
      ScalingLayer prec inputs_number ::
      match model_type with
      | Approximation =>
          perceptron_layers inputs_number rest
            ++ [UnscalingLayer prec outputs_number;
                BoundingLayer prec outputs_number]
      | Classification =>
          perceptron_layers inputs_number (removelast rest)
            ++ [ProbabilisticLayer prec initial
                  (last (removelast architecture) 0) outputs_number]
      | Forecasting =>
          match rest with
          | [] => []
          | h :: rest' =>
              LongShortTermMemoryLayer prec initial inputs_number h
                :: perceptron_layers h rest'
                ++ [UnscalingLayer prec outputs_number]
          end
      | ImageApproximation | ImageClassification => []
      end
  end.

(** Modelled from the spec: [set(model_type, architecture)] of the missing
    neural_network.cpp; as many unnamed inputs and outputs as the
    architecture has at its ends. *)
Definition set (model_type : ProjectType) (architecture : list nat)
  : NeuralNetwork :=
  {| layers_pointers := layers_of model_type architecture;
     inputs_names := repeat EmptyString (hd 0 architecture);
     outputs_names := repeat EmptyString (last architecture 0) |}.

End Construction.

End NeuralNetwork.

(* ================================================================== *)
(** * Collaborators of the testing analysis and of model selection *)

(** Modelled from the spec: data_set.h is missing.  Section 3 makes the
    data set an external collaborator known by its accessors; these are
    the ones the modelled code calls. *)
Record DataSet : Type := {
  get_input_variables_number : nat;
  get_target_variables_number : nat;
  get_training_instances_number : Index;
  get_selection_instances_number : Index;
  get_testing_input_data : Tensor2 type;
  get_testing_target_data : Tensor2 type;
  calculate_target_distribution : Tensor1 Index
}.

Definition nl : string := String (Ascii.ascii_of_nat 10) EmptyString.

(** [buffer << i] for an [Index]. *)
Definition string_of_Index (i : Index) : string :=
  DecimalString.NilZero.string_of_int (Z.to_int i).

(** [p->...] on a pointer that may be null. *)
Definition deref {A : Type} (p : option A) : result A :=
  match p with
  | Some a => Ok a
  | None => Undefined
  end.

(* ================================================================== *)
(** * Testing analysis (testing_analysis.cpp) *)

Module TestingAnalysis.

Import NeuralNetwork.

Record TestingAnalysis : Type := {
  neural_network_pointer : option NeuralNetwork;
  data_set_pointer : option DataSet;
  display : bool
}.

(** The four counters of the binary confusion loop. *)
Record Counters : Type := {
  true_positive : Index;
  false_negative : Index;
  false_positive : Index;
  true_negative : Index
}.

(** The coefficients a freshly allocated [Tensor<Index, 2>] holds before
    any of them is assigned: Eigen leaves them as the memory was. *)
Definition Tensor2_allocate (memory : nat -> Index) (rows columns : nat)
  : Tensor2 Index :=
  {| dimension0 := rows; dimension1 := columns;
     coefficients := map memory (seq 0 (rows * columns)) |}.

(** The sum of row [r] of a confusion matrix with two columns. *)
Definition row_sum (confusion : Tensor2 Index) (r : nat) : result Index :=
  a <- at2 confusion r 0 ;;
  b <- at2 confusion r 1 ;;
  Ok (a + b)%Z.

(** The counters of the binary confusion loop, and no counter. *)
Inductive Cell : Type :=
| TruePositive | FalseNegative | FalsePositive | TrueNegative | Uncounted.

Definition increment (cell : Cell) (c : Counters) : Counters :=
  match cell with
  | TruePositive =>
      {| true_positive := true_positive c + 1;
         false_negative := false_negative c;
         false_positive := false_positive c;
         true_negative := true_negative c |}
  | FalseNegative =>
      {| true_positive := true_positive c;
         false_negative := false_negative c + 1;
         false_positive := false_positive c;
         true_negative := true_negative c |}
  | FalsePositive =>
      {| true_positive := true_positive c;
         false_negative := false_negative c;
         false_positive := false_positive c + 1;
         true_negative := true_negative c |}
  | TrueNegative =>
      {| true_positive := true_positive c;
         false_negative := false_negative c;
         false_positive := false_positive c;
         true_negative := true_negative c + 1 |}
  | Uncounted => c
  end%Z.

(** The row of the confusion matrix a counter belongs to. *)
Definition in_first_row (cell : Cell) : bool :=
  match cell with TruePositive | FalseNegative => true | _ => false end.

Definition in_second_row (cell : Cell) : bool :=
  match cell with FalsePositive | TrueNegative => true | _ => false end.

Section Methods.

(** The format of [type]. *)
Variables prec emax : Z.

(** Whether __OPENNN_DEBUG__ is defined. *)
Variable OPENNN_DEBUG : bool.

(** [NeuralNetwork::calculate_outputs], the forward pass. *)
Variable calculate_outputs : NeuralNetwork -> Tensor2 type -> Tensor2 type.

(** The contents of fresh memory. *)
Variable memory : nat -> Index.

Let zero := type_zero.
Let one := type_one prec.
Let half := type_half prec.

(** [void TestingAnalysis::check() const] *)
Definition check (ta : TestingAnalysis) : result unit :=
  match neural_network_pointer ta with
  | None =>
      Throw ("OpenNN Exception: TestingAnalysis class." ++ nl
             ++ "void check() const method." ++ nl
             ++ "Neural network pointer is nullptr." ++ nl)
  | Some _ =>
      match data_set_pointer ta with
      | None =>
          Throw ("OpenNN Exception: TestingAnalysis class." ++ nl
                 ++ "void check() const method." ++ nl
                 ++ "Data set pointer is nullptr." ++ nl)
      | Some _ => Ok tt
      end
  end.

(** type calculate_testing_weighted_squared_error(targets, outputs, weights):
    the loop and the normalization are commented out in the source. *)
Definition calculate_testing_weighted_squared_error
           (ta : TestingAnalysis) (targets outputs : Tensor2 type)
           (weights : Tensor1 type) : result type :=
  let testing_instances_number := dimension0 targets in
  let outputs_number := dimension1 outputs in
  _ <- (if OPENNN_DEBUG && negb (outputs_number =? 1) then
          Throw ("OpenNN Exception: TestingAnalysis class." ++ nl
                 ++ "type calculate_testing_weighted_squared_error(const Tensor<type, 2>&, const Tensor<type, 2>&, const Tensor<type, 1>&) const."
                 ++ nl ++ "Number of outputs must be one." ++ nl)
        else Ok tt) ;;
  _ <- (if negb (length weights =? 2) then
          data_set <- deref (data_set_pointer ta) ;;
          let target_distribution := calculate_target_distribution data_set in
          negatives_number <- at1 target_distribution 0 ;;
          positives_number <- at1 target_distribution 1 ;;
          if (positives_number =? 0)%Z then Undefined
          else
            let negatives_weight := one in
            let positives_weight :=
              type_of_Index prec emax (Z.quot negatives_number positives_number) in
            Ok (positives_weight, negatives_weight)
        else
          positives_weight <- at1 weights 0 ;;
          negatives_weight <- at1 weights 1 ;;
          Ok (positives_weight, negatives_weight)) ;;
  let error := zero in
  let sum_squared_error := zero in
  Ok zero.

(** One turn of the loop of [calculate_confusion_binary_classification].
    [outputs(i,0)] is read only where the C++ conditions evaluate it. *)
Definition confusion_body (targets outputs : Tensor2 type)
           (decision_threshold : type) (i : nat) (c : Counters)
  : result Counters :=
  t <- at2 targets i 0 ;;
  if SFeqb decision_threshold zero && SFeqb t zero then
    Ok {| true_positive := true_positive c;
          false_negative := false_negative c;
          false_positive := false_positive c + 1;
          true_negative := true_negative c |}%Z
  else if SFeqb decision_threshold zero && SFeqb t one then
    Ok {| true_positive := true_positive c + 1;
          false_negative := false_negative c;
          false_positive := false_positive c;
          true_negative := true_negative c |}%Z
  else if SFleb decision_threshold t then
    o <- at2 outputs i 0 ;;
    if SFleb decision_threshold o then
      Ok {| true_positive := true_positive c + 1;
            false_negative := false_negative c;
            false_positive := false_positive c;
            true_negative := true_negative c |}%Z
    else if SFltb o decision_threshold then
      Ok {| true_positive := true_positive c;
            false_negative := false_negative c + 1;
            false_positive := false_positive c;
            true_negative := true_negative c |}%Z
    else Ok c
  else if SFltb t decision_threshold then
    o <- at2 outputs i 0 ;;
    if SFleb decision_threshold o then
      Ok {| true_positive := true_positive c;
            false_negative := false_negative c;
            false_positive := false_positive c + 1;
            true_negative := true_negative c |}%Z
    else if SFltb o decision_threshold then
      Ok {| true_positive := true_positive c;
            false_negative := false_negative c;
            false_positive := false_positive c;
            true_negative := true_negative c + 1 |}%Z
    else Ok c
  else Ok c.

Definition Counters_zero : Counters :=
  {| true_positive := 0; false_negative := 0;
     false_positive := 0; true_negative := 0 |}%Z.

(** [confusion(0,0) = true_positive; confusion(0,1) = false_negative;
    confusion(1,0) = false_positive; confusion(1,1) = true_negative],
    in column-major order. *)
Definition confusion_of_counters (c : Counters) : Tensor2 Index :=
  {| dimension0 := 2; dimension1 := 2;
     coefficients := [true_positive c; false_positive c;
                      false_negative c; true_negative c] |}.

(** Tensor<Index, 2> calculate_confusion_binary_classification(targets,
    outputs, decision_threshold) *)
Definition calculate_confusion_binary_classification
           (targets outputs : Tensor2 type) (decision_threshold : type)
  : result (Tensor2 Index) :=
  let rows_number := dimension0 targets in
  c <- for_each (confusion_body targets outputs decision_threshold)
                (seq 0 rows_number) Counters_zero ;;
  Ok (confusion_of_counters c).

(** Tensor<Index, 2> calculate_confusion_multiple_classification(targets,
    outputs): the counting loop is commented out in the source. *)
Definition calculate_confusion_multiple_classification
           (targets outputs : Tensor2 type) : result (Tensor2 Index) :=
  let rows_number := dimension0 targets in
  let columns_number := dimension1 targets in
  let confusion := Tensor2_allocate memory columns_number columns_number in
  let target_index := 0%Z in
  let output_index := 0%Z in
  Ok confusion.

(** Tensor<Index, 1> calculate_positives_negatives_rate(targets, outputs) *)
Definition calculate_positives_negatives_rate
           (targets outputs : Tensor2 type) : result (Tensor1 Index) :=
  confusion <- calculate_confusion_binary_classification targets outputs half ;;
  c00 <- at2 confusion 0 0 ;;
  c01 <- at2 confusion 0 1 ;;
  c10 <- at2 confusion 1 0 ;;
  c11 <- at2 confusion 1 1 ;;
  Ok [(c00 + c01)%Z; (c10 + c11)%Z].

(** Tensor<Index, 2> calculate_confusion() const *)
Definition calculate_confusion (ta : TestingAnalysis)
  : result (Tensor2 Index) :=
  neural_network <- deref (neural_network_pointer ta) ;;
  let outputs_number := get_outputs_number neural_network in
  _ <- (if OPENNN_DEBUG then
          _ <- check ta ;;
          data_set <- deref (data_set_pointer ta) ;;
          let inputs_number := get_inputs_number neural_network in
          if negb (inputs_number =? get_input_variables_number data_set) then
            Throw ("OpenNN Exception: TestingAnalysis class." ++ nl
                   ++ "Tensor<Index, 2> calculate_confusion() const method." ++ nl
                   ++ "Number of inputs in neural network must be equal to number of inputs in data set."
                   ++ nl)
          else if negb (outputs_number =? get_target_variables_number data_set) then
            Throw ("OpenNN Exception: TestingAnalysis class." ++ nl
                   ++ "Tensor<Index, 2> calculate_confusion() const method." ++ nl
                   ++ "Number of outputs in neural network must be equal to number of targets in data set."
                   ++ nl)
          else Ok tt
        else Ok tt) ;;
  data_set <- deref (data_set_pointer ta) ;;
  let inputs := get_testing_input_data data_set in
  let targets := get_testing_target_data data_set in
  let outputs := calculate_outputs neural_network inputs in
  if outputs_number =? 1 then
    let decision_threshold :=
      match get_probabilistic_layer_pointer neural_network with
      | Some probabilistic_layer => get_decision_threshold probabilistic_layer
      | None => half
      end in
    calculate_confusion_binary_classification targets outputs decision_threshold
  else
    calculate_confusion_multiple_classification targets outputs.

(** type calculate_Wilcoxon_parameter(x, y) *)
Definition calculate_Wilcoxon_parameter (x y : type) : type :=
  if SFltb y x then one
  else if SFltb x y then zero
  else half.

(** Tensor<type, 2> calculate_roc_curve(targets, outputs): the sorting
    and the curve are commented out in the source; [step_size] and
    [points_number] are computed and not used. *)
Definition calculate_roc_curve (targets outputs : Tensor2 type)
  : result (Tensor2 type) :=
  positives_negatives_rate <- calculate_positives_negatives_rate targets outputs ;;
  total_positives <- at1 positives_negatives_rate 0 ;;
  total_negatives <- at1 positives_negatives_rate 1 ;;
  if (total_positives =? 0)%Z then
    Throw ("OpenNN Exception: TestingAnalysis class." ++ nl
           ++ "Tensor<type, 2> calculate_roc_curve(const Tensor<type, 2>&, const Tensor<type, 2>&) const."
           ++ nl ++ "Number of positive instances ("
           ++ string_of_Index total_positives
           ++ ") must be greater than zero." ++ nl)
  else if (total_negatives =? 0)%Z then
    Throw ("OpenNN Exception: TestingAnalysis class." ++ nl
           ++ "Tensor<type, 2> calculate_roc_curve(const Tensor<type, 2>&, const Tensor<type, 2>&) const."
           ++ nl ++ "Number of negative instances ("
           ++ string_of_Index total_negatives
           ++ ") must be greater than zero." ++ nl)
  else
    let maximum_points_number := 1000%Z in
    let testing_instances_number := Z.of_nat (dimension0 targets) in
    let step_size :=
      if (maximum_points_number <? testing_instances_number)%Z then
        Index_of_type (SFdiv prec emax
                         (type_of_Index prec emax testing_instances_number)
                         (type_of_Index prec emax maximum_points_number))
      else 1%Z in
    let points_number :=
      if (maximum_points_number <? testing_instances_number)%Z then
        Index_of_type (SFdiv prec emax
                         (type_of_Index prec emax testing_instances_number)
                         (type_of_Index prec emax step_size))
      else testing_instances_number in
    Ok (Tensor2_empty type).

(** The two nested loops of [calculate_area_under_curve], taken in index
    order (the OpenMP reduction may add the terms in another order). *)
Definition area_inner (targets outputs : Tensor2 type) (i j : nat)
           (sum : type) : result type :=
  tj <- at2 targets j 0 ;;
  if near_zero tj then
    oi <- at2 outputs i 0 ;;
    oj <- at2 outputs j 0 ;;
    Ok (SFadd prec emax sum (calculate_Wilcoxon_parameter oi oj))
  else Ok sum.

Definition area_outer (targets outputs : Tensor2 type)
           (testing_instances_number i : nat) (sum : type) : result type :=
  ti <- at2 targets i 0 ;;
  if near_one ti then
    for_each (area_inner targets outputs i) (seq 0 testing_instances_number) sum
  else Ok sum.

(** type calculate_area_under_curve(targets, outputs) *)
Definition calculate_area_under_curve (targets outputs : Tensor2 type)
  : result type :=
  positives_negatives_rate <- calculate_positives_negatives_rate targets outputs ;;
  total_positives <- at1 positives_negatives_rate 0 ;;
  total_negatives <- at1 positives_negatives_rate 1 ;;
  if (total_positives =? 0)%Z then
    Throw ("OpenNN Exception: TestingAnalysis class." ++ nl
           ++ "Tensor<type, 2> calculate_roc_curve(const Tensor<type, 2>&, const Tensor<type, 2>&) const."
           ++ nl ++ "Number of positive instances("
           ++ string_of_Index total_positives
           ++ ") must be greater than zero." ++ nl)
  else if (total_negatives =? 0)%Z then
    Throw ("OpenNN Exception: TestingAnalysis class." ++ nl
           ++ "Tensor<type, 2> calculate_roc_curve(const Tensor<type, 2>&, const Tensor<type, 2>&) const."
           ++ nl ++ "Number of negative instances("
           ++ string_of_Index total_negatives
           ++ ") must be greater than zero." ++ nl)
  else
    let testing_instances_number := dimension0 targets in
    sum <- for_each (area_outer targets outputs testing_instances_number)
                    (seq 0 testing_instances_number) zero ;;
    let area_under_curve :=
      SFdiv prec emax sum
            (type_of_Index prec emax
               (Index_wrap (total_positives * total_negatives))) in
    Ok area_under_curve.

(** ** Notions of the specification *)

(** A positive instance has target 1, a negative instance target 0. *)
Definition positive_instance (t o : type) : bool := SFeqb t one.
Definition negative_instance (t o : type) : bool := SFeqb t zero.

(** At the decision threshold 0.5 a target that is at least 0.5 is a
    positive, a target below 0.5 a negative. *)
Definition positive_at_half (t o : type) : bool := SFleb half t.
Definition negative_at_half (t o : type) : bool := SFltb t half.

(** The instances whose output is a number. *)
Definition counted_positive (t o : type) : bool :=
  SFleb half t && negb (is_nan o).
Definition counted_negative (t o : type) : bool :=
  SFltb t half && negb (is_nan o).

(** The counter that a row with target [t] and output [o] increments. *)
Definition cell_of (decision_threshold t o : type) : Cell :=
  if SFeqb decision_threshold zero && SFeqb t zero then FalsePositive
  else if SFeqb decision_threshold zero && SFeqb t one then TruePositive
  else if SFleb decision_threshold t then
    if SFleb decision_threshold o then TruePositive
    else if SFltb o decision_threshold then FalseNegative
    else Uncounted
  else if SFltb t decision_threshold then
    if SFleb decision_threshold o then FalsePositive
    else if SFltb o decision_threshold then TrueNegative
    else Uncounted
  else Uncounted.

End Methods.

End TestingAnalysis.

(* ================================================================== *)
(** * XML documents (tinyxml2, as far as model selection uses it) *)

#[warnings="-register-all"]
Inductive XMLNode : Type :=
| XMLElement (name : string) (attributes : list (string * string))
             (children : list XMLNode)
| XMLText (value : string).

(** The top-level nodes of a document. *)
Definition XMLDocument : Type := list XMLNode.

Definition XMLNode_children (n : XMLNode) : list XMLNode :=
  match n with
  | XMLElement _ _ children => children
  | XMLText _ => []
  end.

(** [FirstChildElement(name)] among the nodes [l]. *)
Fixpoint FirstChildElement (name : string) (l : list XMLNode) : option XMLNode :=
  match l with
  | [] => None
  | XMLElement name' attributes children :: l' =>
      if String.eqb name' name then Some (XMLElement name' attributes children)
      else FirstChildElement name l'
  | XMLText _ :: l' => FirstChildElement name l'
  end.

(** [Attribute(name)] *)
Fixpoint lookup_attribute (name : string) (attributes : list (string * string))
  : option string :=
  match attributes with
  | [] => None
  | (k, v) :: attributes' =>
      if String.eqb k name then Some v else lookup_attribute name attributes'
  end.

Definition Attribute (name : string) (n : XMLNode) : option string :=
  match n with
  | XMLElement _ attributes _ => lookup_attribute name attributes
  | XMLText _ => None
  end.

(** [DeepClone(document)]: a copy of the node and of all its descendants. *)
Fixpoint DeepClone (n : XMLNode) : XMLNode :=
  match n with
  | XMLElement name attributes children =>
      XMLElement name attributes (map DeepClone children)
  | XMLText value => XMLText value
  end.

(** The loop [for(nodeFor = e->FirstChild(); nodeFor; nodeFor = nodeFor->NextSibling())]
    that clones every child of [e] and appends it to a new parent. *)
Definition clone_children (e : XMLNode) : list XMLNode :=
  map DeepClone (XMLNode_children e).

(* ================================================================== *)
(** * Model selection (model_selection.cpp) *)

Module ModelSelection.

Import NeuralNetwork.

(** Modelled from the spec: loss_index.h and training_strategy.h are
    missing; [check] follows their pointers. *)
Record LossIndex : Type := {
  get_neural_network_pointer : option NeuralNetwork;
  get_data_set_pointer : option DataSet
}.

Record TrainingStrategy : Type := {
  get_loss_index_pointer : option LossIndex
}.

Inductive NeuronsSelectionMethod : Type :=
| NO_NEURONS_SELECTION | INCREMENTAL_NEURONS.

Inductive InputsSelectionMethod : Type :=
| NO_INPUTS_SELECTION | GROWING_INPUTS | PRUNING_INPUTS | GENETIC_ALGORITHM.

(** The four selection algorithm classes. *)
Inductive AlgorithmClass : Type :=
| IncrementalNeurons | GrowingInputs | PruningInputs | GeneticAlgorithm.

Definition class_name (k : AlgorithmClass) : string :=
  match k with
  | IncrementalNeurons => "IncrementalNeurons"
  | GrowingInputs => "GrowingInputs"
  | PruningInputs => "PruningInputs"
  | GeneticAlgorithm => "GeneticAlgorithm"
  end.

Section Algorithms.

(** Modelled from the spec: incremental_neurons.h, growing_inputs.h,
    pruning_inputs.h and genetic_algorithm.h are missing.  Section 6
    makes a child component an opaque block of the XML format: an
    object of class [k] holds its back-pointer to the training strategy
    and its [Settings]; [write_settings k] gives the nodes its [to_XML]
    puts under the root element named after the class, and
    [read_settings k] is what its [from_XML] makes of such nodes. *)
Variable Settings : Type.
Variable default_settings : AlgorithmClass -> Settings.
Variable write_settings : AlgorithmClass -> Settings -> list XMLNode.
Variable read_settings :
  AlgorithmClass -> list XMLNode -> Settings -> result Settings.

Record Algorithm : Type := {
  algorithm_training_strategy_pointer : option TrainingStrategy;
  settings : Settings
}.

(** [new K] and [new K(training_strategy_pointer)] *)
Definition new_Algorithm (k : AlgorithmClass)
           (new_training_strategy_pointer : option TrainingStrategy)
  : Algorithm :=
  {| algorithm_training_strategy_pointer := new_training_strategy_pointer;
     settings := default_settings k |}.

Definition Algorithm_set_training_strategy_pointer
           (new_training_strategy_pointer : option TrainingStrategy)
           (a : Algorithm) : Algorithm :=
  {| algorithm_training_strategy_pointer := new_training_strategy_pointer;
     settings := settings a |}.

Definition Algorithm_to_XML (k : AlgorithmClass) (a : Algorithm)
  : XMLDocument :=
  [XMLElement (class_name k) [] (write_settings k (settings a))].

Definition Algorithm_from_XML (k : AlgorithmClass) (document : XMLDocument)
           (a : Algorithm) : result Algorithm :=
  match FirstChildElement (class_name k) document with
  | None =>
      Throw ("OpenNN Exception: " ++ class_name k ++ " class." ++ nl
             ++ "void from_XML(const tinyxml2::XMLDocument&) method." ++ nl
             ++ class_name k ++ " element is nullptr." ++ nl)
  | Some root_element =>
      s <- read_settings k (XMLNode_children root_element) (settings a) ;;
      Ok {| algorithm_training_strategy_pointer :=
              algorithm_training_strategy_pointer a;
            settings := s |}
  end.

Record ModelSelection : Type := {
  training_strategy_pointer : option TrainingStrategy;
  incremental_neurons_pointer : option Algorithm;
  growing_inputs_pointer : option Algorithm;
  pruning_inputs_pointer : option Algorithm;
  genetic_algorithm_pointer : option Algorithm;
  neurons_selection_method : NeuronsSelectionMethod;
  inputs_selection_method : InputsSelectionMethod;
  display : bool
}.

(** ** Methods that change the object

    A method is a function of the object that gives its outcome and
    the object as the method leaves it, also when it throws. *)
Definition M (A : Type) : Type :=
  ModelSelection -> result A * ModelSelection.

Definition ret {A : Type} (a : A) : M A := fun ms => (Ok a, ms).

Definition throw {A : Type} (what : string) : M A :=
  fun ms => (Throw what, ms).

Definition lift {A : Type} (r : result A) : M A := fun ms => (r, ms).

Definition get : M ModelSelection := fun ms => (Ok ms, ms).

Definition modify (f : ModelSelection -> ModelSelection) : M unit :=
  fun ms => (Ok tt, f ms).

Definition then_ {A B : Type} (c : M A) (k : A -> M B) : M B :=
  fun ms =>
    match c ms with
    | (Ok a, ms') => k a ms'
    | (Throw what, ms') => (Throw what, ms')
    | (Undefined, ms') => (Undefined, ms')
    end.

Notation "x <~ c ;; k" := (then_ c (fun x => k))
  (at level 61, c at next level, right associativity).

(** Assignments to the members. *)
Definition set_incremental_neurons (p : option Algorithm) (ms : ModelSelection) :=
  {| training_strategy_pointer := training_strategy_pointer ms;
     incremental_neurons_pointer := p;
     growing_inputs_pointer := growing_inputs_pointer ms;
     pruning_inputs_pointer := pruning_inputs_pointer ms;
     genetic_algorithm_pointer := genetic_algorithm_pointer ms;
     neurons_selection_method := neurons_selection_method ms;
     inputs_selection_method := inputs_selection_method ms;
     display := display ms |}.

Definition set_growing_inputs (p : option Algorithm) (ms : ModelSelection) :=
  {| training_strategy_pointer := training_strategy_pointer ms;
     incremental_neurons_pointer := incremental_neurons_pointer ms;
     growing_inputs_pointer := p;
     pruning_inputs_pointer := pruning_inputs_pointer ms;
     genetic_algorithm_pointer := genetic_algorithm_pointer ms;
     neurons_selection_method := neurons_selection_method ms;
     inputs_selection_method := inputs_selection_method ms;
     display := display ms |}.

Definition set_pruning_inputs (p : option Algorithm) (ms : ModelSelection) :=
  {| training_strategy_pointer := training_strategy_pointer ms;
     incremental_neurons_pointer := incremental_neurons_pointer ms;
     growing_inputs_pointer := growing_inputs_pointer ms;
     pruning_inputs_pointer := p;
     genetic_algorithm_pointer := genetic_algorithm_pointer ms;
     neurons_selection_method := neurons_selection_method ms;
     inputs_selection_method := inputs_selection_method ms;
     display := display ms |}.

Definition set_genetic_algorithm (p : option Algorithm) (ms : ModelSelection) :=
  {| training_strategy_pointer := training_strategy_pointer ms;
     incremental_neurons_pointer := incremental_neurons_pointer ms;
     growing_inputs_pointer := growing_inputs_pointer ms;
     pruning_inputs_pointer := pruning_inputs_pointer ms;
     genetic_algorithm_pointer := p;
     neurons_selection_method := neurons_selection_method ms;
     inputs_selection_method := inputs_selection_method ms;
     display := display ms |}.

Definition set_neurons_method (m : NeuronsSelectionMethod) (ms : ModelSelection) :=
  {| training_strategy_pointer := training_strategy_pointer ms;
     incremental_neurons_pointer := incremental_neurons_pointer ms;
     growing_inputs_pointer := growing_inputs_pointer ms;
     pruning_inputs_pointer := pruning_inputs_pointer ms;
     genetic_algorithm_pointer := genetic_algorithm_pointer ms;
     neurons_selection_method := m;
     inputs_selection_method := inputs_selection_method ms;
     display := display ms |}.

Definition set_inputs_method (m : InputsSelectionMethod) (ms : ModelSelection) :=
  {| training_strategy_pointer := training_strategy_pointer ms;
     incremental_neurons_pointer := incremental_neurons_pointer ms;
     growing_inputs_pointer := growing_inputs_pointer ms;
     pruning_inputs_pointer := pruning_inputs_pointer ms;
     genetic_algorithm_pointer := genetic_algorithm_pointer ms;
     neurons_selection_method := neurons_selection_method ms;
     inputs_selection_method := m;
     display := display ms |}.

Definition set_display_member (b : bool) (ms : ModelSelection) :=
  {| training_strategy_pointer := training_strategy_pointer ms;
     incremental_neurons_pointer := incremental_neurons_pointer ms;
     growing_inputs_pointer := growing_inputs_pointer ms;
     pruning_inputs_pointer := pruning_inputs_pointer ms;
     genetic_algorithm_pointer := genetic_algorithm_pointer ms;
     neurons_selection_method := neurons_selection_method ms;
     inputs_selection_method := inputs_selection_method ms;
     display := b |}.

(** void destruct_neurons_selection() *)
Definition destruct_neurons_selection (ms : ModelSelection) : ModelSelection :=
  set_neurons_method NO_NEURONS_SELECTION (set_incremental_neurons None ms).

(** void destruct_inputs_selection() *)
Definition destruct_inputs_selection (ms : ModelSelection) : ModelSelection :=
  set_inputs_method NO_INPUTS_SELECTION
    (set_genetic_algorithm None
       (set_pruning_inputs None (set_growing_inputs None ms))).

(** void set_neurons_selection_method(const NeuronsSelectionMethod&) *)
Definition set_neurons_selection_method
           (new_neurons_selection_method : NeuronsSelectionMethod)
           (ms : ModelSelection) : ModelSelection :=
  let ms := destruct_neurons_selection ms in
  let ms := set_neurons_method new_neurons_selection_method ms in
  match new_neurons_selection_method with
  | NO_NEURONS_SELECTION => ms
  | INCREMENTAL_NEURONS =>
      set_incremental_neurons
        (Some (new_Algorithm IncrementalNeurons (training_strategy_pointer ms)))
        ms
  end.

(** [p = new K; if(training_strategy_pointer != nullptr)
    p->set_training_strategy_pointer(training_strategy_pointer);] *)
Definition new_with_training_strategy (k : AlgorithmClass)
           (ms : ModelSelection) : Algorithm :=
  let a := new_Algorithm k None in
  match training_strategy_pointer ms with
  | Some ts => Algorithm_set_training_strategy_pointer (Some ts) a
  | None => a
  end.

(** void set_inputs_selection_method(const InputsSelectionMethod&) *)
Definition set_inputs_selection_method
           (new_inputs_selection_method : InputsSelectionMethod)
           (ms : ModelSelection) : ModelSelection :=
  let ms := destruct_inputs_selection ms in
  let ms := set_inputs_method new_inputs_selection_method ms in
  match new_inputs_selection_method with
  | NO_INPUTS_SELECTION => ms
  | GROWING_INPUTS =>
      let ms := set_growing_inputs (Some (new_Algorithm GrowingInputs None)) ms in
      let ms :=
        set_incremental_neurons
          (Some (new_Algorithm IncrementalNeurons (training_strategy_pointer ms)))
          ms in
      set_growing_inputs (Some (new_with_training_strategy GrowingInputs ms)) ms
  | PRUNING_INPUTS =>
      set_pruning_inputs (Some (new_with_training_strategy PruningInputs ms)) ms
  | GENETIC_ALGORITHM =>
      set_genetic_algorithm (Some (new_with_training_strategy GeneticAlgorithm ms)) ms
  end.

(** void set_neurons_selection_method(const string&) *)
Definition set_neurons_selection_method_string
           (new_neurons_selection_method : string) : M unit :=
  if String.eqb new_neurons_selection_method "NO_NEURONS_SELECTION" then
    modify (set_neurons_selection_method NO_NEURONS_SELECTION)
  else if String.eqb new_neurons_selection_method "INCREMENTAL_NEURONS" then
    modify (set_neurons_selection_method INCREMENTAL_NEURONS)
  else
    throw ("OpenNN Exception: ModelSelection class." ++ nl
           ++ "void set_neurons_selection_method(const string&) method." ++ nl
           ++ "Unknown order selection type: " ++ new_neurons_selection_method
           ++ "." ++ nl).

(** void set_inputs_selection_method(const string&) *)
Definition set_inputs_selection_method_string
           (new_inputs_selection_method : string) : M unit :=
  if String.eqb new_inputs_selection_method "NO_INPUTS_SELECTION" then
    modify (set_inputs_selection_method NO_INPUTS_SELECTION)
  else if String.eqb new_inputs_selection_method "GROWING_INPUTS" then
    modify (set_inputs_selection_method GROWING_INPUTS)
  else if String.eqb new_inputs_selection_method "PRUNING_INPUTS" then
    modify (set_inputs_selection_method PRUNING_INPUTS)
  else if String.eqb new_inputs_selection_method "GENETIC_ALGORITHM" then
    modify (set_inputs_selection_method GENETIC_ALGORITHM)
  else
    throw ("OpenNN Exception: ModelSelection class." ++ nl
           ++ "void set_inputs_selection_method(const string&) method." ++ nl
           ++ "Unknown inputs selection type: " ++ new_inputs_selection_method
           ++ "." ++ nl).

(** void set_default() *)
Definition set_default (ms : ModelSelection) : ModelSelection :=
  set_display_member true
    (set_inputs_selection_method GROWING_INPUTS
       (set_neurons_selection_method INCREMENTAL_NEURONS ms)).

(** The default constructor and the training strategy constructor: the
    two methods are set by [set_default] before anything reads them. *)
Definition ModelSelection_new
           (new_training_strategy_pointer : option TrainingStrategy)
  : ModelSelection :=
  set_default
    {| training_strategy_pointer := new_training_strategy_pointer;
       incremental_neurons_pointer := None;
       growing_inputs_pointer := None;
       pruning_inputs_pointer := None;
       genetic_algorithm_pointer := None;
       neurons_selection_method := NO_NEURONS_SELECTION;
       inputs_selection_method := NO_INPUTS_SELECTION;
       display := true |}.

(** void check() const *)
Definition check : M unit :=
  ms <~ get ;;
  match training_strategy_pointer ms with
  | None =>
      throw ("OpenNN Exception: ModelSelection class." ++ nl
             ++ "void check() const method." ++ nl
             ++ "Pointer to training strategy is nullptr." ++ nl)
  | Some training_strategy =>
  match get_loss_index_pointer training_strategy with
  | None =>
      throw ("OpenNN Exception: ModelSelection class." ++ nl
             ++ "void check() const method." ++ nl
             ++ "Pointer to loss index is nullptr." ++ nl)
  | Some loss_index =>
  match get_neural_network_pointer loss_index with
  | None =>
      throw ("OpenNN Exception: ModelSelection class." ++ nl
             ++ "void check() const method." ++ nl
             ++ "Pointer to neural network is nullptr." ++ nl)
  | Some neural_network =>
  if is_empty neural_network then
      throw ("OpenNN Exception: ModelSelection class." ++ nl
             ++ "void check() const method." ++ nl
             ++ "Multilayer Perceptron is empty." ++ nl)
  else
  match get_data_set_pointer loss_index with
  | None =>
      throw ("OpenNN Exception: ModelSelection class." ++ nl
             ++ "void check() const method." ++ nl
             ++ "Pointer to data set is nullptr." ++ nl)
  | Some data_set =>
  let selection_instances_number := get_selection_instances_number data_set in
  if (selection_instances_number =? 0)%Z then
      throw ("OpenNN Exception: ModelSelection class." ++ nl
             ++ "void check() const method." ++ nl
             ++ "Number of selection instances is zero." ++ nl)
  else ret tt
  end end end end.

(** One case of the two switches of [to_XML]: the element with its
    [Type] attribute and a clone of every child of the root element of
    the algorithm's own document. *)
Definition algorithm_element (element_name type_name : string)
           (k : AlgorithmClass) (p : option Algorithm) : result XMLNode :=
  a <- deref p ;;
  let algorithm_document := Algorithm_to_XML k a in
  root_element <- deref (FirstChildElement (class_name k) algorithm_document) ;;
  Ok (XMLElement element_name [("Type", type_name)]
                 (clone_children root_element)).

(** tinyxml2::XMLDocument* to_XML() const *)
Definition to_XML (ms : ModelSelection) : result XMLDocument :=
  inputs_selection_element <-
    match inputs_selection_method ms with
    | NO_INPUTS_SELECTION =>
        Ok (XMLElement "InputsSelection" [("Type", "NO_INPUTS_SELECTION")] [])
    | GROWING_INPUTS =>
        algorithm_element "InputsSelection" "GROWING_INPUTS"
                          GrowingInputs (growing_inputs_pointer ms)
    | PRUNING_INPUTS =>
        algorithm_element "InputsSelection" "PRUNING_INPUTS"
                          PruningInputs (pruning_inputs_pointer ms)
    | GENETIC_ALGORITHM =>
        algorithm_element "InputsSelection" "GENETIC_ALGORITHM"
                          GeneticAlgorithm (genetic_algorithm_pointer ms)
    end ;;
  neurons_selection_element <-
    match neurons_selection_method ms with
    | NO_NEURONS_SELECTION =>
        Ok (XMLElement "NeuronsSelection" [("Type", "NO_NEURONS_SELECTION")] [])
    | INCREMENTAL_NEURONS =>
        algorithm_element "NeuronsSelection" "INCREMENTAL_NEURONS"
                          IncrementalNeurons (incremental_neurons_pointer ms)
    end ;;
  Ok [XMLElement "ModelSelection" []
                 [inputs_selection_element; neurons_selection_element]].

(** One case of the two switches of [from_XML]: a new document whose
    root element, named after the class, gets a clone of every child of
    [element], handed to the algorithm's own [from_XML]. *)
Definition load_algorithm (k : AlgorithmClass) (element : XMLNode)
           (p : option Algorithm) : result Algorithm :=
  let new_document := [XMLElement (class_name k) [] (clone_children element)] in
  a <- deref p ;;
  Algorithm_from_XML k new_document a.

(** void from_XML(const tinyxml2::XMLDocument&) *)
Definition from_XML (document : XMLDocument) : M unit :=
  match FirstChildElement "ModelSelection" document with
  | None =>
      throw ("OpenNN Exception: ModelSelection class." ++ nl
             ++ "void from_XML(const tinyxml2::XMLDocument&) method." ++ nl
             ++ "Model Selection element is nullptr." ++ nl)
  | Some root_element =>
      _ <~ match FirstChildElement "InputsSelection"
                                   (XMLNode_children root_element) with
           | None => ret tt
           | Some element =>
               new_inputs_selection_method <~ lift (deref (Attribute "Type" element)) ;;
               _ <~ set_inputs_selection_method_string new_inputs_selection_method ;;
               ms <~ get ;;
               match inputs_selection_method ms with
               | NO_INPUTS_SELECTION => ret tt
               | GROWING_INPUTS =>
                   a <~ lift (load_algorithm GrowingInputs element
                                             (growing_inputs_pointer ms)) ;;
                   modify (set_growing_inputs (Some a))
               | PRUNING_INPUTS =>
                   a <~ lift (load_algorithm PruningInputs element
                                             (pruning_inputs_pointer ms)) ;;
                   modify (set_pruning_inputs (Some a))
               | GENETIC_ALGORITHM =>
                   a <~ lift (load_algorithm GeneticAlgorithm element
                                             (genetic_algorithm_pointer ms)) ;;
                   modify (set_genetic_algorithm (Some a))
               end
           end ;;
      match FirstChildElement "NeuronsSelection"
                              (XMLNode_children root_element) with
      | None => ret tt
      | Some element =>
          new_neurons_selection_method <~ lift (deref (Attribute "Type" element)) ;;
          _ <~ set_neurons_selection_method_string new_neurons_selection_method ;;
          ms <~ get ;;
          match neurons_selection_method ms with
          | NO_NEURONS_SELECTION => ret tt
          | INCREMENTAL_NEURONS =>
              a <~ lift (load_algorithm IncrementalNeurons element
                                        (incremental_neurons_pointer ms)) ;;
              modify (set_incremental_neurons (Some a))
          end
      end
  end.

(** ** Notions of the specification *)

(** The pointer of the inputs-selection algorithm in use. *)
Definition active_inputs_selection (ms : ModelSelection) : option Algorithm :=
  match inputs_selection_method ms with
  | NO_INPUTS_SELECTION => None
  | GROWING_INPUTS => growing_inputs_pointer ms
  | PRUNING_INPUTS => pruning_inputs_pointer ms
  | GENETIC_ALGORITHM => genetic_algorithm_pointer ms
  end.

(** The pointer of the neurons-selection algorithm in use. *)
Definition active_neurons_selection (ms : ModelSelection) : option Algorithm :=
  match neurons_selection_method ms with
  | NO_NEURONS_SELECTION => None
  | INCREMENTAL_NEURONS => incremental_neurons_pointer ms
  end.

(** The algorithm of each method in use is allocated, as every
    constructor followed by [set_default] and every setter leaves the
    object. *)
Definition algorithms_allocated (ms : ModelSelection) : Prop :=
  (inputs_selection_method ms <> NO_INPUTS_SELECTION ->
   active_inputs_selection ms <> None)
  /\ (neurons_selection_method ms <> NO_NEURONS_SELECTION ->
      active_neurons_selection ms <> None).

(** What [to_XML] writes of the object: the two methods and the settings
    of the algorithms in use. *)
Record Configuration : Type := {
  configured_inputs_selection_method : InputsSelectionMethod;
  configured_neurons_selection_method : NeuronsSelectionMethod;
  inputs_selection_settings : option Settings;
  neurons_selection_settings : option Settings
}.

Definition configuration (ms : ModelSelection) : Configuration :=
  {| configured_inputs_selection_method := inputs_selection_method ms;
     configured_neurons_selection_method := neurons_selection_method ms;
     inputs_selection_settings :=
       option_map settings (active_inputs_selection ms);
     neurons_selection_settings :=
       option_map settings (active_neurons_selection ms) |}.


(** The components [check] looks at, as far as they are bound. *)
Definition loss_index_of (ms : ModelSelection) : option LossIndex :=
  match training_strategy_pointer ms with
  | Some training_strategy => get_loss_index_pointer training_strategy
  | None => None
  end.

Definition neural_network_of (ms : ModelSelection) : option NeuralNetwork :=
  match loss_index_of ms with
  | Some loss_index => get_neural_network_pointer loss_index
  | None => None
  end.

Definition data_set_of (ms : ModelSelection) : option DataSet :=
  match loss_index_of ms with
  | Some loss_index => get_data_set_pointer loss_index
  | None => None
  end.

(** What [check] can find wrong, in the order it looks. *)
Inductive Offence : Type :=
| UnboundTrainingStrategy | UnboundLossIndex | UnboundNeuralNetwork
| EmptyNeuralNetwork | UnboundDataSet | NoSelectionInstances.

Definition offends (o : Offence) (ms : ModelSelection) : Prop :=
  match o with
  | UnboundTrainingStrategy => training_strategy_pointer ms = None
  | UnboundLossIndex =>
      exists training_strategy,
        training_strategy_pointer ms = Some training_strategy
        /\ get_loss_index_pointer training_strategy = None
  | UnboundNeuralNetwork =>
      exists loss_index,
        loss_index_of ms = Some loss_index
        /\ get_neural_network_pointer loss_index = None
  | EmptyNeuralNetwork =>
      exists neural_network,
        neural_network_of ms = Some neural_network
        /\ is_empty neural_network = true
  | UnboundDataSet =>
      exists loss_index,
        loss_index_of ms = Some loss_index
        /\ get_data_set_pointer loss_index = None
  | NoSelectionInstances =>
      exists data_set,
        data_set_of ms = Some data_set
        /\ get_selection_instances_number data_set = 0%Z
  end.

(** The text of the exception that names an offence. *)
Definition offence_message (o : Offence) : string :=
  "OpenNN Exception: ModelSelection class." ++ nl
  ++ "void check() const method." ++ nl
  ++ match o with
     | UnboundTrainingStrategy => "Pointer to training strategy is nullptr."
     | UnboundLossIndex => "Pointer to loss index is nullptr."
     | UnboundNeuralNetwork => "Pointer to neural network is nullptr."
     | EmptyNeuralNetwork => "Multilayer Perceptron is empty."
     | UnboundDataSet => "Pointer to data set is nullptr."
     | NoSelectionInstances => "Number of selection instances is zero."
     end
  ++ nl.

End Algorithms.

End ModelSelection.

(* ================================================================== *)
(** * Concrete objects for the examples *)

Module TestingAnalysisExamples.

Import NeuralNetwork TestingAnalysis.

(** A binary classification problem with two testing instances, one of
    each class, for a network of one input and one output whose
    Probabilistic layer holds the given decision threshold. *)
Definition example_one : type := type_one 24.
Definition example_two : type := type_of_Index 24 128 2%Z.

Definition example_network (decision_threshold : type) : NeuralNetwork :=
  {| layers_pointers :=
       [ScalingLayer 24 1;
        {| get_type := Probabilistic;
           layer_inputs_number := 1;
           layer_neurons_number := 1;
           parameter_blocks := [[type_zero]; [type_zero]];
           get_decision_threshold := decision_threshold |}];
     inputs_names := [EmptyString];
     outputs_names := [EmptyString] |}.

Definition example_data_set : DataSet :=
  {| get_input_variables_number := 1;
     get_target_variables_number := 1;
     get_training_instances_number := 0%Z;
     get_selection_instances_number := 0%Z;
     get_testing_input_data := column [type_zero; type_zero];
     get_testing_target_data := column [example_one; type_zero];
     calculate_target_distribution := [1; 1]%Z |}.

Definition example_outputs (nn : NeuralNetwork) (inputs : Tensor2 type)
  : Tensor2 type :=
  column [example_one; type_zero].

Definition example_analysis (decision_threshold : type) : TestingAnalysis :=
  {| neural_network_pointer := Some (example_network decision_threshold);
     data_set_pointer := Some example_data_set;
     display := true |}.

End TestingAnalysisExamples.

Module ModelSelectionExamples.

Import NeuralNetwork ModelSelection.

(** A wired training strategy: a network of architecture [2,3,1] and a data
    set with the given numbers of training and selection instances. *)
Definition example_training_strategy (training selection : Index)
  : TrainingStrategy :=
  {| get_loss_index_pointer :=
       Some {| get_neural_network_pointer :=
                 Some (set 24 (fun _ => type_zero) Classification [2; 3; 1]);
               get_data_set_pointer :=
                 Some {| get_input_variables_number := 2;
                         get_target_variables_number := 1;
                         get_training_instances_number := training;
                         get_selection_instances_number := selection;
                         get_testing_input_data := Tensor2_empty type;
                         get_testing_target_data := Tensor2_empty type;
                         calculate_target_distribution := [] |} |} |}.

(** Algorithms whose settings are the XML nodes themselves. *)
Definition example_default_settings (k : AlgorithmClass) : list XMLNode := [].

Definition example_write_settings (k : AlgorithmClass) (s : list XMLNode)
  : list XMLNode := s.

Definition example_read_settings (k : AlgorithmClass) (nodes s0 : list XMLNode)
  : result (list XMLNode) := Ok nodes.

(** Pruning inputs with a maximum of five inputs, incremental neurons with
    a step of two. *)
Definition example_pruning_selection : ModelSelection (list XMLNode) :=
  {| training_strategy_pointer := Some (example_training_strategy 80%Z 20%Z);
     incremental_neurons_pointer :=
       Some {| algorithm_training_strategy_pointer :=
                 Some (example_training_strategy 80%Z 20%Z);
               settings := [XMLElement "Step" [] [XMLText "2"]] |};
     growing_inputs_pointer := None;
     pruning_inputs_pointer :=
       Some {| algorithm_training_strategy_pointer :=
                 Some (example_training_strategy 80%Z 20%Z);
               settings := [XMLElement "MaximumInputsNumber" [] [XMLText "5"]] |};
     genetic_algorithm_pointer := None;
     neurons_selection_method := INCREMENTAL_NEURONS;
     inputs_selection_method := PRUNING_INPUTS;
     display := false |}.

End ModelSelectionExamples.

(* ================================================================== *)
(** * Sequences of calls on a device (device.h) *)

Module DeviceCalls.

Import Device.

(** A call of [set_type], with the value [omp_get_max_threads()] returns
    during it. *)
Record Call : Type := {
  max_threads : Z;
  new_type : Type_
}.

(** The calls of [set_type] a program makes on a device, in order. *)
Fixpoint set_types (calls : list Call) (d : Device) : Device :=
  match calls with
  | [] => d
  | call :: calls' =>
      set_types calls' (set_type (max_threads call) (new_type call) d)
  end.

(** The device of the current type is allocated. *)
Definition current_device_allocated (d : Device) : Prop :=
  match get_type d with
  | EigenDefault => get_eigen_default_device d <> None
  | EigenThreadPool => get_eigen_thread_pool_device d <> None
  end.

End DeviceCalls.

(* ================================================================== *)
(** * Writes to a tensor, conversions of scalars, text of an element *)

(** [Tensor<A, 2> t(rows, columns)]: Eigen leaves the coefficients as the
    memory was. *)
Definition Tensor2_new {A : Type} (memory : nat -> A) (rows columns : nat)
  : Tensor2 A :=
  {| dimension0 := rows; dimension1 := columns;
     coefficients := map memory (seq 0 (rows * columns)) |}.

Fixpoint replace_nth {A : Type} (l : list A) (n : nat) (a : A) : list A :=
  match l, n with
  | [], _ => []
  | _ :: l', 0 => a :: l'
  | x :: l', S n' => x :: replace_nth l' n' a
  end.

(** [t(i, j) = a]; a write outside the dimensions is [Undefined]. *)
Definition set2 {A : Type} (t : Tensor2 A) (i j : nat) (a : A)
  : result (Tensor2 A) :=
  if (i <? dimension0 t) && (j <? dimension1 t)
     && (i + j * dimension0 t <? length (coefficients t)) then
    Ok {| dimension0 := dimension0 t; dimension1 := dimension1 t;
          coefficients := replace_nth (coefficients t) (i + j * dimension0 t) a |}
  else Undefined.

(** The [double] literals [2.0], [0.05], [0.1] and [1.64485], each the
    [double] nearest to the decimal. *)
Definition double_two : spec_float := S754_finite false 4503599627370496 (-51).
Definition double_0_05 : spec_float := S754_finite false 7205759403792794 (-57).
Definition double_0_1 : spec_float := S754_finite false 7205759403792794 (-56).
Definition double_1_64485 : spec_float := S754_finite false 7407745847080360 (-52).

Section Conversion.

Variables prec emax : Z.

(** The conversion of a [double] to [type], which rounds when [type] is
    [float]. *)
Definition of_double (x : spec_float) : type :=
  match x with
  | S754_finite s m e => binary_normalize prec emax (cond_Zopp s (Zpos m)) e s
  | _ => x
  end.

End Conversion.

(** [GetText()]: the value of the first child when it is a text node. *)
Definition GetText (n : XMLNode) : option string :=
  match XMLNode_children n with
  | XMLText value :: _ => Some value
  | _ => None
  end.

(* ================================================================== *)
(** * Testing analysis: the cells of the binary confusion matrix *)

Module TestingAnalysisCounts.

Import NeuralNetwork TestingAnalysis.

Definition Cell_eqb (a b : Cell) : bool :=
  match a, b with
  | TruePositive, TruePositive | FalseNegative, FalseNegative
  | FalsePositive, FalsePositive | TrueNegative, TrueNegative
  | Uncounted, Uncounted => true
  | _, _ => false
  end.

(** [confusion.sum()] *)
Definition Tensor2_sum (t : Tensor2 Index) : Index :=
  fold_right Z.add 0%Z (coefficients t).

(** The number of rows among [l] that the loop of
    [calculate_confusion_binary_classification] counts in [cell]. *)
Definition rows_in_cell (prec : Z) (decision_threshold : type)
           (targets outputs : Tensor2 type) (cell : Cell) (l : list nat) : Index :=
  Z.of_nat
    (length
       (filter (fun i => Cell_eqb (cell_of prec decision_threshold
                                           (first_column targets i)
                                           (first_column outputs i)) cell) l)).

End TestingAnalysisCounts.

(* ================================================================== *)
(** * Testing analysis: display, XML and files (testing_analysis.cpp) *)

Module TestingAnalysisSerialization.

Import NeuralNetwork TestingAnalysis.

(** void set_display(const bool&) *)
Definition set_display (new_display : bool) (ta : TestingAnalysis)
  : TestingAnalysis :=
  {| neural_network_pointer := neural_network_pointer ta;
     data_set_pointer := data_set_pointer ta;
     display := new_display |}.

(** void set_default() *)
Definition set_default (ta : TestingAnalysis) : TestingAnalysis :=
  set_display true ta.

(** The constructors that take pointers: the members, then
    [set_default]. *)
Definition TestingAnalysis_new (new_neural_network_pointer : option NeuralNetwork)
           (new_data_set_pointer : option DataSet) : TestingAnalysis :=
  set_default {| neural_network_pointer := new_neural_network_pointer;
                 data_set_pointer := new_data_set_pointer;
                 display := true |}.

(** [buffer << display] for a [bool]. *)
Definition string_of_bool (b : bool) : string :=
  if b then "1" else "0".

(** tinyxml2::XMLDocument* to_XML() const *)
Definition to_XML (ta : TestingAnalysis) : XMLDocument :=
  let display_text := XMLText (string_of_bool (display ta)) in
  let display_element := XMLElement "Display" [] [display_text] in
  [XMLElement "TestingAnalysis" [] [display_element]].

(** void from_XML(const tinyxml2::XMLDocument&): the outcome and the
    object as the method leaves it.  A [string] built from the null
    pointer [GetText] returns for an element without text has no defined
    behaviour. *)
Definition from_XML (document : XMLDocument) (ta : TestingAnalysis)
  : result unit * TestingAnalysis :=
  match FirstChildElement "TestingAnalysis" document with
  | None =>
      (Throw ("OpenNN Exception: TestingAnalysis class." ++ nl
              ++ "void from_XML(const tinyxml2::XMLDocument&) method." ++ nl
              ++ "Testing analysis element is nullptr." ++ nl), ta)
  | Some root_element =>
      match FirstChildElement "Display" (XMLNode_children root_element) with
      | None => (Ok tt, ta)
      | Some element =>
          match GetText element with
          | None => (Undefined, ta)
          | Some new_display_string =>
              (Ok tt,
               set_display (negb (String.eqb new_display_string "0")) ta)
          end
      end
  end.

(** The XML constructor. *)
Definition TestingAnalysis_of_XML (testing_analysis_document : XMLDocument)
  : result unit * TestingAnalysis :=
  from_XML testing_analysis_document (TestingAnalysis_new None None).

Section Load.

(** [document.LoadFile(file_name.c_str())]: the document of a file
    tinyxml2 can read, nothing for one it reports an error on. *)
Variable LoadFile : string -> option XMLDocument.

(** void load(const string&) *)
Definition load (file_name : string) (ta : TestingAnalysis)
  : result unit * TestingAnalysis :=
  let ta := set_default ta in
  match LoadFile file_name with
  | None =>
      (Throw ("OpenNN Exception: Testing analysis class." ++ nl
              ++ "void load(const string&) method." ++ nl
              ++ "Cannot load XML file " ++ file_name ++ "." ++ nl), ta)
  | Some document => from_XML document ta
  end.

End Load.

(** The [Display] element of a document, under the root element
    [TestingAnalysis]. *)
Definition display_element (document : XMLDocument) : option XMLNode :=
  match FirstChildElement "TestingAnalysis" document with
  | Some root_element =>
      FirstChildElement "Display" (XMLNode_children root_element)
  | None => None
  end.

End TestingAnalysisSerialization.

(* ================================================================== *)
(** * Testing analysis: ROC analysis, gain charts, lift chart
      (testing_analysis.cpp) *)

Module TestingAnalysisCharts.

Import NeuralNetwork TestingAnalysis.

Record RocAnalysisResults : Type := {
  roc_curve : Tensor2 type;
  area_under_curve : type;
  confidence_limit : type;
  optimal_threshold : type
}.

Record KolmogorovSmirnovResults : Type := {
  positive_cumulative_gain : Tensor2 type;
  negative_cumulative_gain : Tensor2 type;
  maximum_gain : Tensor1 type
}.

Section Methods.

Variables prec emax : Z.
Variable OPENNN_DEBUG : bool.
Variable calculate_outputs : NeuralNetwork -> Tensor2 type -> Tensor2 type.

(** The contents of fresh memory, for tensors of [type]. *)
Variable memory : nat -> type.

Let zero := type_zero.
Let one := type_one prec.

(** The checks the [perform_..._analysis] methods make in a debug build,
    the same in each but for the signature in the text: [check()], the
    neural network pointer, the numbers of inputs and of outputs. *)
Definition debug_checks (signature : string) (ta : TestingAnalysis)
  : result unit :=
  if OPENNN_DEBUG then
    _ <- check ta ;;
    neural_network <-
      match neural_network_pointer ta with
      | None =>
          Throw ("OpenNN Exception: TestingAnalysis class." ++ nl
                 ++ signature ++ nl
                 ++ "Pointer to neural network in neural network is nullptr."
                 ++ nl)
      | Some neural_network => Ok neural_network
      end ;;
    let inputs_number := get_inputs_number neural_network in
    data_set <- deref (data_set_pointer ta) ;;
    if negb (inputs_number =? get_input_variables_number data_set) then
      Throw ("OpenNN Exception: TestingAnalysis class." ++ nl
             ++ signature ++ nl
             ++ "Number of inputs in neural network must be equal to number of inputs in data set."
             ++ nl)
    else
      let outputs_number := get_outputs_number neural_network in
      if negb (outputs_number =? get_target_variables_number data_set) then
        Throw ("OpenNN Exception: TestingAnalysis class." ++ nl
               ++ signature ++ nl
               ++ "Number of outputs in neural network must be equal to number of targets in data set."
               ++ nl)
      else Ok tt
  else Ok tt.

(** The three statements that follow the checks in each of them: the
    testing targets and the outputs of the network on the testing
    inputs. *)
Definition testing_targets_and_outputs (ta : TestingAnalysis)
  : result (Tensor2 type * Tensor2 type) :=
  data_set <- deref (data_set_pointer ta) ;;
  let inputs := get_testing_input_data data_set in
  let targets := get_testing_target_data data_set in
  neural_network <- deref (neural_network_pointer ta) ;;
  let outputs := calculate_outputs neural_network inputs in
  Ok (targets, outputs).

(** The expression of the confidence limit, the same in the two
    overloads of [calculate_area_under_curve_confidence_limit].  The
    literals are [double]s, so the operations that meet one are made in
    [double] and the result is converted to [type]. *)
Definition confidence_limit_of (total_positives total_negatives : Index)
           (area_under_curve : type) : type :=
  let a := to_double area_under_curve in
  let Q_1 := of_double prec emax
               (SFdiv 53 1024 a (SFsub 53 1024 double_two a)) in
  let Q_2 := of_double prec emax
               (SFdiv 53 1024
                  (SFmul 53 1024 (SFmul 53 1024 double_two a) a)
                  (SFmul 53 1024 double_one a)) in
  let squared := SFmul prec emax area_under_curve area_under_curve in
  of_double prec emax
    (SFmul 53 1024 double_1_64485
       (SFsqrt 53 1024
          (SFdiv 53 1024
             (SFadd 53 1024
                (SFadd 53 1024
                   (SFmul 53 1024 a (SFsub 53 1024 double_one a))
                   (SFmul 53 1024
                      (SFsub 53 1024 (type_of_Index 53 1024 total_positives)
                             double_one)
                      (to_double (SFsub prec emax Q_1 squared))))
                (SFmul 53 1024
                   (SFsub 53 1024 (type_of_Index 53 1024 total_negatives)
                          double_one)
                   (to_double (SFsub prec emax Q_2 squared))))
             (type_of_Index 53 1024
                (Index_wrap (total_positives * total_negatives)))))).

(** type calculate_area_under_curve_confidence_limit(targets, outputs) *)
Definition calculate_area_under_curve_confidence_limit
           (targets outputs : Tensor2 type) : result type :=
  positives_negatives_rate <- calculate_positives_negatives_rate prec targets outputs ;;
  total_positives <- at1 positives_negatives_rate 0 ;;
  total_negatives <- at1 positives_negatives_rate 1 ;;
  if (total_positives =? 0)%Z then
    Throw ("OpenNN Exception: TestingAnalysis class." ++ nl
           ++ "Tensor<type, 2> calculate_roc_curve_confidence_limit(const Tensor<type, 2>&, const Tensor<type, 2>&) const."
           ++ nl ++ "Number of positive instances("
           ++ string_of_Index total_positives
           ++ ") must be greater than zero." ++ nl)
  else if (total_negatives =? 0)%Z then
    Throw ("OpenNN Exception: TestingAnalysis class." ++ nl
           ++ "Tensor<type, 2> calculate_roc_curve_confidence_limit(const Tensor<type, 2>&, const Tensor<type, 2>&) const."
           ++ nl ++ "Number of negative instances("
           ++ string_of_Index total_negatives
           ++ ") must be greater than zero." ++ nl)
  else
    area_under_curve <- calculate_area_under_curve prec emax targets outputs ;;
    Ok (confidence_limit_of total_positives total_negatives area_under_curve).

(** type calculate_area_under_curve_confidence_limit(targets, outputs,
    area_under_curve) *)
Definition calculate_area_under_curve_confidence_limit_of_area
           (targets outputs : Tensor2 type) (area_under_curve : type)
  : result type :=
  positives_negatives_rate <- calculate_positives_negatives_rate prec targets outputs ;;
  total_positives <- at1 positives_negatives_rate 0 ;;
  total_negatives <- at1 positives_negatives_rate 1 ;;
  if (total_positives =? 0)%Z then
    Throw ("OpenNN Exception: TestingAnalysis class." ++ nl
           ++ "calculate_area_under_curve_confidence_limit(const Tensor<type, 2>&, const Tensor<type, 2>&, const type&) const."
           ++ nl ++ "Number of positive instances("
           ++ string_of_Index total_positives
           ++ ") must be greater than zero." ++ nl)
  else if (total_negatives =? 0)%Z then
    Throw ("OpenNN Exception: TestingAnalysis class." ++ nl
           ++ "calculate_area_under_curve_confidence_limit(const Tensor<type, 2>&, const Tensor<type, 2>&, const type&) const."
           ++ nl ++ "Number of negative instances("
           ++ string_of_Index total_negatives
           ++ ") must be greater than zero." ++ nl)
  else
    Ok (confidence_limit_of total_positives total_negatives area_under_curve).

(** type calculate_optimal_threshold(targets, outputs, roc_curve): the
    search is commented out in the source; [step_size] and
    [points_number] are computed and not used. *)
Definition calculate_optimal_threshold (targets outputs roc_curve : Tensor2 type)
  : type :=
  let columns_number := dimension1 targets in
  let maximum_points_number := 1000%Z in
  let testing_instances_number := Z.of_nat (dimension0 targets) in
  let step_size :=
    if (maximum_points_number <? testing_instances_number)%Z then
      Z.quot testing_instances_number maximum_points_number
    else 1%Z in
  let points_number :=
    if (maximum_points_number <? testing_instances_number)%Z then
      Z.quot testing_instances_number step_size
    else testing_instances_number in
  zero.

(** RocAnalysisResults perform_roc_analysis() const *)
Definition perform_roc_analysis (ta : TestingAnalysis)
  : result RocAnalysisResults :=
  _ <- debug_checks "RocCurveResults perform_roc_analysis() const method." ta ;;
  data <- testing_targets_and_outputs ta ;;
  let targets := fst data in
  let outputs := snd data in
  roc_curve <- calculate_roc_curve prec emax targets outputs ;;
  area_under_curve <- calculate_area_under_curve prec emax targets outputs ;;
  confidence_limit <-
    calculate_area_under_curve_confidence_limit_of_area
      targets outputs area_under_curve ;;
  let optimal_threshold := calculate_optimal_threshold targets outputs roc_curve in
  Ok {| roc_curve := roc_curve;
        area_under_curve := area_under_curve;
        confidence_limit := confidence_limit;
        optimal_threshold := optimal_threshold |}.

(** Tensor<type, 2> calculate_cumulative_gain(targets, outputs): the
    sorting and the chart are commented out in the source. *)
Definition calculate_cumulative_gain (targets outputs : Tensor2 type)
  : result (Tensor2 type) :=
  positives_negatives_rate <- calculate_positives_negatives_rate prec targets outputs ;;
  total_positives <- at1 positives_negatives_rate 0 ;;
  if (total_positives =? 0)%Z then
    Throw ("OpenNN Exception: TestingAnalysis class." ++ nl
           ++ "Tensor<type, 2> calculate_cumulative_gain(const Tensor<type, 2>&, const Tensor<type, 2>&) const."
           ++ nl ++ "Number of positive instances("
           ++ string_of_Index total_positives
           ++ ") must be greater than zero." ++ nl)
  else
    let rows_number := dimension0 targets in
    Ok (Tensor2_empty type).

(** Tensor<type, 2> calculate_negative_cumulative_gain(targets, outputs),
    commented out likewise. *)
Definition calculate_negative_cumulative_gain (targets outputs : Tensor2 type)
  : result (Tensor2 type) :=
  positives_negatives_rate <- calculate_positives_negatives_rate prec targets outputs ;;
  total_negatives <- at1 positives_negatives_rate 1 ;;
  if (total_negatives =? 0)%Z then
    Throw ("OpenNN Exception: TestingAnalysis class." ++ nl
           ++ "Tensor<type, 2> calculate_negative_cumulative_gain(const Tensor<type, 2>&, const Tensor<type, 2>&) const."
           ++ nl ++ "Number of negative instances("
           ++ string_of_Index total_negatives
           ++ ") must be greater than zero." ++ nl)
  else
    let rows_number := dimension0 targets in
    Ok (Tensor2_empty type).

(** Tensor<type, 2> perform_cumulative_gain_analysis() const *)
Definition perform_cumulative_gain_analysis (ta : TestingAnalysis)
  : result (Tensor2 type) :=
  _ <- debug_checks "Tensor<type, 2> perform_cumulative_gain_analysis() const method." ta ;;
  data <- testing_targets_and_outputs ta ;;
  calculate_cumulative_gain (fst data) (snd data).

(** One turn of the loop of [calculate_lift_chart]. *)
Definition lift_chart_body (cumulative_gain : Tensor2 type) (i : nat)
           (lift_chart : Tensor2 type) : result (Tensor2 type) :=
  x <- at2 cumulative_gain i 0 ;;
  lift_chart <- set2 lift_chart i 0 x ;;
  y <- at2 cumulative_gain i 1 ;;
  x <- at2 cumulative_gain i 0 ;;
  set2 lift_chart i 1 (SFdiv prec emax y x).

(** Tensor<type, 2> calculate_lift_chart(cumulative_gain).  The turns of
    the loop write to different rows, so the order OpenMP runs them in
    does not show. *)
Definition calculate_lift_chart (cumulative_gain : Tensor2 type)
  : result (Tensor2 type) :=
  let rows_number := dimension0 cumulative_gain in
  let columns_number := dimension1 cumulative_gain in
  let lift_chart := Tensor2_new memory rows_number columns_number in
  lift_chart <- set2 lift_chart 0 0 zero ;;
  lift_chart <- set2 lift_chart 0 1 one ;;
  for_each (lift_chart_body cumulative_gain) (seq 1 (rows_number - 1)) lift_chart.

(** Tensor<type, 2> perform_lift_chart_analysis() const *)
Definition perform_lift_chart_analysis (ta : TestingAnalysis)
  : result (Tensor2 type) :=
  _ <- debug_checks "Tensor<type, 2> perform_lift_chart_analysis() const method." ta ;;
  data <- testing_targets_and_outputs ta ;;
  cumulative_gain <- calculate_cumulative_gain (fst data) (snd data) ;;
  calculate_lift_chart cumulative_gain.

(** The state of the loop of [calculate_maximum_gain]: the percentage and
    the two coefficients of [maximum_gain]. *)
Record GainSearch : Type := {
  percentage : type;
  maximum_gain_0 : type;
  maximum_gain_1 : type
}.

(** One turn of that loop.  [a > b] is [b < a]. *)
Definition maximum_gain_body
           (positive_cumulative_gain negative_cumulative_gain : Tensor2 type)
           (i : nat) (s : GainSearch) : result GainSearch :=
  let percentage_increment := of_double prec emax double_0_05 in
  let percentage := SFadd prec emax (percentage s) percentage_increment in
  p <- at2 positive_cumulative_gain (i + 1) 1 ;;
  n <- at2 negative_cumulative_gain (i + 1) 1 ;;
  if SFltb (maximum_gain_1 s) (SFsub prec emax p n)
     && SFltb zero (SFsub prec emax p n) then
    Ok {| percentage := percentage;
          maximum_gain_0 := percentage;
          maximum_gain_1 := SFsub prec emax p n |}
  else
    Ok {| percentage := percentage;
          maximum_gain_0 := maximum_gain_0 s;
          maximum_gain_1 := maximum_gain_1 s |}.

(** Tensor<type, 1> calculate_maximum_gain(positive_cumulative_gain,
    negative_cumulative_gain): [maximum_gain] is allocated and not
    initialized before the loop reads it. *)
Definition calculate_maximum_gain
           (positive_cumulative_gain negative_cumulative_gain : Tensor2 type)
  : result (Tensor1 type) :=
  let points_number := dimension0 positive_cumulative_gain in
  _ <- (if OPENNN_DEBUG
           && negb (points_number =? dimension0 negative_cumulative_gain) then
          Throw ("OpenNN Exception: TestingAnalysis class." ++ nl
                 ++ "Tensor<type, 2> calculate_maximum_gain() const method." ++ nl
                 ++ "Positive and negative cumulative gain matrix must have the same rows number."
                 ++ nl)
        else Ok tt) ;;
  s <- for_each (maximum_gain_body positive_cumulative_gain negative_cumulative_gain)
                (seq 0 (points_number - 1))
                {| percentage := zero;
                   maximum_gain_0 := memory 0;
                   maximum_gain_1 := memory 1 |} ;;
  Ok [maximum_gain_0 s; maximum_gain_1 s].

(** KolmogorovSmirnovResults perform_Kolmogorov_Smirnov_analysis() const *)
Definition perform_Kolmogorov_Smirnov_analysis (ta : TestingAnalysis)
  : result KolmogorovSmirnovResults :=
  _ <- debug_checks "Tensor<type, 2> perform_Kolmogorov_Smirnov_analysis() const method." ta ;;
  data <- testing_targets_and_outputs ta ;;
  positive_cumulative_gain <- calculate_cumulative_gain (fst data) (snd data) ;;
  negative_cumulative_gain <- calculate_negative_cumulative_gain (fst data) (snd data) ;;
  maximum_gain <- calculate_maximum_gain positive_cumulative_gain
                                         negative_cumulative_gain ;;
  Ok {| positive_cumulative_gain := positive_cumulative_gain;
        negative_cumulative_gain := negative_cumulative_gain;
        maximum_gain := maximum_gain |}.

End Methods.

End TestingAnalysisCharts.

(* ================================================================== *)
(** * Testing analysis: calibration plot (testing_analysis.cpp) *)

Module TestingAnalysisCalibration.

Import NeuralNetwork TestingAnalysis.

(** What the inner loop of [calculate_calibration_plot] accumulates for a
    bin. *)
Record Bin : Type := {
  count : Index;
  positives : Index;
  sum : type
}.

(** The state of its outer loop. *)
Record Calibration : Type := {
  calibration_plot : Tensor2 type;
  probability : type
}.

Section Methods.

Variables prec emax : Z.

(** The contents of fresh memory, for tensors of [type]. *)
Variable memory : nat -> type.

Let zero := type_zero.
Let one := type_one prec.

(** [o >= (probability - 0.1) && o < probability]: [a >= b] is [b <= a],
    and the lower bound is a [double]. *)
Definition in_bin (probability o : type) : bool :=
  SFleb (SFsub 53 1024 (to_double probability) double_0_1) (to_double o)
  && SFltb o probability.

(** [probability += 0.1], made in [double] and converted back. *)
Definition next_probability (probability : type) : type :=
  of_double prec emax (SFadd 53 1024 (to_double probability) double_0_1).

(** The upper bound of bin [i]: [0.0] moved on [i] times. *)
Definition bin_probability (i : nat) : type :=
  Nat.iter i next_probability zero.

(** One turn of the inner loop. *)
Definition calibration_inner (targets outputs : Tensor2 type)
           (probability : type) (j : nat) (bin : Bin) : result Bin :=
  o <- at2 outputs j 0 ;;
  if in_bin probability o then
    t <- at2 targets j 0 ;;
    Ok {| count := count bin + 1;
          positives := if SFeqb t one then positives bin + 1 else positives bin;
          sum := SFadd prec emax (sum bin) o |}%Z
  else Ok bin.

(** One turn of the outer loop. *)
Definition calibration_outer (targets outputs : Tensor2 type) (i : nat)
           (s : Calibration) : result Calibration :=
  let rows_number := dimension0 targets in
  let probability := next_probability (probability s) in
  bin <- for_each (calibration_inner targets outputs probability)
                  (seq 0 rows_number)
                  {| count := 0; positives := 0; sum := zero |}%Z ;;
  plot <-
    (if (count bin =? 0)%Z then
       plot <- set2 (calibration_plot s) i 0 (type_of_Index prec emax (-1)%Z) ;;
       set2 plot i 1 (type_of_Index prec emax (-1)%Z)
     else
       plot <- set2 (calibration_plot s) i 0
                    (SFdiv prec emax (sum bin)
                           (type_of_Index prec emax (count bin))) ;;
       set2 plot i 1
            (SFdiv prec emax (type_of_Index prec emax (positives bin))
                   (type_of_Index prec emax (count bin)))) ;;
  Ok {| calibration_plot := plot; probability := probability |}.

(** Tensor<type, 2> calculate_calibration_plot(targets, outputs), with
    the text it sends to [cout].  The loop that deleted the rows holding
    -1 is commented out in the source. *)
Definition calculate_calibration_plot (targets outputs : Tensor2 type)
  : result (string * Tensor2 type) :=
  let printed := ("Calibration plot" ++ nl)%string in
  let points_number := 10 in
  let plot := Tensor2_new memory (points_number + 2) 2 in
  plot <- set2 plot 0 0 zero ;;
  plot <- set2 plot 0 1 zero ;;
  s <- for_each (calibration_outer targets outputs) (seq 1 points_number)
                {| calibration_plot := plot; probability := zero |} ;;
  plot <- set2 (calibration_plot s) (points_number + 1) 0 one ;;
  plot <- set2 plot (points_number + 1) 1 one ;;
  let points_number_subtracted := 0%Z in
  Ok (printed, plot).

End Methods.

End TestingAnalysisCalibration.

(* ================================================================== *)
(** * Testing analysis: binary classification tests
      (testing_analysis.cpp) *)

Module TestingAnalysisTests.

Import NeuralNetwork TestingAnalysis.

(** Sums, differences and products of [Index] values, wrapped to 64
    bits. *)
Definition Index_add (a b : Index) : Index := Index_wrap (a + b).
Definition Index_sub (a b : Index) : Index := Index_wrap (a - b).
Definition Index_mul (a b : Index) : Index := Index_wrap (a * b).

Section Methods.

Variables prec emax : Z.
Variable OPENNN_DEBUG : bool.
Variable calculate_outputs : NeuralNetwork -> Tensor2 type -> Tensor2 type.
Variable memory : nat -> Index.

Let zero := type_zero.
Let one := type_one prec.
Let to_type := type_of_Index prec emax.
Let to_double_Index := type_of_Index 53 1024.

(** The fifteen tests that [calculate_binary_classification_tests]
    computes from the four coefficients of the confusion matrix.  An
    operation between two [type] values is made in [type]; one that
    meets a [double] literal, or the [double] that [sqrt] returns, is
    made in [double], and its result is converted when it is assigned. *)
Definition binary_classification_tests_of
           (true_positive false_positive false_negative true_negative : Index)
  : Tensor1 type :=
  let total :=
    Index_add (Index_add (Index_add true_positive true_negative) false_positive)
              false_negative in
  let classification_accuracy :=
    if (total =? 0)%Z then zero
    else SFdiv prec emax
               (to_type (Index_add true_positive true_negative))
               (to_type total) in
  let error_rate :=
    if (total =? 0)%Z then zero
    else SFdiv prec emax
               (to_type (Index_add false_positive false_negative))
               (to_type total) in
  let sensitivity :=
    if (Index_add true_positive false_negative =? 0)%Z then zero
    else SFdiv prec emax (to_type true_positive)
               (to_type (Index_add true_positive false_negative)) in
  let specificity :=
    if (Index_add true_negative false_positive =? 0)%Z then zero
    else SFdiv prec emax (to_type true_negative)
               (to_type (Index_add true_negative false_positive)) in
  let precision :=
    if (Index_add true_positive false_positive =? 0)%Z then zero
    else SFdiv prec emax (to_type true_positive)
               (to_type (Index_add true_positive false_positive)) in
  let positive_likelihood :=
    if SFeqb (to_double classification_accuracy) double_one then one
    else if SFeqb (SFsub 53 1024 double_one (to_double specificity)) zero
         then zero
    else of_double prec emax
           (SFdiv 53 1024 (to_double sensitivity)
                  (SFsub 53 1024 double_one (to_double specificity))) in
  let negative_likelihood :=
    if SFeqb (to_double classification_accuracy) double_one then one
    else if SFeqb (SFsub 53 1024 double_one (to_double sensitivity)) zero
         then zero
    else of_double prec emax
           (SFdiv 53 1024 (to_double specificity)
                  (SFsub 53 1024 double_one (to_double sensitivity))) in
  let f1_score :=
    if (Index_add (Index_add (Index_mul 2 true_positive) false_positive)
                  false_negative =? 0)%Z then zero
    else of_double prec emax
           (SFdiv 53 1024
              (SFmul 53 1024 double_two (to_double_Index true_positive))
              (SFadd 53 1024
                 (SFadd 53 1024
                    (SFmul 53 1024 double_two (to_double_Index true_positive))
                    (to_double_Index false_positive))
                 (to_double_Index false_negative))) in
  let false_positive_rate :=
    if (Index_add false_positive true_negative =? 0)%Z then zero
    else SFdiv prec emax (to_type false_positive)
               (to_type (Index_add false_positive true_negative)) in
  let false_discovery_rate :=
    if (Index_add false_positive true_positive =? 0)%Z then zero
    else SFdiv prec emax (to_type false_positive)
               (to_type (Index_add false_positive true_positive)) in
  let false_negative_rate :=
    if (Index_add false_negative true_positive =? 0)%Z then zero
    else SFdiv prec emax (to_type false_negative)
               (to_type (Index_add false_negative true_positive)) in
  let negative_predictive_value :=
    if (Index_add true_negative false_negative =? 0)%Z then zero
    else SFdiv prec emax (to_type true_negative)
               (to_type (Index_add true_negative false_negative)) in
  let product :=
    Index_mul
      (Index_mul
         (Index_mul (Index_add true_positive false_positive)
                    (Index_add true_positive false_negative))
         (Index_add true_negative false_positive))
      (Index_add true_negative false_negative) in
  let Matthews_correlation_coefficient :=
    if (product =? 0)%Z then zero
    else of_double prec emax
           (SFdiv 53 1024
              (to_double
                 (to_type (Index_sub (Index_mul true_positive true_negative)
                                     (Index_mul false_positive false_negative))))
              (SFsqrt 53 1024 (to_double_Index product))) in
  let informedness :=
    of_double prec emax
      (SFsub 53 1024 (to_double (SFadd prec emax sensitivity specificity))
             double_one) in
  let markedness :=
    if (Index_add true_negative false_positive =? 0)%Z then
      of_double prec emax (SFsub 53 1024 (to_double precision) double_one)
    else
      of_double prec emax
        (SFsub 53 1024
           (to_double
              (SFadd prec emax precision
                     (SFdiv prec emax (to_type true_negative)
                            (to_type (Index_add true_negative false_positive)))))
           double_one) in
  [classification_accuracy; error_rate; sensitivity; specificity; precision;
   positive_likelihood; negative_likelihood; f1_score; false_positive_rate;
   false_discovery_rate; false_negative_rate; negative_predictive_value;
   Matthews_correlation_coefficient; informedness; markedness].

(** Tensor<type, 1> calculate_binary_classification_tests() const *)
Definition calculate_binary_classification_tests (ta : TestingAnalysis)
  : result (Tensor1 type) :=
  _ <- (if OPENNN_DEBUG then
          neural_network <- deref (neural_network_pointer ta) ;;
          let inputs_number := get_inputs_number neural_network in
          data_set <-
            match data_set_pointer ta with
            | None =>
                Throw ("OpenNN Exception: TestingAnalysis class." ++ nl
                       ++ "Tensor<type, 1> calculate_binary_classification_tests() const."
                       ++ nl ++ "Data set is nullptr." ++ nl)
            | Some data_set => Ok data_set
            end ;;
          let targets_number := get_target_variables_number data_set in
          let outputs_number := get_outputs_number neural_network in
          if negb (inputs_number =? get_input_variables_number data_set) then
            Throw ("OpenNN Exception: TestingAnalysis class." ++ nl
                   ++ "Tensor<type, 1> calculate_binary_classification_tests() const."
                   ++ nl
                   ++ "Number of inputs in neural network is not equal to number of inputs in data set."
                   ++ nl)
          else if negb (outputs_number =? 1) then
            Throw ("OpenNN Exception: TestingAnalysis class." ++ nl
                   ++ "Tensor<type, 1> calculate_binary_classification_tests() const."
                   ++ nl ++ "Number of outputs in neural network must be one." ++ nl)
          else if negb (targets_number =? 1) then
            Throw ("OpenNN Exception: TestingAnalysis class." ++ nl
                   ++ "Tensor<type, 1> calculate_binary_classification_tests() const."
                   ++ nl ++ "Number of targets in data set must be one." ++ nl)
          else Ok tt
        else Ok tt) ;;
  confusion <- calculate_confusion prec OPENNN_DEBUG calculate_outputs memory ta ;;
  true_positive <- at2 confusion 0 0 ;;
  false_positive <- at2 confusion 1 0 ;;
  false_negative <- at2 confusion 0 1 ;;
  true_negative <- at2 confusion 1 1 ;;
  Ok (binary_classification_tests_of
        true_positive false_positive false_negative true_negative).

(** [-1.0], converted to [type]. *)
Definition type_minus_one : type :=
  of_double prec emax (SFopp double_one).

End Methods.

End TestingAnalysisTests.

(* ================================================================== *)
(** * More concrete objects for the examples *)

Module TestingAnalysisChartsExamples.

Import NeuralNetwork TestingAnalysis TestingAnalysisExamples.

(** A cumulative gain chart of three points: no instance, half of the
    instances with three quarters of the positives, all of them. *)
Definition example_gain_chart : Tensor2 type :=
  let number (n : Z) := type_of_Index 24 128 n in
  {| dimension0 := 3; dimension1 := 2;
     coefficients :=
       [type_zero; type_half 24; type_one 24;
        type_zero; SFdiv 24 128 (number 3%Z) (number 4%Z); type_one 24] |}.

(** A data set of one input and one target with no testing instance. *)
Definition example_empty_data_set : DataSet :=
  {| get_input_variables_number := 1;
     get_target_variables_number := 1;
     get_training_instances_number := 0%Z;
     get_selection_instances_number := 0%Z;
     get_testing_input_data := column [];
     get_testing_target_data := column [];
     calculate_target_distribution := [0; 0]%Z |}.

Definition example_empty_outputs (nn : NeuralNetwork) (inputs : Tensor2 type)
  : Tensor2 type :=
  column [].

Definition example_empty_analysis : TestingAnalysis :=
  {| neural_network_pointer := Some (example_network (type_half 24));
     data_set_pointer := Some example_empty_data_set;
     display := true |}.

End TestingAnalysisChartsExamples.

(* ================================================================== *)
(** * Model selection: the setters that reach the algorithms, and the
      selections (model_selection.cpp) *)

Module ModelSelectionOperations.

Import NeuralNetwork ModelSelection.

(** The enumerators as [to_XML] writes them in the [Type] attribute and
    as the setters that take a string read them. *)
Definition inputs_selection_method_name (m : InputsSelectionMethod) : string :=
  match m with
  | NO_INPUTS_SELECTION => "NO_INPUTS_SELECTION"
  | GROWING_INPUTS => "GROWING_INPUTS"
  | PRUNING_INPUTS => "PRUNING_INPUTS"
  | GENETIC_ALGORITHM => "GENETIC_ALGORITHM"
  end.

Definition neurons_selection_method_name (m : NeuronsSelectionMethod) : string :=
  match m with
  | NO_NEURONS_SELECTION => "NO_NEURONS_SELECTION"
  | INCREMENTAL_NEURONS => "INCREMENTAL_NEURONS"
  end.

(** The class of the algorithm a method uses. *)
Definition inputs_selection_class (m : InputsSelectionMethod)
  : option AlgorithmClass :=
  match m with
  | NO_INPUTS_SELECTION => None
  | GROWING_INPUTS => Some GrowingInputs
  | PRUNING_INPUTS => Some PruningInputs
  | GENETIC_ALGORITHM => Some GeneticAlgorithm
  end.

Definition neurons_selection_class (m : NeuronsSelectionMethod)
  : option AlgorithmClass :=
  match m with
  | NO_NEURONS_SELECTION => None
  | INCREMENTAL_NEURONS => Some IncrementalNeurons
  end.

(** The [Type] attribute of the child [name] of the root element. *)
Definition type_attribute (name : string) (document : XMLDocument)
  : option string :=
  match FirstChildElement "ModelSelection" document with
  | Some root_element =>
      match FirstChildElement name (XMLNode_children root_element) with
      | Some element => Attribute "Type" element
      | None => None
      end
  | None => None
  end.

Section Algorithms.

Variable Settings : Type.

(** Modelled from the spec: the selection algorithm classes are missing.
    Their [set_display] and [set_approximation] change the settings of
    the object; [perform_selection k] stands for the
    [perform_neurons_selection] or [perform_inputs_selection] of class
    [k]: from the object and all it reaches through its training
    strategy (the [World]) it gives the pointer to its results, or
    fails, and leaves the object and the world changed. *)
Variable settings_set_display : AlgorithmClass -> bool -> Settings -> Settings.
Variable settings_set_approximation :
  AlgorithmClass -> bool -> Settings -> Settings.
Variable World : Type.
Variable SelectionResults : AlgorithmClass -> Type.
Variable perform_selection :
  forall k : AlgorithmClass,
    Algorithm Settings -> World ->
    result (option (SelectionResults k)) * (Algorithm Settings * World).

Notation "x <~ c ;; k" := (then_ c (fun x => k))
  (at level 61, c at next level, right associativity).

Definition Algorithm_set_display (k : AlgorithmClass) (new_display : bool)
           (a : Algorithm Settings) : Algorithm Settings :=
  {| algorithm_training_strategy_pointer := algorithm_training_strategy_pointer a;
     settings := settings_set_display k new_display (settings a) |}.

Definition Algorithm_set_approximation (k : AlgorithmClass)
           (new_approximation : bool) (a : Algorithm Settings)
  : Algorithm Settings :=
  {| algorithm_training_strategy_pointer := algorithm_training_strategy_pointer a;
     settings := settings_set_approximation k new_approximation (settings a) |}.

(** The assignment [training_strategy_pointer = p]. *)
Definition set_training_strategy_member (p : option TrainingStrategy)
           (ms : ModelSelection Settings) : ModelSelection Settings :=
  {| training_strategy_pointer := p;
     incremental_neurons_pointer := incremental_neurons_pointer ms;
     growing_inputs_pointer := growing_inputs_pointer ms;
     pruning_inputs_pointer := pruning_inputs_pointer ms;
     genetic_algorithm_pointer := genetic_algorithm_pointer ms;
     neurons_selection_method := neurons_selection_method ms;
     inputs_selection_method := inputs_selection_method ms;
     display := display ms |}.

(** void set_display(const bool&) *)
Definition set_display (new_display : bool) : M Settings unit :=
  _ <~ modify (set_display_member new_display) ;;
  ms <~ @get Settings ;;
  _ <~ match inputs_selection_method ms with
       | NO_INPUTS_SELECTION => ret tt
       | GROWING_INPUTS =>
           a <~ lift (deref (growing_inputs_pointer ms)) ;;
           modify (set_growing_inputs
                     (Some (Algorithm_set_display GrowingInputs new_display a)))
       | PRUNING_INPUTS =>
           a <~ lift (deref (pruning_inputs_pointer ms)) ;;
           modify (set_pruning_inputs
                     (Some (Algorithm_set_display PruningInputs new_display a)))
       | GENETIC_ALGORITHM =>
           a <~ lift (deref (genetic_algorithm_pointer ms)) ;;
           modify (set_genetic_algorithm
                     (Some (Algorithm_set_display GeneticAlgorithm new_display a)))
       end ;;
  ms <~ @get Settings ;;
  match neurons_selection_method ms with
  | NO_NEURONS_SELECTION => ret tt
  | INCREMENTAL_NEURONS =>
      a <~ lift (deref (incremental_neurons_pointer ms)) ;;
      modify (set_incremental_neurons
                (Some (Algorithm_set_display IncrementalNeurons new_display a)))
  end.

(** void set_approximation(const bool&) *)
Definition set_approximation (new_approximation : bool) : M Settings unit :=
  ms <~ @get Settings ;;
  match inputs_selection_method ms with
  | NO_INPUTS_SELECTION => ret tt
  | GROWING_INPUTS =>
      a <~ lift (deref (growing_inputs_pointer ms)) ;;
      modify (set_growing_inputs
                (Some (Algorithm_set_approximation GrowingInputs
                                                   new_approximation a)))
  | PRUNING_INPUTS =>
      a <~ lift (deref (pruning_inputs_pointer ms)) ;;
      modify (set_pruning_inputs
                (Some (Algorithm_set_approximation PruningInputs
                                                   new_approximation a)))
  | GENETIC_ALGORITHM =>
      a <~ lift (deref (genetic_algorithm_pointer ms)) ;;
      modify (set_genetic_algorithm
                (Some (Algorithm_set_approximation GeneticAlgorithm
                                                   new_approximation a)))
  end.

(** void set_training_strategy_pointer(TrainingStrategy* ) *)
Definition set_training_strategy_pointer
           (new_training_strategy_pointer : option TrainingStrategy)
  : M Settings unit :=
  _ <~ modify (set_training_strategy_member new_training_strategy_pointer) ;;
  ms <~ @get Settings ;;
  _ <~ match neurons_selection_method ms with
       | NO_NEURONS_SELECTION => ret tt
       | INCREMENTAL_NEURONS =>
           a <~ lift (deref (incremental_neurons_pointer ms)) ;;
           modify (set_incremental_neurons
                     (Some (Algorithm_set_training_strategy_pointer
                              new_training_strategy_pointer a)))
       end ;;
  ms <~ @get Settings ;;
  match inputs_selection_method ms with
  | NO_INPUTS_SELECTION => ret tt
  | GROWING_INPUTS =>
      a <~ lift (deref (growing_inputs_pointer ms)) ;;
      modify (set_growing_inputs
                (Some (Algorithm_set_training_strategy_pointer
                         new_training_strategy_pointer a)))
  | PRUNING_INPUTS =>
      a <~ lift (deref (pruning_inputs_pointer ms)) ;;
      modify (set_pruning_inputs
                (Some (Algorithm_set_training_strategy_pointer
                         new_training_strategy_pointer a)))
  | GENETIC_ALGORITHM =>
      a <~ lift (deref (genetic_algorithm_pointer ms)) ;;
      modify (set_genetic_algorithm
                (Some (Algorithm_set_training_strategy_pointer
                         new_training_strategy_pointer a)))
  end.

(** The structure [ModelSelection::Results]. *)
Record Results : Type := {
  incremental_neurons_results_pointer :
    option (SelectionResults IncrementalNeurons);
  growing_inputs_results_pointer : option (SelectionResults GrowingInputs);
  pruning_inputs_results_pointer : option (SelectionResults PruningInputs);
  genetic_algorithm_results_pointer : option (SelectionResults GeneticAlgorithm)
}.

(** ModelSelection::Results::Results() *)
Definition Results_new : Results :=
  {| incremental_neurons_results_pointer := None;
     growing_inputs_results_pointer := None;
     pruning_inputs_results_pointer := None;
     genetic_algorithm_results_pointer := None |}.

(** The methods that perform a selection are [const]: they change the
    algorithm objects the members point to, and the world, and no member.
    Their outcome comes with the object and the world as they leave
    them. *)
Definition Performed (A : Type) : Type :=
  (result A * (ModelSelection Settings * World))%type.

(** What a selection must leave of the members. *)
Definition same_members (ms ms' : ModelSelection Settings) : Prop :=
  training_strategy_pointer ms' = training_strategy_pointer ms
  /\ inputs_selection_method ms' = inputs_selection_method ms
  /\ neurons_selection_method ms' = neurons_selection_method ms
  /\ display ms' = display ms.

(** [p->set_display(display); ... = p->perform_..._selection();] for the
    algorithm of class [k] that the member read by [p] and assigned by
    [store] points to. *)
Definition perform_with (k : AlgorithmClass)
           (p : ModelSelection Settings -> option (Algorithm Settings))
           (store : option (Algorithm Settings) ->
                    ModelSelection Settings -> ModelSelection Settings)
           (ms : ModelSelection Settings) (w : World)
  : Performed (option (SelectionResults k)) :=
  match p ms with
  | None => (Undefined, (ms, w))
  | Some a =>
      let a := Algorithm_set_display k (display ms) a in
      let performed := perform_selection k a w in
      (fst performed,
       (store (Some (fst (snd performed))) ms, snd (snd performed)))
  end.

(** Results perform_neurons_selection() const *)
Definition perform_neurons_selection (ms : ModelSelection Settings) (w : World)
  : Performed Results :=
  let results := Results_new in
  match neurons_selection_method ms with
  | NO_NEURONS_SELECTION => (Ok results, (ms, w))
  | INCREMENTAL_NEURONS =>
      let performed :=
        perform_with IncrementalNeurons (@incremental_neurons_pointer _)
                     (@set_incremental_neurons _) ms w in
      (r <- fst performed ;;
       Ok {| incremental_neurons_results_pointer := r;
             growing_inputs_results_pointer :=
               growing_inputs_results_pointer results;
             pruning_inputs_results_pointer :=
               pruning_inputs_results_pointer results;
             genetic_algorithm_results_pointer :=
               genetic_algorithm_results_pointer results |},
       snd performed)
  end.

(** Results perform_inputs_selection() const *)
Definition perform_inputs_selection (ms : ModelSelection Settings) (w : World)
  : Performed Results :=
  let results := Results_new in
  match inputs_selection_method ms with
  | NO_INPUTS_SELECTION => (Ok results, (ms, w))
  | GROWING_INPUTS =>
      let performed :=
        perform_with GrowingInputs (@growing_inputs_pointer _)
                     (@set_growing_inputs _) ms w in
      (r <- fst performed ;;
       Ok {| incremental_neurons_results_pointer :=
               incremental_neurons_results_pointer results;
             growing_inputs_results_pointer := r;
             pruning_inputs_results_pointer :=
               pruning_inputs_results_pointer results;
             genetic_algorithm_results_pointer :=
               genetic_algorithm_results_pointer results |},
       snd performed)
  | PRUNING_INPUTS =>
      let performed :=
        perform_with PruningInputs (@pruning_inputs_pointer _)
                     (@set_pruning_inputs _) ms w in
      (r <- fst performed ;;
       Ok {| incremental_neurons_results_pointer :=
               incremental_neurons_results_pointer results;
             growing_inputs_results_pointer :=
               growing_inputs_results_pointer results;
             pruning_inputs_results_pointer := r;
             genetic_algorithm_results_pointer :=
               genetic_algorithm_results_pointer results |},
       snd performed)
  | GENETIC_ALGORITHM =>
      let performed :=
        perform_with GeneticAlgorithm (@genetic_algorithm_pointer _)
                     (@set_genetic_algorithm _) ms w in
      (r <- fst performed ;;
       Ok {| incremental_neurons_results_pointer :=
               incremental_neurons_results_pointer results;
             growing_inputs_results_pointer :=
               growing_inputs_results_pointer results;
             pruning_inputs_results_pointer :=
               pruning_inputs_results_pointer results;
             genetic_algorithm_results_pointer := r |},
       snd performed)
  end.

(** Results perform_model_selection() const: the results of
    [perform_inputs_selection()] are dropped. *)
Definition perform_model_selection (ms : ModelSelection Settings) (w : World)
  : Performed Results :=
  match perform_inputs_selection ms w with
  | (Ok _, (ms', w')) => perform_neurons_selection ms' w'
  | (Throw what, s) => (Throw what, s)
  | (Undefined, s) => (Undefined, s)
  end.

End Algorithms.

End ModelSelectionOperations.

Module ModelSelectionOperationsExamples.

Import NeuralNetwork ModelSelection ModelSelectionOperations ModelSelectionExamples.

(** Algorithms that keep their display flag in a [Display] element put
    in front of their settings. *)
Definition example_set_display (k : AlgorithmClass) (new_display : bool)
           (s : list XMLNode) : list XMLNode :=
  XMLElement "Display" [] [XMLText (if new_display then "1" else "0")] :: s.

Definition example_set_approximation (k : AlgorithmClass)
           (new_approximation : bool) (s : list XMLNode) : list XMLNode :=
  XMLElement "Approximation" []
             [XMLText (if new_approximation then "1" else "0")] :: s.

(** Selections that count their runs in the world and give no results. *)
Definition example_perform_selection (k : AlgorithmClass)
           (a : Algorithm (list XMLNode)) (runs : nat)
  : result (option unit) * (Algorithm (list XMLNode) * nat) :=
  (Ok None, (a, S runs)).

(** A document with an inputs selection that can be read and a neurons
    selection of a type the class does not know. *)
Definition example_unknown_neurons_selection : XMLDocument :=
  [XMLElement "ModelSelection" []
     [XMLElement "InputsSelection" [("Type", "NO_INPUTS_SELECTION")] [];
      XMLElement "NeuronsSelection" [("Type", "GOLDEN_SECTION")] []]].

End ModelSelectionOperationsExamples.

(* ================================================================== *)
(** * Properties of the device *)

Module DeviceProperties.

Import Device.

(** C10.  A default-constructed device reports type EigenThreadPool while
    its thread-pool device is still the null pointer, so "type
    EigenThreadPool implies a thread-pool device" fails for it; after
    [set_type] the implication holds, and [set_type(EigenThreadPool)]
    allocates the pool and the device with [omp_get_max_threads()]
    threads. *)
Theorem thread_pool_allocated_by_set_type_only :
  get_type Device_default = EigenThreadPool
  /\ get_eigen_thread_pool_device Device_default = None
  /\ ~ thread_pool_ready Device_default
  /\ (forall (omp_get_max_threads : Z) (new_type : Type_) (d : Device),
         thread_pool_ready (set_type omp_get_max_threads new_type d))
  /\ (forall (omp_get_max_threads : Z) (d : Device),
         let d' := set_type omp_get_max_threads EigenThreadPool d in
         get_type d' = EigenThreadPool
         /\ simple_thread_pool d'
            = Some (new_NonBlockingThreadPool omp_get_max_threads)
         /\ get_eigen_thread_pool_device d'
            = Some (new_ThreadPoolDevice
                      (new_NonBlockingThreadPool omp_get_max_threads)
                      omp_get_max_threads)).
Proof.
  split; [reflexivity|].
  split; [reflexivity|].
  split.
  - intros ready. apply ready; reflexivity.
  - split.
    + intros n [|] d; unfold thread_pool_ready; cbn.
      * discriminate.
      * intros _; discriminate.
    + intros n d; cbn. repeat split.
Qed.

End DeviceProperties.

(* ================================================================== *)
(** * Properties of the neural network's parameters and layers *)

Module NeuralNetworkProperties.

Import NeuralNetwork.

Lemma Layer_parameters_length (l : Layer) :
  length (Layer_get_parameters l) = Layer_get_parameters_number l.
Proof.
  unfold Layer_get_parameters, Layer_get_parameters_number.
  induction (parameter_blocks l) as [|b bs IH]; simpl.
  - reflexivity.
  - rewrite length_app, IH. reflexivity.
Qed.

Lemma trainable_parameters_length (layers : list Layer) :
  length (concat (map Layer_get_parameters layers))
  = list_sum (map Layer_get_parameters_number layers).
Proof.
  induction layers as [|l layers IH]; simpl.
  - reflexivity.
  - rewrite length_app, IH, Layer_parameters_length. reflexivity.
Qed.

(** ** Packing *)

Lemma write_at_here (block old post : list type) :
  length old = length block ->
  write_at (old ++ post) 0 block = block ++ post.
Proof.
  revert block. induction old as [|x old IH]; intros [|b block] H;
    simpl in *; try discriminate.
  - destruct post; reflexivity.
  - rewrite IH by congruence. reflexivity.
Qed.

Lemma write_at_slice (pre old post block : list type) :
  length old = length block ->
  write_at (pre ++ old ++ post) (length pre) block = pre ++ block ++ post.
Proof.
  intros H. induction pre as [|x pre IH]; simpl.
  - apply write_at_here, H.
  - rewrite IH. reflexivity.
Qed.

Lemma pack_all (layers : list Layer) :
  forall pre old post : list type,
    length old = list_sum (map Layer_get_parameters_number layers) ->
    fold_left pack_step layers (pre ++ old ++ post, length pre)
    = (pre ++ concat (map Layer_get_parameters layers) ++ post,
       length pre + list_sum (map Layer_get_parameters_number layers)).
Proof.
  induction layers as [|l layers IH]; intros pre old post H; simpl in *.
  - destruct old; [|discriminate]. rewrite Nat.add_0_r. reflexivity.
  - set (c := Layer_get_parameters_number l) in *.
    assert (step : pack_step (pre ++ old ++ post, length pre) l
                   = ((pre ++ Layer_get_parameters l) ++ skipn c old ++ post,
                      length (pre ++ Layer_get_parameters l))).
    { unfold pack_step, pack_parameters; cbn [fst snd].
      rewrite <- (firstn_skipn c old) at 1.
      rewrite <- !app_assoc.
      rewrite write_at_slice
        by (rewrite Layer_parameters_length, firstn_length_le;
            [reflexivity | lia]).
      rewrite length_app, Layer_parameters_length. reflexivity. }
    rewrite step, IH by (rewrite length_skipn; lia).
    rewrite length_app, Layer_parameters_length, <- !app_assoc.
    f_equal. fold c. lia.
Qed.

Lemma get_parameters_is_concat (nn : NeuralNetwork) :
  get_parameters nn
  = concat (map Layer_get_parameters (get_trainable_layers_pointers nn)).
Proof.
  unfold get_parameters.
  pose proof (pack_all (get_trainable_layers_pointers nn) []
                       (repeat type_zero (get_parameters_number nn)) []) as H.
  simpl in H. rewrite !app_nil_r in H. rewrite H; [reflexivity|].
  apply repeat_length.
Qed.

Lemma get_parameters_length (nn : NeuralNetwork) :
  length (get_parameters nn) = get_parameters_number nn.
Proof.
  rewrite get_parameters_is_concat. apply trainable_parameters_length.
Qed.

(** C4.  The flat vector [get_parameters] returns is the concatenation of
    the trainable layers' parameter blocks in layer order, its length is
    the sum of their parameter counts, and an Approximation network of
    architecture [1,1,1] has 4 parameters, one of architecture [1,2,1]
    has 7. *)
Theorem get_parameters_concatenates_trainable_layers (nn : NeuralNetwork) :
  get_parameters nn
  = concat (map Layer_get_parameters (get_trainable_layers_pointers nn))
  /\ length (get_parameters nn)
     = list_sum (map Layer_get_parameters_number
                     (get_trainable_layers_pointers nn))
  /\ length (get_parameters nn) = get_parameters_number nn
  /\ (forall (prec : Z) (initial : nat -> type),
         length (get_parameters (set prec initial Approximation [1; 1; 1])) = 4
         /\ get_parameters_number (set prec initial Approximation [1; 1; 1]) = 4
         /\ length (get_parameters (set prec initial Approximation [1; 2; 1])) = 7
         /\ get_parameters_number (set prec initial Approximation [1; 2; 1]) = 7).
Proof.
  split; [apply get_parameters_is_concat|].
  split; [rewrite get_parameters_is_concat; apply trainable_parameters_length|].
  split; [apply get_parameters_length|].
  intros prec initial. rewrite !get_parameters_length. repeat split.
Qed.

(** ** Unpacking *)

Lemma firstn_plus (A : Type) (n m : nat) (l : list A) :
  firstn (n + m) l = firstn n l ++ firstn m (skipn n l).
Proof.
  revert l. induction n as [|n IH]; intros [|x l]; simpl.
  - reflexivity.
  - reflexivity.
  - rewrite firstn_nil. reflexivity.
  - rewrite IH. reflexivity.
Qed.

Lemma skipn_prefix (A : Type) (pre rest : list A) :
  skipn (length pre) (pre ++ rest) = rest.
Proof. induction pre as [|x pre IH]; simpl; [reflexivity | exact IH]. Qed.

Lemma firstn_prefix (A : Type) (pre rest : list A) :
  firstn (length pre) (pre ++ rest) = pre.
Proof. induction pre as [|x pre IH]; simpl; [reflexivity | now rewrite IH]. Qed.

Lemma unpack_blocks_of_concat (blocks : list (list type)) (rest : list type) :
  unpack_blocks blocks (concat blocks ++ rest) = blocks.
Proof.
  induction blocks as [|b blocks IH]; simpl.
  - reflexivity.
  - rewrite <- app_assoc, firstn_prefix, skipn_prefix, IH. reflexivity.
Qed.

Lemma concat_unpack_blocks (blocks : list (list type)) :
  forall slice : list type,
    list_sum (map (@length type) blocks) <= length slice ->
    concat (unpack_blocks blocks slice)
    = firstn (list_sum (map (@length type) blocks)) slice.
Proof.
  induction blocks as [|b blocks IH]; intros slice H; simpl in *.
  - reflexivity.
  - rewrite firstn_plus, IH by (rewrite length_skipn; lia). reflexivity.
Qed.

Lemma unpack_own_parameters (l : Layer) (pre rest : list type) :
  unpack_parameters l (pre ++ Layer_get_parameters l ++ rest) (length pre) = l.
Proof.
  unfold unpack_parameters, Layer_get_parameters.
  rewrite skipn_prefix, unpack_blocks_of_concat. destruct l; reflexivity.
Qed.

Lemma set_own_parameters (layers : list Layer) :
  forall pre post : list type,
    set_layers_parameters
      layers
      (pre ++ concat (map Layer_get_parameters (filter is_trainable layers)) ++ post)
      (length pre)
    = layers.
Proof.
  induction layers as [|l layers IH]; intros pre post; simpl.
  - reflexivity.
  - destruct (is_trainable l); simpl.
    + rewrite <- app_assoc, unpack_own_parameters. f_equal.
      rewrite <- Layer_parameters_length, <- length_app.
      rewrite (app_assoc pre). apply IH.
    + f_equal. apply IH.
Qed.

Lemma unpack_keeps_trainable (l : Layer) (v : list type) (position : nat) :
  is_trainable (unpack_parameters l v position) = is_trainable l.
Proof. reflexivity. Qed.

Lemma parameters_of_unpacked (l : Layer) (v : list type) (position : nat) :
  position + Layer_get_parameters_number l <= length v ->
  Layer_get_parameters (unpack_parameters l v position)
  = firstn (Layer_get_parameters_number l) (skipn position v).
Proof.
  intros H. unfold Layer_get_parameters, unpack_parameters; cbn.
  apply concat_unpack_blocks. rewrite length_skipn.
  unfold Layer_get_parameters_number in H. lia.
Qed.

Lemma parameters_after_set (layers : list Layer) :
  forall (v : list type) (position : nat),
    position + list_sum (map Layer_get_parameters_number
                             (filter is_trainable layers)) <= length v ->
    concat (map Layer_get_parameters
                (filter is_trainable (set_layers_parameters layers v position)))
    = firstn (list_sum (map Layer_get_parameters_number
                            (filter is_trainable layers)))
             (skipn position v).
Proof.
  induction layers as [|l layers IH]; intros v position H; simpl in *.
  - reflexivity.
  - destruct (is_trainable l) eqn:T; simpl in *.
    + rewrite unpack_keeps_trainable, T. simpl.
      rewrite parameters_of_unpacked, IH by lia.
      rewrite firstn_plus, skipn_skipn.
      rewrite (Nat.add_comm (Layer_get_parameters_number l) position).
      reflexivity.
    + rewrite T. apply IH, H.
Qed.

(** C5.  [set_parameters(get_parameters())] leaves the network, and so
    every layer's parameter blocks, as it was; and a vector of
    [get_parameters_number] coefficients that is set is the vector
    [get_parameters] then returns. *)
Theorem parameters_round_trip (nn : NeuralNetwork) :
  set_parameters (get_parameters nn) nn = Ok nn
  /\ (forall v : Tensor1 type,
         length v = get_parameters_number nn ->
         exists nn', set_parameters v nn = Ok nn' /\ get_parameters nn' = v).
Proof.
  split.
  - unfold set_parameters.
    rewrite get_parameters_length, Nat.eqb_refl. f_equal.
    rewrite get_parameters_is_concat.
    pose proof (set_own_parameters (layers_pointers nn) [] []) as S.
    simpl in S. rewrite app_nil_r in S.
    unfold get_trainable_layers_pointers. rewrite S.
    destruct nn; reflexivity.
  - intros v H. unfold set_parameters.
    rewrite H, Nat.eqb_refl. eexists; split; [reflexivity|].
    rewrite get_parameters_is_concat.
    unfold get_trainable_layers_pointers; cbn [layers_pointers].
    rewrite parameters_after_set.
    + unfold get_parameters_number, get_trainable_layers_parameters_numbers,
        get_trainable_layers_pointers in H.
      rewrite <- H. simpl. apply firstn_all.
    + unfold get_parameters_number, get_trainable_layers_parameters_numbers,
        get_trainable_layers_pointers in H.
      simpl. lia.
Qed.

(** The round trip on the network of architecture [2,2] that
    [test_set_parameters] builds. *)
Lemma parameters_round_trip_witness :
  let nn := set 24 (fun i => type_of_Index 24 128 (Z.of_nat i))
                Approximation [2; 2] in
  let v := repeat (type_one 24) 6 in
  set_parameters (get_parameters nn) nn = Ok nn
  /\ exists nn', set_parameters v nn = Ok nn' /\ get_parameters nn' = v.
Proof.
  intros nn v.
  destruct (parameters_round_trip nn) as [there back].
  split; [exact there | apply back; reflexivity].
Defined.

(** C6.  For an architecture [n_inputs, h, n_outputs] the convenience
    constructor gives a Classification network the layers Scaling,
    Perceptron, Probabilistic and an Approximation network the layers
    Scaling, Perceptron, Perceptron, Unscaling, Bounding; in both the
    layer at position 0 is the only Scaling layer. *)
Theorem convenience_constructor_layer_stack
        (prec : Z) (initial : nat -> type) (n_inputs h n_outputs : nat) :
  let classification :=
    set prec initial Classification [n_inputs; h; n_outputs] in
  let approximation :=
    set prec initial Approximation [n_inputs; h; n_outputs] in
  get_layers_types classification = [Scaling; Perceptron; Probabilistic]
  /\ get_layers_types approximation
     = [Scaling; Perceptron; Perceptron; Unscaling; Bounding]
  /\ option_map get_type (get_layer_pointer classification 0) = Some Scaling
  /\ option_map get_type (get_layer_pointer approximation 0) = Some Scaling
  /\ filter (LayerType_eqb Scaling) (tl (get_layers_types classification)) = []
  /\ filter (LayerType_eqb Scaling) (tl (get_layers_types approximation)) = [].
Proof. repeat split. Qed.

(** ** The values src/tests/neural_network_test.cpp asserts *)

Section Tests.

Variable prec : Z.
Variable initial : nat -> type.

Example test_constructor :
  get_layers_number NeuralNetwork_default = 0
  /\ is_empty NeuralNetwork_default = true
  /\ get_layers_types (set prec initial Approximation [1; 4; 2])
     = [Scaling; Perceptron; Perceptron; Unscaling; Bounding]
  /\ get_layers_types (set prec initial Classification [1; 4; 2])
     = [Scaling; Perceptron; Probabilistic]
  /\ get_layers_types (set prec initial Forecasting [1; 4; 2])
     = [Scaling; LongShortTermMemory; Perceptron; Unscaling]
  /\ get_layers_types (set prec initial ImageApproximation [1; 4; 2]) = [Scaling]
  /\ get_layers_types (set prec initial ImageClassification [1; 4; 2]) = [Scaling].
Proof. repeat split. Qed.

Example test_get_layers_number :
  let one_of_each :=
    map (fun t => plain_layer prec t 0 0 [])
        [Scaling; Convolutional; Perceptron; Pooling; Probabilistic;
         LongShortTermMemory; Recurrent; Unscaling; PrincipalComponents;
         Bounding] in
  length (filter is_trainable one_of_each) = 7.
Proof. reflexivity. Qed.

Example test_get_parameters :
  get_parameters NeuralNetwork_default = []
  /\ length (get_parameters (set prec initial Approximation [1; 2; 1])) = 7
  /\ length (get_parameters (set prec initial Approximation [1; 1; 1; 1])) = 6
  /\ get_trainable_layers_parameters_numbers
       (set prec initial Approximation [1; 2; 3]) = [4; 9].
Proof. rewrite !get_parameters_length. repeat split. Qed.

(** [test_get_trainable_layers_parameters]: weights 0 and biases 1 in the
    first Perceptron layer, weights 2 and biases 3 in the second. *)
Example test_get_trainable_layers_parameters (w0 b0 w1 b1 : type) :
  let nn :=
    {| layers_pointers :=
         [ScalingLayer prec 1;
          plain_layer prec Perceptron 1 2 [repeat w0 2; repeat b0 2];
          plain_layer prec Perceptron 2 3 [repeat w1 6; repeat b1 3];
          UnscalingLayer prec 3; BoundingLayer prec 3];
       inputs_names := []; outputs_names := [] |} in
  get_parameters nn
  = [w0; w0; b0; b0; w1; w1; w1; w1; w1; w1; b1; b1; b1].
Proof. reflexivity. Qed.

End Tests.

End NeuralNetworkProperties.

(* ================================================================== *)
(** * Properties of the comparisons of [type] *)

Module ScalarProperties.

Lemma SFcompare_swap (x y : type) :
  SFcompare y x = option_map CompOpp (SFcompare x y).
Proof.
  destruct x as [sx|sx| |sx mx ex], y as [sy|sy| |sy my ey]; simpl;
    try reflexivity;
    try (destruct sx; reflexivity);
    try (destruct sy; reflexivity);
    try (destruct sx, sy; reflexivity).
  change (Pos.compare_cont Eq my mx) with (Pos.compare my mx).
  change (Pos.compare_cont Eq mx my) with (Pos.compare mx my).
  rewrite (Z.compare_antisym ex ey), (Pos.compare_antisym mx my).
  destruct sx, sy; simpl; try reflexivity;
    destruct (ex ?= ey)%Z; simpl; try reflexivity;
    destruct (mx ?= my)%positive; reflexivity.
Qed.

(** Two values that are not NaN compare one way or the other. *)
Lemma SFleb_or_SFltb (x y : type) :
  is_nan x = false -> is_nan y = false ->
  SFleb x y || SFltb y x = true.
Proof.
  intros Hx Hy. unfold SFleb, SFltb. rewrite (SFcompare_swap x y).
  destruct x as [sx|sx| |sx mx ex], y as [sy|sy| |sy my ey];
    try discriminate; simpl;
    try reflexivity;
    try (destruct sx; reflexivity);
    try (destruct sy; reflexivity);
    try (destruct sx, sy; reflexivity).
  destruct sx, sy; simpl; try reflexivity;
    destruct (ex ?= ey)%Z; simpl; try reflexivity;
    destruct (Pos.compare_cont Eq mx my); reflexivity.
Qed.

Lemma SFleb_SFltb_nan (x y : type) :
  is_nan x = false ->
  SFleb x y || SFltb y x = negb (is_nan y).
Proof.
  intros Hx. destruct (is_nan y) eqn:Hy.
  - destruct y; try discriminate. destruct x; reflexivity.
  - apply SFleb_or_SFltb; assumption.
Qed.

Lemma SFltb_not_SFleb (x y : type) :
  SFltb x y = true -> SFleb y x = false.
Proof.
  unfold SFleb, SFltb. rewrite (SFcompare_swap x y).
  destruct (SFcompare x y) as [[| |]|]; simpl; congruence.
Qed.

(** Only a value with the same sign, mantissa and exponent compares
    equal to a finite value. *)
Lemma SFeqb_finite (x : type) (s : bool) (m : positive) (e : Z) :
  SFeqb x (S754_finite s m e) = true -> x = S754_finite s m e.
Proof.
  unfold SFeqb. destruct x as [sx|sx| |sx mx ex]; simpl.
  - destruct s; discriminate.
  - destruct sx; discriminate.
  - discriminate.
  - destruct sx, s; simpl; try discriminate;
      destruct (ex ?= e)%Z eqn:E; try discriminate;
      destruct (Pos.compare_cont Eq mx m) eqn:P; try discriminate;
      apply Z.compare_eq in E; apply Pos.compare_eq in P; subst; reflexivity.
Qed.

Lemma SFeqb_zero (x : type) :
  SFeqb x type_zero = true -> exists s, x = S754_zero s.
Proof.
  unfold SFeqb, type_zero. destruct x as [sx|sx| |sx mx ex]; simpl.
  - eexists; reflexivity.
  - destruct sx; discriminate.
  - discriminate.
  - destruct sx; discriminate.
Qed.

Lemma half_below_one (prec : Z) :
  SFleb type_zero (type_half prec) = true
  /\ SFleb (type_half prec) (type_one prec) = true
  /\ SFeqb (type_half prec) type_zero = false
  /\ is_nan (type_half prec) = false.
Proof.
  assert (E : (- prec ?= 1 - prec)%Z = Lt) by (apply Z.compare_lt_iff; lia).
  repeat split.
  unfold SFleb, SFcompare, type_half, type_one. rewrite E. reflexivity.
Qed.

End ScalarProperties.

(* ================================================================== *)
(** * Properties of the testing analysis *)

Module TestingAnalysisProperties.

Import NeuralNetwork TestingAnalysis TestingAnalysisExamples ScalarProperties.
Import TestingAnalysisChartsExamples.

Lemma at2_in_range (t : Tensor2 type) (i : nat) :
  well_formed t -> 1 <= dimension1 t -> i < dimension0 t ->
  at2 t i 0 = Ok (first_column t i).
Proof.
  intros W C R. unfold first_column.
  destruct (at2 t i 0) eqn:E; try reflexivity; exfalso;
    unfold at2 in E;
    destruct (Nat.ltb_spec i (dimension0 t)); try lia;
    destruct (Nat.ltb_spec 0 (dimension1 t)); try lia;
    simpl in E; rewrite Nat.add_0_r in E;
    destruct (nth_error (coefficients t) i) eqn:N; try discriminate;
    apply nth_error_None in N; unfold well_formed in W; nia.
Qed.

Lemma for_each_returns (S : Type) (body : nat -> S -> result S) (l : list nat) :
  (forall i s, In i l -> returns (body i s)) ->
  forall s, returns (for_each body l s).
Proof.
  induction l as [|i l IH]; intros H s; simpl.
  - eexists; reflexivity.
  - destruct (H i s (or_introl eq_refl)) as [s' E]. rewrite E; simpl.
    apply IH. intros j s0 Hj. apply H. right; exact Hj.
Qed.

Section Confusion.

Variables prec emax : Z.
Variables targets outputs : Tensor2 type.
Hypothesis data : testing_data targets outputs.

Let cell_at (decision_threshold : type) (i : nat) : Cell :=
  cell_of prec decision_threshold
          (first_column targets i) (first_column outputs i).

Lemma confusion_body_cell (decision_threshold : type) (i : nat) (c : Counters) :
  i < dimension0 targets ->
  confusion_body prec targets outputs decision_threshold i c
  = Ok (increment (cell_at decision_threshold i) c).
Proof.
  intros R. destruct data as (Wt & Wo & Ct & Co & Rows).
  unfold confusion_body, cell_at, cell_of.
  rewrite (at2_in_range Wt Ct R); simpl.
  assert (O : at2 outputs i 0 = Ok (first_column outputs i))
    by (apply at2_in_range; [assumption | assumption | lia]).
  destruct (SFeqb decision_threshold type_zero
            && SFeqb (first_column targets i) type_zero); [reflexivity|].
  destruct (SFeqb decision_threshold type_zero
            && SFeqb (first_column targets i) (type_one prec)); [reflexivity|].
  destruct (SFleb decision_threshold (first_column targets i)).
  - rewrite O; simpl.
    destruct (SFleb decision_threshold (first_column outputs i)); [reflexivity|].
    destruct (SFltb (first_column outputs i) decision_threshold); reflexivity.
  - destruct (SFltb (first_column targets i) decision_threshold); [|reflexivity].
    rewrite O; simpl.
    destruct (SFleb decision_threshold (first_column outputs i)); [reflexivity|].
    destruct (SFltb (first_column outputs i) decision_threshold); reflexivity.
Qed.

Lemma confusion_loop (decision_threshold : type) (l : list nat) :
  (forall i, In i l -> i < dimension0 targets) ->
  forall c : Counters,
  exists c' : Counters,
    for_each (confusion_body prec targets outputs decision_threshold) l c = Ok c'
    /\ (true_positive c' + false_negative c'
        = true_positive c + false_negative c
          + Z.of_nat (length (filter
               (fun i => in_first_row (cell_at decision_threshold i)) l)))%Z
    /\ (false_positive c' + true_negative c'
        = false_positive c + true_negative c
          + Z.of_nat (length (filter
               (fun i => in_second_row (cell_at decision_threshold i)) l)))%Z.
Proof.
  induction l as [|i l IH]; intros R c; simpl.
  - exists c. repeat split; lia.
  - rewrite confusion_body_cell by (apply R; left; reflexivity). simpl.
    destruct (IH (fun j Hj => R j (or_intror Hj))
                 (increment (cell_at decision_threshold i) c))
      as (c' & E & First & Second).
    exists c'. split; [exact E|].
    rewrite First, Second.
    destruct (cell_at decision_threshold i); simpl; split; lia.
Qed.

(** The binary confusion matrix: its first row sums to the number of
    rows counted in TruePositive or FalseNegative, its second row to
    the number counted in FalsePositive or TrueNegative. *)
Lemma binary_confusion_rows (decision_threshold : type) :
  exists c : Counters,
    calculate_confusion_binary_classification
      prec targets outputs decision_threshold
    = Ok (confusion_of_counters c)
    /\ (true_positive c + false_negative c
        = count_instances
            (fun t o => in_first_row (cell_of prec decision_threshold t o))
            targets outputs)%Z
    /\ (false_positive c + true_negative c
        = count_instances
            (fun t o => in_second_row (cell_of prec decision_threshold t o))
            targets outputs)%Z.
Proof.
  unfold calculate_confusion_binary_classification, count_instances.
  destruct (confusion_loop decision_threshold
              (seq 0 (dimension0 targets))
              (fun i Hi => proj2 (proj1 (in_seq _ _ _) Hi)) Counters_zero)
    as (c & E & First & Second).
  exists c. rewrite E; simpl. split; [reflexivity|].
  rewrite First, Second. simpl. split; reflexivity.
Qed.

Lemma count_instances_ext (p q : type -> type -> bool) :
  (forall t o, p t o = q t o) ->
  count_instances p targets outputs = count_instances q targets outputs.
Proof.
  intros H. unfold count_instances. do 2 f_equal.
  apply filter_ext. intros i. apply H.
Qed.

Lemma count_instances_ext_in (p q : type -> type -> bool) :
  (forall i, i < dimension0 targets ->
             p (first_column targets i) (first_column outputs i)
             = q (first_column targets i) (first_column outputs i)) ->
  count_instances p targets outputs = count_instances q targets outputs.
Proof.
  intros H. unfold count_instances. do 2 f_equal.
  apply filter_ext_in. intros i Hi. apply H. apply in_seq in Hi. lia.
Qed.

(** At the threshold 0.5 a row is counted in the first row of the matrix
    when its target is at least 0.5 and its output is a number, in the
    second row when its target is below 0.5 and its output is a
    number. *)
Lemma cell_at_half (t o : type) :
  in_first_row (cell_of prec (type_half prec) t o) = counted_positive prec t o
  /\ in_second_row (cell_of prec (type_half prec) t o) = counted_negative prec t o.
Proof.
  destruct (half_below_one prec) as (_ & _ & NZ & NN).
  unfold cell_of, counted_positive, counted_negative.
  rewrite NZ; simpl.
  pose proof (SFleb_SFltb_nan (type_half prec) o NN) as Total.
  destruct (SFleb (type_half prec) t) eqn:Le.
  - assert (Lt : SFltb t (type_half prec) = false).
    { destruct (SFltb t (type_half prec)) eqn:Lt; [|reflexivity].
      apply SFltb_not_SFleb in Lt. congruence. }
    rewrite Lt; simpl.
    destruct (SFleb (type_half prec) o); simpl in *.
    + rewrite <- Total. split; reflexivity.
    + destruct (SFltb o (type_half prec)); rewrite <- Total; split; reflexivity.
  - simpl. destruct (SFltb t (type_half prec)); simpl.
    + destruct (SFleb (type_half prec) o); simpl in *.
      * rewrite <- Total. split; reflexivity.
      * destruct (SFltb o (type_half prec)); rewrite <- Total; split; reflexivity.
    + split; reflexivity.
Qed.

Lemma positives_negatives_rate_counts :
  calculate_positives_negatives_rate prec targets outputs
  = Ok [count_instances (counted_positive prec) targets outputs;
        count_instances (counted_negative prec) targets outputs].
Proof.
  unfold calculate_positives_negatives_rate.
  destruct (binary_confusion_rows (type_half prec)) as (c & E & First & Second).
  rewrite E; simpl.
  rewrite First, Second.
  rewrite (count_instances_ext
             (fun t o => in_first_row (cell_of prec (type_half prec) t o))
             (counted_positive prec))
    by (intros t o; apply (proj1 (cell_at_half t o))).
  rewrite (count_instances_ext
             (fun t o => in_second_row (cell_of prec (type_half prec) t o))
             (counted_negative prec))
    by (intros t o; apply (proj2 (cell_at_half t o))).
  reflexivity.
Qed.

End Confusion.

(** ** Rows of the binary confusion matrix *)

(** With a threshold between 0 and 1, a row whose target is 0 or 1 and
    whose output is finite is counted in the first row of the matrix when
    the target is 1 and in the second when it is 0. *)
Lemma cell_of_class (prec : Z) (decision_threshold t o : type) :
  SFleb type_zero decision_threshold = true ->
  SFleb decision_threshold (type_one prec) = true ->
  SFeqb t type_zero = true \/ SFeqb t (type_one prec) = true ->
  is_finite o = true ->
  in_first_row (cell_of prec decision_threshold t o) = positive_instance prec t o
  /\ in_second_row (cell_of prec decision_threshold t o) = negative_instance t o.
Proof.
  unfold positive_instance, negative_instance, cell_of, type_one.
  set (m1 := Pos.shiftl 1 (Z.to_N (prec - 1))). set (e1 := (1 - prec)%Z).
  intros Low High Class Finite.
  assert (On : is_nan o = false) by (destruct o; try discriminate; reflexivity).
  destruct (SFeqb decision_threshold type_zero) eqn:Z0; simpl.
  - destruct Class as [C|C].
    + rewrite C. destruct (SFeqb_zero _ C) as [s ->]. split; reflexivity.
    + rewrite C. apply SFeqb_finite in C. subst t. split; reflexivity.
  - assert (Tn : is_nan decision_threshold = false)
      by (destruct decision_threshold; try discriminate; reflexivity).
    pose proof (SFleb_or_SFltb decision_threshold o Tn On) as Total.
    destruct Class as [C|C].
    + destruct (SFeqb_zero _ C) as [s ->].
      destruct decision_threshold as [s0|s0| |s0 m0 e0]; try discriminate.
      * destruct s0; discriminate.
      * destruct s0; [discriminate|]. simpl.
        destruct (SFleb (S754_finite false m0 e0) o); simpl in *.
        -- split; reflexivity.
        -- rewrite Total. split; reflexivity.
    + rewrite C. apply SFeqb_finite in C. subst t. rewrite High.
      destruct (SFleb decision_threshold o); simpl in *.
      * split; reflexivity.
      * rewrite Total. split; reflexivity.
Qed.

(** C2, as the code has it.  For a binary classification problem whose
    testing targets are 0 or 1 and whose outputs are finite, and a
    decision threshold between 0 and 1, the first row of the matrix
    [calculate_confusion] returns sums to the number of positive testing
    instances and the second row to the number of negative ones. *)
Theorem confusion_rows_sum_to_class_counts
        (prec : Z) (OPENNN_DEBUG : bool)
        (calculate_outputs : NeuralNetwork -> Tensor2 type -> Tensor2 type)
        (memory : nat -> Index)
        (ta : TestingAnalysis) (nn : NeuralNetwork) (ds : DataSet) :
  let targets := get_testing_target_data ds in
  let outputs := calculate_outputs nn (get_testing_input_data ds) in
  let decision_threshold :=
    match get_probabilistic_layer_pointer nn with
    | Some probabilistic_layer => get_decision_threshold probabilistic_layer
    | None => type_half prec
    end in
  neural_network_pointer ta = Some nn ->
  data_set_pointer ta = Some ds ->
  get_outputs_number nn = 1 ->
  (OPENNN_DEBUG = true ->
   get_inputs_number nn = get_input_variables_number ds
   /\ get_target_variables_number ds = 1) ->
  testing_data targets outputs ->
  (forall i, i < dimension0 targets ->
             SFeqb (first_column targets i) type_zero = true
             \/ SFeqb (first_column targets i) (type_one prec) = true) ->
  (forall i, i < dimension0 targets ->
             is_finite (first_column outputs i) = true) ->
  SFleb type_zero decision_threshold = true ->
  SFleb decision_threshold (type_one prec) = true ->
  exists confusion : Tensor2 Index,
    calculate_confusion prec OPENNN_DEBUG calculate_outputs memory ta
    = Ok confusion
    /\ dimension0 confusion = 2 /\ dimension1 confusion = 2
    /\ row_sum confusion 0
       = Ok (count_instances (positive_instance prec) targets outputs)
    /\ row_sum confusion 1
       = Ok (count_instances negative_instance targets outputs).
Proof.
  intros targets outputs decision_threshold NN DS One Debug Data Class Finite
         Low High.
  destruct (binary_confusion_rows prec Data decision_threshold)
    as (c & E & First & Second).
  exists (confusion_of_counters c).
  split.
  - unfold calculate_confusion. rewrite NN, DS; simpl.
    rewrite One; simpl.
    fold targets outputs decision_threshold.
    destruct OPENNN_DEBUG; simpl.
    + destruct (Debug eq_refl) as [In Out].
      rewrite In, Out, Nat.eqb_refl; simpl.
      unfold check. rewrite NN, DS. exact E.
    + exact E.
  - split; [reflexivity|]. split; [reflexivity|].
    unfold row_sum; simpl. rewrite First, Second.
    split; apply f_equal; apply count_instances_ext_in; intros i R;
      [apply (proj1 (@cell_of_class prec _ _ _ Low High (Class i R) (Finite i R)))
      |apply (proj2 (@cell_of_class prec _ _ _ Low High (Class i R) (Finite i R)))].
Qed.

(** ** Rows of the matrix on a concrete problem *)

(** The two instances, the threshold 0.5 of the Probabilistic layer, a
    debug build: each row of the matrix sums to 1. *)
Lemma confusion_rows_sum_to_class_counts_witness :
  exists confusion : Tensor2 Index,
    calculate_confusion 24 true example_outputs (fun _ => 0%Z)
                        (example_analysis (type_half 24))
    = Ok confusion
    /\ dimension0 confusion = 2 /\ dimension1 confusion = 2
    /\ row_sum confusion 0 = Ok 1%Z
    /\ row_sum confusion 1 = Ok 1%Z.
Proof.
  apply (@confusion_rows_sum_to_class_counts
           24 true example_outputs (fun _ => 0%Z)
           (example_analysis (type_half 24))
           (example_network (type_half 24)) example_data_set).
  - reflexivity.
  - reflexivity.
  - reflexivity.
  - intros _. split; reflexivity.
  - unfold testing_data, well_formed; simpl. lia.
  - intros i R. simpl in R.
    destruct i as [|[|i]]; [right; reflexivity | left; reflexivity | lia].
  - intros i R. simpl in R.
    destruct i as [|[|i]]; [reflexivity | reflexivity | lia].
  - reflexivity.
  - reflexivity.
Defined.

(** C2 as stated fails for a decision threshold above 1: with the
    threshold 2 the instance of target 1 is counted as a true negative,
    and the first row sums to 0 while one testing instance is positive. *)
Lemma confusion_rows_counterexample :
  let ds := example_data_set in
  let targets := get_testing_target_data ds in
  let outputs := example_outputs (example_network example_two)
                                 (get_testing_input_data ds) in
  get_outputs_number (example_network example_two) = 1
  /\ testing_data targets outputs
  /\ (forall i, i < dimension0 targets ->
                 SFeqb (first_column targets i) type_zero = true
                 \/ SFeqb (first_column targets i) (type_one 24) = true)
  /\ (forall i, i < dimension0 targets ->
                 is_finite (first_column outputs i) = true)
  /\ count_instances (positive_instance 24) targets outputs = 1%Z
  /\ exists confusion : Tensor2 Index,
       calculate_confusion 24 false example_outputs (fun _ => 0%Z)
                           (example_analysis example_two)
       = Ok confusion
       /\ row_sum confusion 0 = Ok 0%Z
       /\ row_sum confusion 1 = Ok 2%Z
       /\ row_sum confusion 0
          <> Ok (count_instances (positive_instance 24) targets outputs).
Proof.
  cbv zeta. split; [reflexivity|].
  split; [unfold testing_data, well_formed; simpl; lia|].
  split.
  { intros i R. simpl in R.
    destruct i as [|[|i]]; [right; reflexivity | left; reflexivity | lia]. }
  split.
  { intros i R. simpl in R.
    destruct i as [|[|i]]; [reflexivity | reflexivity | lia]. }
  split; [reflexivity|].
  eexists. split; [vm_compute; reflexivity|].
  split; [reflexivity|]. split; [reflexivity|].
  vm_compute. discriminate.
Qed.

(** ** ROC curve and area under the curve *)

Section Curve.

Variables prec emax : Z.
Variables targets outputs : Tensor2 type.
Hypothesis data : testing_data targets outputs.

Let positives : Index := count_instances (counted_positive prec) targets outputs.
Let negatives : Index := count_instances (counted_negative prec) targets outputs.

Lemma roc_curve_outcome :
  calculate_roc_curve prec emax targets outputs
  = if (positives =? 0)%Z then
      Throw ("OpenNN Exception: TestingAnalysis class." ++ nl
             ++ "Tensor<type, 2> calculate_roc_curve(const Tensor<type, 2>&, const Tensor<type, 2>&) const."
             ++ nl ++ "Number of positive instances ("
             ++ string_of_Index positives
             ++ ") must be greater than zero." ++ nl)
    else if (negatives =? 0)%Z then
      Throw ("OpenNN Exception: TestingAnalysis class." ++ nl
             ++ "Tensor<type, 2> calculate_roc_curve(const Tensor<type, 2>&, const Tensor<type, 2>&) const."
             ++ nl ++ "Number of negative instances ("
             ++ string_of_Index negatives
             ++ ") must be greater than zero." ++ nl)
    else Ok (Tensor2_empty type).
Proof.
  unfold calculate_roc_curve.
  rewrite (positives_negatives_rate_counts prec data).
  cbn [bind at1 nth_error]. fold positives negatives.
  destruct (positives =? 0)%Z; [reflexivity|].
  destruct (negatives =? 0)%Z; reflexivity.
Qed.

Lemma roc_curve_with_both_classes :
  positives <> 0%Z -> negatives <> 0%Z ->
  calculate_roc_curve prec emax targets outputs = Ok (Tensor2_empty type).
Proof.
  intros P N. rewrite roc_curve_outcome.
  destruct (Z.eqb_spec positives 0); [contradiction|].
  destruct (Z.eqb_spec negatives 0); [contradiction|]. reflexivity.
Qed.

Lemma area_loops_return (sum : type) :
  returns (for_each (area_outer prec emax targets outputs (dimension0 targets))
                    (seq 0 (dimension0 targets)) sum).
Proof.
  destruct data as (Wt & Wo & Ct & Co & Rows).
  assert (Rt : forall i, In i (seq 0 (dimension0 targets)) ->
                         at2 targets i 0 = Ok (first_column targets i)).
  { intros i Hi. apply in_seq in Hi. apply at2_in_range; [assumption | assumption | lia]. }
  assert (Ro : forall i, In i (seq 0 (dimension0 targets)) ->
                         at2 outputs i 0 = Ok (first_column outputs i)).
  { intros i Hi. apply in_seq in Hi. apply at2_in_range; [assumption | assumption | lia]. }
  apply for_each_returns. intros i s Hi.
  unfold area_outer. rewrite (Rt i Hi); cbn [bind].
  destruct (near_one (first_column targets i)); [|eexists; reflexivity].
  apply for_each_returns. intros j s' Hj.
  unfold area_inner. rewrite (Rt j Hj); cbn [bind].
  destruct (near_zero (first_column targets j)); [|eexists; reflexivity].
  rewrite (Ro i Hi), (Ro j Hj); cbn [bind]. eexists; reflexivity.
Qed.

Lemma area_under_curve_outcome :
  (positives = 0%Z \/ negatives = 0%Z ->
   throws (calculate_area_under_curve prec emax targets outputs))
  /\ (positives <> 0%Z -> negatives <> 0%Z ->
      returns (calculate_area_under_curve prec emax targets outputs)).
Proof.
  unfold calculate_area_under_curve.
  rewrite (positives_negatives_rate_counts prec data).
  cbn [bind at1 nth_error]. fold positives negatives.
  destruct (Z.eqb_spec positives 0) as [P|P].
  - split; [intros _; eexists; reflexivity | intros H; contradiction].
  - destruct (Z.eqb_spec negatives 0) as [N|N].
    + split; [intros _; eexists; reflexivity | intros _ H; contradiction].
    + split; [intros [H|H]; contradiction|]. intros _ _.
      destruct (area_loops_return type_zero) as [sum E].
      rewrite E; cbn [bind]. eexists; reflexivity.
Qed.

Lemma throws_not_returns (A : Type) (r : result A) :
  throws r -> returns r -> False.
Proof. intros [w ->] [a H]. discriminate. Qed.

(** Without a NaN among the outputs, the instances counted are those
    the targets alone determine. *)
Lemma counted_without_nan :
  (forall i, i < dimension0 targets -> is_nan (first_column outputs i) = false) ->
  positives = count_instances (positive_at_half prec) targets outputs
  /\ negatives = count_instances (negative_at_half prec) targets outputs.
Proof.
  intros Numbers. unfold positives, negatives.
  split; apply count_instances_ext_in; intros i R;
    unfold counted_positive, counted_negative, positive_at_half, negative_at_half;
    rewrite (Numbers i R); simpl; apply andb_true_r.
Qed.

End Curve.

(** What the guards of [calculate_roc_curve] and
    [calculate_area_under_curve] test.  They read the counts of
    [calculate_positives_negatives_rate], which come from the confusion
    matrix at the threshold 0.5: both methods throw if and only if no
    testing instance is counted there as a positive or none as a
    negative, and an instance is counted only when its output compares
    with 0.5.  When no output is a NaN the instances counted are the
    positives and the negatives of the targets. *)
Lemma roc_and_area_throw_without_both_classes
        (prec emax : Z) (targets outputs : Tensor2 type) :
  testing_data targets outputs ->
  let positives := count_instances (counted_positive prec) targets outputs in
  let negatives := count_instances (counted_negative prec) targets outputs in
  (throws (calculate_roc_curve prec emax targets outputs)
   <-> positives = 0%Z \/ negatives = 0%Z)
  /\ (throws (calculate_area_under_curve prec emax targets outputs)
      <-> positives = 0%Z \/ negatives = 0%Z)
  /\ (positives <> 0%Z -> negatives <> 0%Z ->
      calculate_roc_curve prec emax targets outputs = Ok (Tensor2_empty type)
      /\ returns (calculate_area_under_curve prec emax targets outputs))
  /\ ((forall i, i < dimension0 targets ->
                 is_nan (first_column outputs i) = false) ->
      positives = count_instances (positive_at_half prec) targets outputs
      /\ negatives = count_instances (negative_at_half prec) targets outputs).
Proof.
  intros data positives negatives.
  pose proof (roc_curve_outcome prec emax data) as Roc.
  destruct (area_under_curve_outcome prec emax data) as [AreaThrows AreaReturns].
  fold positives negatives in Roc, AreaThrows, AreaReturns.
  split; [|split; [|split]].
  - rewrite Roc.
    destruct (Z.eqb_spec positives 0) as [P|P];
      [split; [intros _; left; exact P | intros _; eexists; reflexivity]|].
    destruct (Z.eqb_spec negatives 0) as [N|N];
      [split; [intros _; right; exact N | intros _; eexists; reflexivity]|].
    split; [intros [w H]; discriminate | intros [H|H]; contradiction].
  - split; [|exact AreaThrows].
    intros T.
    destruct (Z.eqb_spec positives 0) as [P|P]; [left; exact P|].
    destruct (Z.eqb_spec negatives 0) as [N|N]; [right; exact N|].
    exfalso. exact (throws_not_returns T (AreaReturns P N)).
  - intros P N. split; [|exact (AreaReturns P N)].
    apply (roc_curve_with_both_classes prec emax data P N).
  - apply counted_without_nan.
Qed.

(** Two rows of one column each are testing data. *)
Lemma example_testing_data (A : Type) (x y x' y' : A) :
  testing_data (column [x; y]) (column [x'; y']).
Proof. unfold testing_data, well_formed; simpl. lia. Defined.

(** With a positive and a negative instance both methods return. *)
Lemma roc_and_area_throw_without_both_classes_witness :
  calculate_roc_curve 24 128 (column [example_one; type_zero])
                      (column [example_one; type_zero])
  = Ok (Tensor2_empty type)
  /\ returns (calculate_area_under_curve
                24 128 (column [example_one; type_zero])
                (column [example_one; type_zero])).
Proof.
  destruct (@roc_and_area_throw_without_both_classes
              24 128 (column [example_one; type_zero])
              (column [example_one; type_zero])
              (example_testing_data _ _ _ _))
    as (_ & _ & Both & _).
  apply Both; vm_compute; discriminate.
Defined.

(** C8.  The code where it departs from the claim.  The testing targets
    hold a positive and a negative instance and the output of the
    positive one is a NaN.  [calculate_positives_negatives_rate], which
    is documented to return the numbers of positive and of negative
    instances, counts that instance in no cell of the confusion matrix
    and reports no positive, and [calculate_roc_curve] and
    [calculate_area_under_curve] throw for a lack of positive instances.
    The pair loop of [calculate_area_under_curve] takes the positives by
    their targets alone: with a second positive instance, whose output
    is 0.9 against 0.1 for the negative one, it runs over the instance
    of the NaN output as well and the area comes out as 1.5. *)
Theorem nan_output_hides_a_positive_instance :
  let number (n : Z) := type_of_Index 24 128 n in
  let targets := column [example_one; type_zero] in
  let outputs := column [S754_nan; type_zero] in
  testing_data targets outputs
  /\ count_instances (positive_at_half 24) targets outputs = 1%Z
  /\ count_instances (negative_at_half 24) targets outputs = 1%Z
  /\ calculate_positives_negatives_rate 24 targets outputs = Ok [0; 1]%Z
  /\ calculate_roc_curve 24 128 targets outputs
     = Throw ("OpenNN Exception: TestingAnalysis class." ++ nl
              ++ "Tensor<type, 2> calculate_roc_curve(const Tensor<type, 2>&, const Tensor<type, 2>&) const."
              ++ nl ++ "Number of positive instances (0) must be greater than zero."
              ++ nl)
  /\ calculate_area_under_curve 24 128 targets outputs
     = Throw ("OpenNN Exception: TestingAnalysis class." ++ nl
              ++ "Tensor<type, 2> calculate_roc_curve(const Tensor<type, 2>&, const Tensor<type, 2>&) const."
              ++ nl ++ "Number of positive instances(0) must be greater than zero."
              ++ nl)
  /\ calculate_area_under_curve
       24 128 (column [example_one; example_one; type_zero])
       (column [S754_nan; SFdiv 24 128 (number 9%Z) (number 10%Z);
                SFdiv 24 128 (number 1%Z) (number 10%Z)])
     = Ok (SFdiv 24 128 (number 3%Z) (number 2%Z)).
Proof.
  cbv zeta. split; [apply example_testing_data|].
  vm_compute. repeat split.
Qed.

(** ** The methods whose body is commented out *)

Lemma roc_curve_returns_empty (prec emax : Z) (targets outputs curve : Tensor2 type) :
  calculate_roc_curve prec emax targets outputs = Ok curve ->
  curve = Tensor2_empty type.
Proof.
  unfold calculate_roc_curve.
  destruct (calculate_positives_negatives_rate prec targets outputs) as [r| |];
    cbn [bind]; try discriminate.
  destruct (at1 r 0) as [p| |]; cbn [bind]; try discriminate.
  destruct (at1 r 1) as [n| |]; cbn [bind]; try discriminate.
  destruct (p =? 0)%Z; try discriminate.
  destruct (n =? 0)%Z; try discriminate.
  intros H. injection H as <-. reflexivity.
Qed.

Lemma length_two (A : Type) (l : list A) :
  length l = 2 -> exists a b, l = [a; b].
Proof.
  destruct l as [|a [|b [|c l]]]; try discriminate.
  intros _. exists a, b. reflexivity.
Qed.

Lemma weighted_squared_error_returns_zero
      (prec emax : Z) (OPENNN_DEBUG : bool) (ta : TestingAnalysis)
      (targets outputs : Tensor2 type) (weights : Tensor1 type) (error : type) :
  calculate_testing_weighted_squared_error
    prec emax OPENNN_DEBUG ta targets outputs weights = Ok error ->
  error = type_zero.
Proof.
  unfold calculate_testing_weighted_squared_error.
  destruct (OPENNN_DEBUG && negb (dimension1 outputs =? 1)); cbn [bind];
    try discriminate.
  destruct (negb (length weights =? 2)).
  - destruct (deref (data_set_pointer ta)) as [ds| |]; cbn [bind]; try discriminate.
    destruct (at1 (calculate_target_distribution ds) 0) as [n| |];
      cbn [bind]; try discriminate.
    destruct (at1 (calculate_target_distribution ds) 1) as [p| |];
      cbn [bind]; try discriminate.
    destruct (p =? 0)%Z; cbn [bind]; try discriminate.
    intros H. injection H as <-. reflexivity.
  - destruct (at1 weights 0) as [p| |]; cbn [bind]; try discriminate.
    destruct (at1 weights 1) as [n| |]; cbn [bind]; try discriminate.
    intros H. injection H as <-. reflexivity.
Qed.

(** C1, as the code has it by design.  [calculate_roc_curve] returns
    the empty tensor whenever it returns, and keeps its guards: on
    testing data whose outputs are all numbers it returns when the
    targets hold an instance at or above 0.5 and one below it, and
    throws otherwise.  [calculate_testing_weighted_squared_error]
    returns 0 whenever it returns, which it does when two weights are
    given, and without two weights when the target distribution of the
    data set has positives; in a debug build it throws instead when the
    outputs do not have one column. *)
Theorem unimplemented_statistics_are_empty
        (prec emax : Z) (OPENNN_DEBUG : bool) :
  (forall targets outputs curve,
      calculate_roc_curve prec emax targets outputs = Ok curve ->
      curve = Tensor2_empty type)
  /\ (forall targets outputs,
         testing_data targets outputs ->
         (forall i, i < dimension0 targets ->
                    is_nan (first_column outputs i) = false) ->
         let positives :=
           count_instances (positive_at_half prec) targets outputs in
         let negatives :=
           count_instances (negative_at_half prec) targets outputs in
         (positives <> 0%Z -> negatives <> 0%Z ->
          calculate_roc_curve prec emax targets outputs
          = Ok (Tensor2_empty type))
         /\ (positives = 0%Z \/ negatives = 0%Z ->
             throws (calculate_roc_curve prec emax targets outputs)))
  /\ (forall ta targets outputs weights error,
         calculate_testing_weighted_squared_error
           prec emax OPENNN_DEBUG ta targets outputs weights = Ok error ->
         error = type_zero)
  /\ (forall ta targets outputs weights,
         OPENNN_DEBUG = false \/ dimension1 outputs = 1 ->
         length weights = 2 ->
         calculate_testing_weighted_squared_error
           prec emax OPENNN_DEBUG ta targets outputs weights = Ok type_zero)
  /\ (forall ta ds targets outputs weights negatives_number positives_number rest,
         OPENNN_DEBUG = false \/ dimension1 outputs = 1 ->
         length weights <> 2 ->
         data_set_pointer ta = Some ds ->
         calculate_target_distribution ds
         = negatives_number :: positives_number :: rest ->
         positives_number <> 0%Z ->
         calculate_testing_weighted_squared_error
           prec emax OPENNN_DEBUG ta targets outputs weights = Ok type_zero)
  /\ (forall ta targets outputs weights,
         OPENNN_DEBUG = true -> dimension1 outputs <> 1 ->
         throws (calculate_testing_weighted_squared_error
                   prec emax OPENNN_DEBUG ta targets outputs weights)).
Proof.
  assert (Build : forall outputs : Tensor2 type,
             OPENNN_DEBUG = false \/ dimension1 outputs = 1 ->
             OPENNN_DEBUG && negb (dimension1 outputs =? 1) = false).
  { intros outputs [-> | ->]; [reflexivity | apply andb_false_r]. }
  split; [intros targets outputs curve; apply roc_curve_returns_empty|].
  split.
  { intros targets outputs data Numbers positives negatives.
    destruct (counted_without_nan prec targets outputs Numbers) as [P N].
    fold positives in P. fold negatives in N.
    pose proof (roc_curve_outcome prec emax data) as Roc.
    rewrite P, N in Roc. rewrite Roc.
    split.
    - intros HP HN.
      destruct (Z.eqb_spec positives 0); [contradiction|].
      destruct (Z.eqb_spec negatives 0); [contradiction|]. reflexivity.
    - intros Lack.
      destruct (Z.eqb_spec positives 0); [eexists; reflexivity|].
      destruct (Z.eqb_spec negatives 0); [eexists; reflexivity|].
      destruct Lack; contradiction. }
  split; [intros ta targets outputs weights error;
          apply weighted_squared_error_returns_zero|].
  split; [|split].
  - intros ta targets outputs weights B W.
    unfold calculate_testing_weighted_squared_error.
    rewrite (Build outputs B); cbn [bind].
    destruct (length_two weights W) as (a & b & ->). reflexivity.
  - intros ta ds targets outputs weights n p rest B W DS Distribution P.
    unfold calculate_testing_weighted_squared_error.
    rewrite (Build outputs B); cbn [bind].
    apply Nat.eqb_neq in W. rewrite W; cbn [negb].
    rewrite DS; cbn [deref bind]. rewrite Distribution; cbn [bind at1 nth_error].
    apply Z.eqb_neq in P. rewrite P. reflexivity.
  - intros ta targets outputs weights -> Columns.
    unfold calculate_testing_weighted_squared_error.
    apply Nat.eqb_neq in Columns. rewrite Columns; cbn [andb negb bind].
    eexists; reflexivity.
Qed.

(** The empty curve and the zero error on the two instances, with two
    weights and with the target distribution of the data set, in a debug
    build. *)
Lemma unimplemented_statistics_are_empty_witness :
  calculate_roc_curve 24 128 (column [example_one; type_zero])
                      (column [example_one; type_zero])
  = Ok (Tensor2_empty type)
  /\ calculate_testing_weighted_squared_error
       24 128 true (example_analysis (type_half 24))
       (column [example_one; type_zero]) (column [example_one; type_zero])
       [example_one; example_one]
     = Ok type_zero
  /\ calculate_testing_weighted_squared_error
       24 128 true (example_analysis (type_half 24))
       (column [example_one; type_zero]) (column [example_one; type_zero]) []
     = Ok type_zero.
Proof.
  destruct (unimplemented_statistics_are_empty 24 128 true)
    as (_ & Roc & _ & Weights & Distribution & _).
  split; [|split].
  - apply (Roc (column [example_one; type_zero])
               (column [example_one; type_zero]));
      [apply example_testing_data
      |intros [|[|i]] R; [reflexivity | reflexivity | simpl in R; lia]
      |vm_compute; discriminate | vm_compute; discriminate].
  - apply Weights; [right|]; reflexivity.
  - apply (Distribution (example_analysis (type_half 24)) example_data_set
                        _ _ [] 1%Z 1%Z []);
      [right; reflexivity | simpl; lia | reflexivity | reflexivity | lia].
Defined.

(** C1 as stated fails for each of the three methods.  With no negative
    instance among the testing targets [calculate_roc_curve] throws and
    returns no tensor, and so it does when the one positive instance
    has a NaN output.  [calculate_confusion_multiple_classification]
    returns the matrix as the memory it was allocated in held it: where
    that memory held 7, nine coefficients 7 for two instances of three
    classes.  [calculate_testing_weighted_squared_error] throws in a
    debug build for outputs of three columns, and without two weights it
    divides by the number of positives of the target distribution, which
    is 0 for a data set without instances, and dereferences the data set
    pointer, which may be null. *)
Lemma statistics_not_always_empty_or_zero :
  let targets := column [example_one; example_one] in
  let outputs := column [example_one; type_zero] in
  let three_classes : Tensor2 type :=
    {| dimension0 := 2; dimension1 := 3;
       coefficients := [example_one; type_zero; type_zero; example_one;
                        type_zero; type_zero] |} in
  let unbound : TestingAnalysis :=
    {| neural_network_pointer := None; data_set_pointer := None;
       display := true |} in
  (testing_data targets outputs
   /\ throws (calculate_roc_curve 24 128 targets outputs)
   /\ calculate_roc_curve 24 128 targets outputs <> Ok (Tensor2_empty type))
  /\ throws (calculate_roc_curve 24 128 (column [example_one; type_zero])
                                  (column [S754_nan; type_zero]))
  /\ calculate_confusion_multiple_classification
       (fun _ => 7%Z) three_classes three_classes
     = Ok {| dimension0 := 3; dimension1 := 3; coefficients := repeat 7%Z 9 |}
  /\ calculate_testing_weighted_squared_error
       24 128 true (example_analysis (type_half 24))
       three_classes three_classes [example_one; example_one]
     = Throw ("OpenNN Exception: TestingAnalysis class." ++ nl
              ++ "type calculate_testing_weighted_squared_error(const Tensor<type, 2>&, const Tensor<type, 2>&, const Tensor<type, 1>&) const."
              ++ nl ++ "Number of outputs must be one." ++ nl)
  /\ calculate_testing_weighted_squared_error
       24 128 false example_empty_analysis (column []) (column []) []
     = Undefined
  /\ calculate_testing_weighted_squared_error
       24 128 false unbound targets outputs []
     = Undefined.
Proof.
  cbv zeta. split.
  - split; [apply example_testing_data|].
    split; [eexists; vm_compute; reflexivity|].
    vm_compute. discriminate.
  - split; [eexists; vm_compute; reflexivity|].
    vm_compute. repeat split.
Qed.

(** ** Five testing instances *)

Example confusion_and_area_of_five_instances :
  let number (n : nat) := type_of_Index 24 128 (Z.of_nat n) in
  let quarter := SFdiv 24 128 (number 1) (number 4) in
  let three_quarters := SFdiv 24 128 (number 3) (number 4) in
  let targets := column [number 1; number 0; number 1; number 0; number 0] in
  let outputs :=
    column [three_quarters; quarter; quarter; three_quarters; quarter] in
  calculate_confusion_binary_classification 24 targets outputs (type_half 24)
  = Ok {| dimension0 := 2; dimension1 := 2; coefficients := [1; 1; 1; 2]%Z |}
  /\ calculate_positives_negatives_rate 24 targets outputs = Ok [2; 3]%Z
  /\ calculate_roc_curve 24 128 targets outputs = Ok (Tensor2_empty type)
  /\ calculate_area_under_curve 24 128 targets outputs
     = Ok (SFdiv 24 128 (number 7) (number 12)).
Proof. vm_compute. repeat split. Qed.

End TestingAnalysisProperties.

(* ================================================================== *)
(** * Properties of model selection *)

Module ModelSelectionProperties.

Import NeuralNetwork ModelSelection ModelSelectionExamples.



Section Algorithms.

Variable Settings : Type.
Variable default_settings : AlgorithmClass -> Settings.
Variable write_settings : AlgorithmClass -> Settings -> list XMLNode.
Variable read_settings :
  AlgorithmClass -> list XMLNode -> Settings -> result Settings.

(** ** check *)

Lemma check_outcome (ms : ModelSelection Settings) :
  snd (check ms) = ms
  /\ ((fst (check ms) = Ok tt /\ forall o, ~ offends o ms)
      \/ exists o, fst (check ms) = Throw (offence_message o) /\ offends o ms).
Proof.
  split.
  - unfold check, then_, get, throw, ret; cbv beta iota.
    destruct (training_strategy_pointer ms) as [ts|]; [|reflexivity].
    destruct (get_loss_index_pointer ts) as [li|]; [|reflexivity].
    destruct (get_neural_network_pointer li) as [nn|]; [|reflexivity].
    destruct (is_empty nn); [reflexivity|].
    destruct (get_data_set_pointer li) as [ds|]; [|reflexivity].
    cbv zeta.
    destruct (get_selection_instances_number ds =? 0)%Z; reflexivity.
  - unfold check, then_, get, throw, ret; cbv beta iota.
    destruct (training_strategy_pointer ms) as [ts|] eqn:TS.
    2:{ right. exists UnboundTrainingStrategy. split; [reflexivity | exact TS]. }
    destruct (get_loss_index_pointer ts) as [li|] eqn:LI.
    2:{ right. exists UnboundLossIndex. split; [reflexivity|].
        exists ts. auto. }
    destruct (get_neural_network_pointer li) as [nn|] eqn:NN.
    2:{ right. exists UnboundNeuralNetwork. split; [reflexivity|].
        exists li. unfold loss_index_of. rewrite TS. auto. }
    destruct (is_empty nn) eqn:EM.
    1:{ right. exists EmptyNeuralNetwork. split; [reflexivity|].
        exists nn. unfold neural_network_of, loss_index_of.
        rewrite TS, LI. auto. }
    destruct (get_data_set_pointer li) as [ds|] eqn:DS.
    2:{ right. exists UnboundDataSet. split; [reflexivity|].
        exists li. unfold loss_index_of. rewrite TS. auto. }
    cbv zeta.
    destruct (Z.eqb_spec (get_selection_instances_number ds) 0) as [SE|SE].
    1:{ right. exists NoSelectionInstances. split; [reflexivity|].
        exists ds. unfold data_set_of, loss_index_of. rewrite TS, LI. auto. }
    left. split; [reflexivity|].
    intros [| | | | |];
      unfold offends, data_set_of, neural_network_of, loss_index_of;
      rewrite ?TS, ?LI.
    + discriminate.
    + intros (x & H & H'). congruence.
    + intros (x & H & H'). congruence.
    + intros (x & H & H'). congruence.
    + intros (x & H & H'). congruence.
    + intros (x & H & H'). congruence.
Qed.

Lemma offence_message_injective (o o' : Offence) :
  offence_message o = offence_message o' -> o = o'.
Proof.
  destruct o, o'; intros H; try reflexivity; vm_compute in H; discriminate.
Qed.

(** C3, as the code has it.  [check] throws if and only if the training
    strategy, the loss index, the neural network or the data set is not
    bound, the neural network is empty, or the data set has no
    selection instance; the text it throws names the offence, one text
    for each; with none of them it returns; in every case it leaves the
    object as it was.  The number of training instances is not
    looked at. *)
Theorem check_validates_wiring (ms : ModelSelection Settings) :
  snd (check ms) = ms
  /\ (throws (fst (check ms)) <-> exists o, offends o ms)
  /\ (forall what,
         fst (check ms) = Throw what ->
         exists o, what = offence_message o /\ offends o ms)
  /\ (forall o o', offence_message o = offence_message o' -> o = o')
  /\ ((forall o, ~ offends o ms) -> fst (check ms) = Ok tt).
Proof.
  destruct (check_outcome ms) as [Same [[Fine None] | (o & Thrown & Found)]].
  - split; [exact Same|]. rewrite Fine.
    split; [split|].
    + intros [what H]. discriminate.
    + intros [o H]. destruct (None o H).
    + split; [intros what H; discriminate|].
      split; [apply offence_message_injective | reflexivity].
  - split; [exact Same|]. rewrite Thrown.
    split; [split|].
    + intros _. exists o. exact Found.
    + intros _. eexists; reflexivity.
    + split.
      * intros what H. injection H as <-. exists o. split; [reflexivity | exact Found].
      * split; [apply offence_message_injective|].
        intros None. destruct (None o Found).
Qed.

(** ** set_inputs_selection_method *)

(** C9.  [set_inputs_selection_method(GROWING_INPUTS)] installs a new
    GrowingInputs object and also overwrites the pointer of the
    neurons-selection algorithm with a new IncrementalNeurons object,
    leaving [neurons_selection_method] as it was; with PRUNING_INPUTS,
    GENETIC_ALGORITHM or NO_INPUTS_SELECTION the pointer and the method
    of neurons selection are unchanged. *)
Theorem growing_inputs_overwrites_incremental_neurons
        (ms : ModelSelection Settings) :
  let set := set_inputs_selection_method default_settings in
  (inputs_selection_method (set GROWING_INPUTS ms) = GROWING_INPUTS
   /\ growing_inputs_pointer (set GROWING_INPUTS ms)
      = Some (new_Algorithm default_settings GrowingInputs
                            (training_strategy_pointer ms))
   /\ incremental_neurons_pointer (set GROWING_INPUTS ms)
      = Some (new_Algorithm default_settings IncrementalNeurons
                            (training_strategy_pointer ms))
   /\ neurons_selection_method (set GROWING_INPUTS ms)
      = neurons_selection_method ms)
  /\ (incremental_neurons_pointer (set PRUNING_INPUTS ms)
      = incremental_neurons_pointer ms
      /\ neurons_selection_method (set PRUNING_INPUTS ms)
         = neurons_selection_method ms)
  /\ (incremental_neurons_pointer (set GENETIC_ALGORITHM ms)
      = incremental_neurons_pointer ms
      /\ neurons_selection_method (set GENETIC_ALGORITHM ms)
         = neurons_selection_method ms)
  /\ (incremental_neurons_pointer (set NO_INPUTS_SELECTION ms)
      = incremental_neurons_pointer ms
      /\ neurons_selection_method (set NO_INPUTS_SELECTION ms)
         = neurons_selection_method ms).
Proof.
  cbv zeta. split; [|repeat split].
  unfold set_inputs_selection_method, new_with_training_strategy; simpl.
  destruct (training_strategy_pointer ms); repeat split.
Qed.

(** ** to_XML and from_XML *)

(** The contract of a child component (section 6 of the specification:
    the blocks of child components round-trip exactly): what
    [write_settings] writes for an object of class [k], [read_settings]
    reads back, whatever the settings of the object that receives them. *)
Hypothesis settings_round_trip :
  forall (k : AlgorithmClass) (s s0 : Settings),
    read_settings k (write_settings k s) s0 = Ok s.





End Algorithms.

(** ** Concrete objects *)

(** A model selection wired to a network of three layers and a data set
    with 80 training and 20 selection instances passes [check]. *)
Lemma check_validates_wiring_witness :
  fst (check (ModelSelection_new example_default_settings
                                 (Some (example_training_strategy 80%Z 20%Z))))
  = Ok tt.
Proof.
  apply (check_validates_wiring
           (ModelSelection_new example_default_settings
                               (Some (example_training_strategy 80%Z 20%Z)))).
  intros [| | | | |]; cbn;
    [intros H; discriminate H
    |intros (x & H & H'); injection H as <-; vm_compute in H'; discriminate H' ..].
Defined.

(** C3 as stated fails for the training partition: a data set with no
    training instance and some selection instances passes [check]. *)
Lemma check_ignores_training_partition :
  let ms := ModelSelection_new example_default_settings
                               (Some (example_training_strategy 0%Z 20%Z)) in
  (exists data_set,
      data_set_of ms = Some data_set
      /\ get_training_instances_number data_set = 0%Z)
  /\ fst (check ms) = Ok tt
  /\ ~ throws (fst (check ms)).
Proof.
  cbv zeta. split; [eexists; split; reflexivity|].
  split; [reflexivity|]. intros [what H]. discriminate.
Qed.


End ModelSelectionProperties.

(* ================================================================== *)
(** * Properties of a device over its calls *)

Module DeviceCallsProperties.

Import Device DeviceCalls.

Lemma set_types_current_device (calls : list Call) (d : Device) :
  current_device_allocated d -> current_device_allocated (set_types calls d).
Proof.
  revert d. induction calls as [|c calls IH]; intros d H; simpl.
  - exact H.
  - apply IH.
    destruct c as [n [|]]; unfold current_device_allocated; cbn; discriminate.
Qed.

(** X1.  A device built by [Device(new_type)] and changed by any number
    of calls of [set_type] has the device of its current type allocated:
    the default device when its type is EigenDefault, the thread-pool
    device when it is EigenThreadPool. *)
Theorem device_of_current_type_stays_allocated
        (omp_get_max_threads : Z) (new_type : Type_) (calls : list Call) :
  current_device_allocated
    (set_types calls (Device_of_type omp_get_max_threads new_type)).
Proof.
  apply set_types_current_device.
  destruct new_type; unfold current_device_allocated; cbn; discriminate.
Qed.

(** X2.  [set_type] releases nothing: a default device or a thread-pool
    device that was allocated stays allocated through any later calls,
    so after [set_type(EigenThreadPool)] and [set_type(EigenDefault)] the
    object reports the type EigenDefault and still returns the
    thread-pool device of the first call. *)
Theorem set_type_releases_no_device (calls : list Call) (d : Device) :
  (forall device,
      get_eigen_default_device d = Some device ->
      exists device', get_eigen_default_device (set_types calls d) = Some device')
  /\ (forall device,
         get_eigen_thread_pool_device d = Some device ->
         exists device',
           get_eigen_thread_pool_device (set_types calls d) = Some device')
  /\ (forall n n' : Z,
         let d' := set_type n' EigenDefault (set_type n EigenThreadPool d) in
         get_type d' = EigenDefault
         /\ get_eigen_thread_pool_device d'
            = Some (new_ThreadPoolDevice (new_NonBlockingThreadPool n) n)).
Proof.
  split; [|split].
  - revert d. induction calls as [|c calls IH]; intros d device H; simpl.
    + exists device. exact H.
    + destruct c as [n [|]]; cbn.
      * apply (IH _ new_DefaultDevice). reflexivity.
      * apply (IH _ device). exact H.
  - revert d. induction calls as [|c calls IH]; intros d device H; simpl.
    + exists device. exact H.
    + destruct c as [n [|]]; cbn.
      * apply (IH _ device). exact H.
      * apply (IH _ (new_ThreadPoolDevice (new_NonBlockingThreadPool n) n)).
        reflexivity.
  - intros n n'. cbn. split; reflexivity.
Qed.

(** A thread-pool device of eight threads outlives a switch to the
    default device. *)
Lemma set_type_releases_no_device_witness :
  exists device,
    get_eigen_thread_pool_device
      (set_types [{| max_threads := 4; new_type := EigenDefault |}]
                 (Device_of_type 8 EigenThreadPool))
    = Some device.
Proof.
  apply (proj1 (proj2 (set_type_releases_no_device
                         [{| max_threads := 4; new_type := EigenDefault |}]
                         (Device_of_type 8 EigenThreadPool)))
               (new_ThreadPoolDevice (new_NonBlockingThreadPool 8) 8)).
  reflexivity.
Defined.

End DeviceCallsProperties.

(* ================================================================== *)
(** * Properties of the writes to a tensor *)

Module TensorProperties.

Lemma replace_nth_length (A : Type) (l : list A) (n : nat) (a : A) :
  length (replace_nth l n a) = length l.
Proof.
  revert n. induction l as [|x l IH]; intros [|n]; simpl; try reflexivity.
  rewrite IH. reflexivity.
Qed.

Lemma replace_nth_same (A : Type) (l : list A) (n : nat) (a : A) :
  n < length l -> nth_error (replace_nth l n a) n = Some a.
Proof.
  revert n. induction l as [|x l IH]; intros [|n] H; simpl in *; try lia.
  - reflexivity.
  - apply IH. lia.
Qed.

Lemma replace_nth_other (A : Type) (l : list A) (n m : nat) (a : A) :
  n <> m -> nth_error (replace_nth l n a) m = nth_error l m.
Proof.
  revert n m. induction l as [|x l IH]; intros [|n] [|m] H; simpl;
    try reflexivity; try congruence.
  apply IH. congruence.
Qed.

(** A tensor whose coefficients fill its dimensions takes a write inside
    them, which changes the coefficient written and no other. *)
Lemma set2_in_range (A : Type) (t : Tensor2 A) (i j : nat) (a : A) :
  well_formed t -> i < dimension0 t -> j < dimension1 t ->
  exists t' : Tensor2 A,
    set2 t i j a = Ok t'
    /\ well_formed t'
    /\ dimension0 t' = dimension0 t /\ dimension1 t' = dimension1 t
    /\ at2 t' i j = Ok a
    /\ (forall i' j', i' < dimension0 t -> (i', j') <> (i, j) ->
                      at2 t' i' j' = at2 t i' j').
Proof.
  unfold well_formed. intros W I J.
  assert (L : i + j * dimension0 t < length (coefficients t)) by nia.
  unfold set2.
  destruct (Nat.ltb_spec i (dimension0 t)); try lia.
  destruct (Nat.ltb_spec j (dimension1 t)); try lia.
  destruct (Nat.ltb_spec (i + j * dimension0 t) (length (coefficients t))); try lia.
  simpl. eexists. split; [reflexivity|].
  unfold at2; simpl. rewrite replace_nth_length.
  split; [exact W|]. split; [reflexivity|]. split; [reflexivity|].
  split.
  - destruct (Nat.ltb_spec i (dimension0 t)); try lia.
    destruct (Nat.ltb_spec j (dimension1 t)); try lia.
    simpl. rewrite replace_nth_same by exact L. reflexivity.
  - intros i' j' I' Ne.
    destruct ((i' <? dimension0 t) && (j' <? dimension1 t)); [|reflexivity].
    rewrite replace_nth_other; [reflexivity|].
    intros E. apply Ne.
    assert (j = j') by nia. subst j'.
    assert (i = i') by nia. subst i'. reflexivity.
Qed.

Lemma at2_well_formed (A : Type) (t : Tensor2 A) (i j : nat) :
  well_formed t -> i < dimension0 t -> j < dimension1 t ->
  returns (at2 t i j).
Proof.
  unfold well_formed, at2. intros W I J.
  destruct (Nat.ltb_spec i (dimension0 t)); try lia.
  destruct (Nat.ltb_spec j (dimension1 t)); try lia.
  simpl.
  destruct (nth_error (coefficients t) (i + j * dimension0 t)) eqn:N.
  - eexists; reflexivity.
  - apply nth_error_None in N. nia.
Qed.

Lemma Tensor2_new_well_formed (A : Type) (memory : nat -> A) (rows columns : nat) :
  well_formed (Tensor2_new memory rows columns).
Proof.
  unfold well_formed, Tensor2_new; simpl.
  rewrite length_map, length_seq. reflexivity.
Qed.

End TensorProperties.

(* ================================================================== *)
(** * Properties of the counters of the binary confusion matrix *)

Module TestingAnalysisCountsProperties.

Import NeuralNetwork TestingAnalysis TestingAnalysisCounts TestingAnalysisExamples.
Import ScalarProperties TestingAnalysisProperties.

Section Counters.

Variable prec : Z.
Variables targets outputs : Tensor2 type.
Hypothesis data : testing_data targets outputs.
Variable decision_threshold : type.

Let counted : Cell -> list nat -> Index :=
  rows_in_cell prec decision_threshold targets outputs.

(** Each turn of the loop increments the counter of the row's cell. *)
Lemma confusion_loop_cells (l : list nat) :
  (forall i, In i l -> i < dimension0 targets) ->
  forall c : Counters,
  exists c' : Counters,
    for_each (confusion_body prec targets outputs decision_threshold) l c = Ok c'
    /\ true_positive c' = (true_positive c + counted TruePositive l)%Z
    /\ false_negative c' = (false_negative c + counted FalseNegative l)%Z
    /\ false_positive c' = (false_positive c + counted FalsePositive l)%Z
    /\ true_negative c' = (true_negative c + counted TrueNegative l)%Z.
Proof.
  unfold counted, rows_in_cell.
  induction l as [|i l IH]; intros R c; simpl.
  - exists c. repeat split; lia.
  - rewrite (confusion_body_cell prec data) by (apply R; left; reflexivity).
    cbn [bind].
    destruct (IH (fun j Hj => R j (or_intror Hj))
                 (increment (cell_of prec decision_threshold
                                     (first_column targets i)
                                     (first_column outputs i)) c))
      as (c' & E & TP & FN & FP & TN).
    exists c'. split; [exact E|].
    rewrite TP, FN, FP, TN.
    destruct (cell_of prec decision_threshold (first_column targets i)
                      (first_column outputs i));
      cbn [Cell_eqb increment true_positive false_negative false_positive
           true_negative length];
      repeat split; lia.
Qed.

Lemma cells_partition (l : list nat) :
  (counted TruePositive l + counted FalseNegative l
   + counted FalsePositive l + counted TrueNegative l
   + counted Uncounted l = Z.of_nat (length l))%Z.
Proof.
  unfold counted, rows_in_cell. induction l as [|i l IH]; simpl.
  - reflexivity.
  - destruct (cell_of prec decision_threshold (first_column targets i)
                      (first_column outputs i));
      cbn [Cell_eqb length]; lia.
Qed.

Lemma counted_none (cell : Cell) (l : list nat) :
  (forall i, In i l ->
             cell_of prec decision_threshold (first_column targets i)
                     (first_column outputs i) <> cell) ->
  counted cell l = 0%Z.
Proof.
  unfold counted, rows_in_cell. induction l as [|i l IH]; intros H; simpl.
  - reflexivity.
  - destruct (Cell_eqb _ cell) eqn:E.
    + exfalso. apply (H i (or_introl eq_refl)).
      destruct (cell_of prec decision_threshold (first_column targets i)
                        (first_column outputs i)), cell;
        try discriminate; reflexivity.
    + apply IH. intros j Hj. apply H. right; exact Hj.
Qed.

(** The counters after the whole loop. *)
Lemma binary_confusion_cells :
  let rows := seq 0 (dimension0 targets) in
  calculate_confusion_binary_classification
    prec targets outputs decision_threshold
  = Ok (confusion_of_counters
          {| true_positive := counted TruePositive rows;
             false_negative := counted FalseNegative rows;
             false_positive := counted FalsePositive rows;
             true_negative := counted TrueNegative rows |}).
Proof.
  cbv zeta. unfold calculate_confusion_binary_classification.
  destruct (confusion_loop_cells
              (seq 0 (dimension0 targets))
              (fun i Hi => proj2 (proj1 (in_seq _ _ _) Hi)) Counters_zero)
    as (c & E & TP & FN & FP & TN).
  rewrite E; cbn [bind]. simpl in TP, FN, FP, TN.
  destruct c as [tp fn fp tn]; simpl in *. subst. reflexivity.
Qed.

End Counters.

(** A target, an output and a threshold that are numbers fall in one of
    the four cells. *)
Lemma numbers_are_counted (prec : Z) (decision_threshold t o : type) :
  is_nan decision_threshold = false -> is_nan t = false -> is_nan o = false ->
  cell_of prec decision_threshold t o <> Uncounted.
Proof.
  intros Hd Ht Ho. unfold cell_of.
  pose proof (SFleb_or_SFltb decision_threshold t Hd Ht) as T.
  pose proof (SFleb_or_SFltb decision_threshold o Hd Ho) as O.
  destruct (SFeqb decision_threshold type_zero && SFeqb t type_zero);
    [discriminate|].
  destruct (SFeqb decision_threshold type_zero && SFeqb t (type_one prec));
    [discriminate|].
  destruct (SFleb decision_threshold t); simpl in T.
  - destruct (SFleb decision_threshold o); simpl in O; [discriminate|].
    rewrite O. discriminate.
  - rewrite T.
    destruct (SFleb decision_threshold o); simpl in O; [discriminate|].
    rewrite O. discriminate.
Qed.

(** X3.  On testing data the binary confusion matrix holds no negative
    count and its four coefficients sum to at most the number of testing
    instances; they sum to exactly that number when the decision
    threshold, the targets and the outputs are all numbers, which is the
    check that is commented out at the end of
    [calculate_confusion_binary_classification]. *)
Theorem confusion_counts_each_instance_once
        (prec : Z) (targets outputs : Tensor2 type) (decision_threshold : type) :
  testing_data targets outputs ->
  exists confusion : Tensor2 Index,
    calculate_confusion_binary_classification
      prec targets outputs decision_threshold = Ok confusion
    /\ Forall (fun count => (0 <= count)%Z) (coefficients confusion)
    /\ (Tensor2_sum confusion <= Z.of_nat (dimension0 targets))%Z
    /\ (is_nan decision_threshold = false ->
        (forall i, i < dimension0 targets ->
                   is_nan (first_column targets i) = false
                   /\ is_nan (first_column outputs i) = false) ->
        Tensor2_sum confusion = Z.of_nat (dimension0 targets)).
Proof.
  intros data. rewrite (binary_confusion_cells prec data decision_threshold).
  cbv zeta. eexists. split; [reflexivity|].
  pose proof (cells_partition prec targets outputs decision_threshold
                              (seq 0 (dimension0 targets))) as Partition.
  rewrite length_seq in Partition.
  unfold Tensor2_sum, confusion_of_counters;
    cbn [coefficients fold_right true_positive false_negative
         false_positive true_negative].
  split; [|split].
  - repeat constructor; unfold rows_in_cell; lia.
  - unfold rows_in_cell in *; lia.
  - intros Hd Numbers.
    rewrite (@counted_none prec targets outputs decision_threshold Uncounted
                          (seq 0 (dimension0 targets))) in Partition.
    + lia.
    + intros i Hi. apply in_seq in Hi.
      destruct (Numbers i ltac:(lia)) as [Ht Ho].
      apply numbers_are_counted; assumption.
Qed.

(** The two instances of the example at the threshold 0.5. *)
Lemma confusion_counts_each_instance_once_witness :
  exists confusion : Tensor2 Index,
    calculate_confusion_binary_classification
      24 (column [example_one; type_zero]) (column [example_one; type_zero])
      (type_half 24) = Ok confusion
    /\ Forall (fun count => (0 <= count)%Z) (coefficients confusion)
    /\ (Tensor2_sum confusion <= 2)%Z
    /\ (is_nan (type_half 24) = false ->
        (forall i, i < 2 ->
                   is_nan (first_column (column [example_one; type_zero]) i) = false
                   /\ is_nan (first_column (column [example_one; type_zero]) i)
                      = false) ->
        Tensor2_sum confusion = 2%Z).
Proof.
  apply (@confusion_counts_each_instance_once
           24 (column [example_one; type_zero]) (column [example_one; type_zero])
           (type_half 24) (example_testing_data _ _ _ _)).
Defined.

(** With a zero threshold a target of 0 is a false positive and a target
    of 1 a true positive, before any output is compared. *)
Lemma cell_at_zero_threshold (prec : Z) (decision_threshold t o : type) :
  SFeqb decision_threshold type_zero = true ->
  SFeqb t type_zero = true \/ SFeqb t (type_one prec) = true ->
  cell_of prec decision_threshold t o
  = if SFeqb t (type_one prec) then TruePositive else FalsePositive.
Proof.
  intros Z0 [C|C]; unfold cell_of; rewrite Z0; cbn [andb].
  - rewrite C. destruct (SFeqb_zero _ C) as [s ->]. reflexivity.
  - rewrite C. apply SFeqb_finite in C. subst t. reflexivity.
Qed.

Lemma filter_length_ext_in (A : Type) (p q : A -> bool) (l : list A) :
  (forall a, In a l -> p a = q a) ->
  length (filter p l) = length (filter q l).
Proof. intros H. rewrite (filter_ext_in _ _ _ H). reflexivity. Qed.

(** X4.  With a decision threshold of zero and targets that are 0 or 1,
    [calculate_confusion_binary_classification] counts every instance of
    target 1 as a true positive and every instance of target 0 as a false
    positive, whatever the outputs are: the second column of the matrix
    is zero. *)
Theorem zero_threshold_predicts_every_instance_positive
        (prec : Z) (targets outputs : Tensor2 type) (decision_threshold : type) :
  testing_data targets outputs ->
  SFeqb decision_threshold type_zero = true ->
  (forall i, i < dimension0 targets ->
             SFeqb (first_column targets i) type_zero = true
             \/ SFeqb (first_column targets i) (type_one prec) = true) ->
  calculate_confusion_binary_classification
    prec targets outputs decision_threshold
  = Ok (confusion_of_counters
          {| true_positive :=
               count_instances (positive_instance prec) targets outputs;
             false_negative := 0%Z;
             false_positive :=
               count_instances negative_instance targets outputs;
             true_negative := 0%Z |}).
Proof.
  intros data Z0 Class.
  rewrite (binary_confusion_cells prec data decision_threshold). cbv zeta.
  assert (Cell : forall i, In i (seq 0 (dimension0 targets)) ->
            cell_of prec decision_threshold (first_column targets i)
                    (first_column outputs i)
            = if SFeqb (first_column targets i) (type_one prec)
              then TruePositive else FalsePositive).
  { intros i Hi. apply in_seq in Hi.
    apply cell_at_zero_threshold; [exact Z0 | apply Class; lia]. }
  do 2 f_equal.
  rewrite (@counted_none prec targets outputs decision_threshold FalseNegative
                         (seq 0 (dimension0 targets))),
          (@counted_none prec targets outputs decision_threshold TrueNegative
                         (seq 0 (dimension0 targets))).
  2,3: intros i Hi; rewrite (Cell i Hi);
       destruct (SFeqb (first_column targets i) (type_one prec)); discriminate.
  unfold rows_in_cell, count_instances, positive_instance, negative_instance.
  f_equal.
  - f_equal. apply filter_length_ext_in. intros i Hi. rewrite (Cell i Hi).
    destruct (SFeqb (first_column targets i) (type_one prec)); reflexivity.
  - f_equal. apply filter_length_ext_in. intros i Hi. rewrite (Cell i Hi).
    apply in_seq in Hi.
    destruct (Class i ltac:(lia)) as [C|C].
    + rewrite C. destruct (SFeqb_zero _ C) as [s E]. rewrite E. reflexivity.
    + rewrite C. apply SFeqb_finite in C. rewrite C. reflexivity.
Qed.

(** A threshold of -0, a NaN output for the positive instance and an
    output of 1 for the negative one. *)
Lemma zero_threshold_predicts_every_instance_positive_witness :
  calculate_confusion_binary_classification
    24 (column [example_one; type_zero]) (column [S754_nan; example_one])
    (S754_zero true)
  = Ok (confusion_of_counters
          {| true_positive :=
               count_instances (positive_instance 24)
                               (column [example_one; type_zero])
                               (column [S754_nan; example_one]);
             false_negative := 0%Z;
             false_positive :=
               count_instances negative_instance
                               (column [example_one; type_zero])
                               (column [S754_nan; example_one]);
             true_negative := 0%Z |}).
Proof.
  apply (@zero_threshold_predicts_every_instance_positive
           24 (column [example_one; type_zero]) (column [S754_nan; example_one])
           (S754_zero true) (example_testing_data _ _ _ _)).
  - reflexivity.
  - intros i R. simpl in R.
    destruct i as [|[|i]]; [right; reflexivity | left; reflexivity | lia].
Defined.

(** X5.  [calculate_confusion] reads the number of outputs through the
    neural network pointer before [check()] is called: with a null
    neural network pointer its behaviour is undefined in a debug build
    too, though [check()] alone would throw; with a null data set pointer
    it throws the text of [check()] in a debug build and is undefined in
    a release build. *)
Theorem calculate_confusion_dereferences_the_network_first
        (prec : Z) (OPENNN_DEBUG : bool)
        (calculate_outputs : NeuralNetwork -> Tensor2 type -> Tensor2 type)
        (memory : nat -> Index) (ta : TestingAnalysis) :
  (neural_network_pointer ta = None ->
   calculate_confusion prec OPENNN_DEBUG calculate_outputs memory ta = Undefined)
  /\ (neural_network_pointer ta <> None -> data_set_pointer ta = None ->
      calculate_confusion prec OPENNN_DEBUG calculate_outputs memory ta
      = if OPENNN_DEBUG then
          Throw ("OpenNN Exception: TestingAnalysis class." ++ nl
                 ++ "void check() const method." ++ nl
                 ++ "Data set pointer is nullptr." ++ nl)
        else Undefined)
  /\ (neural_network_pointer ta = None -> throws (check ta)).
Proof.
  unfold calculate_confusion, check.
  split; [intros ->; reflexivity|]. split.
  - destruct (neural_network_pointer ta) as [nn|]; [|intros H; contradiction].
    intros _ ->. destruct OPENNN_DEBUG; reflexivity.
  - intros ->. eexists; reflexivity.
Qed.

(** A debug build, a data set and no neural network. *)
Lemma calculate_confusion_dereferences_the_network_first_witness :
  calculate_confusion 24 true example_outputs (fun _ => 0%Z)
                      {| neural_network_pointer := None;
                         data_set_pointer := Some example_data_set;
                         display := true |}
  = Undefined.
Proof.
  apply (calculate_confusion_dereferences_the_network_first
           24 true example_outputs (fun _ => 0%Z)
           {| neural_network_pointer := None;
              data_set_pointer := Some example_data_set;
              display := true |}).
  reflexivity.
Defined.

End TestingAnalysisCountsProperties.

(* ================================================================== *)
(** * Properties of the Wilcoxon parameter *)

Module TestingAnalysisWilcoxonProperties.

Import NeuralNetwork TestingAnalysis TestingAnalysisExamples.
Import ScalarProperties.

Lemma SFltb_asymmetric (x y : type) :
  SFltb x y = true -> SFltb y x = false.
Proof.
  unfold SFltb. rewrite (SFcompare_swap x y).
  destruct (SFcompare x y) as [[| |]|]; simpl; congruence.
Qed.

Lemma SFltb_nan (x y : type) :
  is_nan x = true \/ is_nan y = true -> SFltb x y = false.
Proof.
  intros [H|H]; [destruct x | destruct y]; try discriminate;
    [reflexivity | destruct x; reflexivity].
Qed.

Lemma one_zero_half_differ (prec : Z) :
  type_one prec <> type_zero
  /\ type_half prec <> type_zero
  /\ type_one prec <> type_half prec.
Proof.
  unfold type_one, type_half, type_zero. repeat split; try discriminate.
  intros H.
  assert (E : (1 - prec = - prec)%Z) by congruence. lia.
Qed.

(** X6.  [calculate_Wilcoxon_parameter(x, y)] is 1 exactly when [y < x],
    0 exactly when [x < y] and 0.5 otherwise; swapping the arguments
    exchanges 1 and 0 and keeps 0.5; with a NaN on either side it is
    0.5. *)
Theorem Wilcoxon_parameter_is_antisymmetric (prec : Z) (x y : type) :
  let W := calculate_Wilcoxon_parameter prec in
  (W x y = type_one prec <-> SFltb y x = true)
  /\ (W x y = type_zero <-> SFltb x y = true)
  /\ (W x y = type_half prec <-> SFltb y x = false /\ SFltb x y = false)
  /\ (W x y = type_one prec <-> W y x = type_zero)
  /\ (W x y = type_half prec <-> W y x = type_half prec)
  /\ (is_nan x = true \/ is_nan y = true -> W x y = type_half prec).
Proof.
  cbv zeta. destruct (one_zero_half_differ prec) as (OZ & HZ & OH).
  assert (Cases : (SFltb y x = true /\ SFltb x y = false)
                  \/ (SFltb y x = false /\ SFltb x y = true)
                  \/ (SFltb y x = false /\ SFltb x y = false)).
  { destruct (SFltb y x) eqn:A.
    - left. split; [reflexivity | apply SFltb_asymmetric; exact A].
    - destruct (SFltb x y); [right; left | right; right]; split; reflexivity. }
  split; [|split; [|split; [|split; [|split]]]].
  - unfold calculate_Wilcoxon_parameter.
    destruct Cases as [[A B]|[[A B]|[A B]]]; rewrite A, ?B;
      split; intros H; try reflexivity; try discriminate; congruence.
  - unfold calculate_Wilcoxon_parameter.
    destruct Cases as [[A B]|[[A B]|[A B]]]; rewrite A, ?B;
      split; intros H; try reflexivity; try discriminate; congruence.
  - unfold calculate_Wilcoxon_parameter.
    destruct Cases as [[A B]|[[A B]|[A B]]]; rewrite A, ?B;
      split; intros H; try (split; reflexivity); try reflexivity;
      try (destruct H; discriminate); congruence.
  - unfold calculate_Wilcoxon_parameter.
    destruct Cases as [[A B]|[[A B]|[A B]]]; rewrite A, B, ?A;
      split; intros H; try reflexivity; try discriminate; congruence.
  - unfold calculate_Wilcoxon_parameter.
    destruct Cases as [[A B]|[[A B]|[A B]]]; rewrite A, B, ?A;
      split; intros H; try reflexivity; try discriminate; congruence.
  - intros NaN. unfold calculate_Wilcoxon_parameter.
    rewrite (SFltb_nan y x) by tauto. rewrite (SFltb_nan x y) by tauto.
    reflexivity.
Qed.

(** A NaN against 1. *)
Lemma Wilcoxon_parameter_is_antisymmetric_witness :
  calculate_Wilcoxon_parameter 24 S754_nan example_one = type_half 24.
Proof.
  apply (Wilcoxon_parameter_is_antisymmetric 24 S754_nan example_one).
  left; reflexivity.
Defined.

End TestingAnalysisWilcoxonProperties.

(* ================================================================== *)
(** * Properties of the display flag in XML and files *)

Module TestingAnalysisSerializationProperties.

Import NeuralNetwork TestingAnalysis TestingAnalysisSerialization.

Lemma from_XML_of_to_XML (ta target : TestingAnalysis) :
  from_XML (to_XML ta) target = (Ok tt, set_display (display ta) target).
Proof. unfold from_XML, to_XML. cbn. destruct (display ta); reflexivity. Qed.

(** [from_XML] assigns the display flag alone, and only when it
    returns. *)
Lemma from_XML_members (document : XMLDocument) (ta : TestingAnalysis) :
  neural_network_pointer (snd (from_XML document ta)) = neural_network_pointer ta
  /\ data_set_pointer (snd (from_XML document ta)) = data_set_pointer ta
  /\ (fst (from_XML document ta) <> Ok tt -> snd (from_XML document ta) = ta).
Proof.
  unfold from_XML.
  destruct (FirstChildElement "TestingAnalysis" document) as [root|];
    [|repeat split].
  destruct (FirstChildElement "Display" (XMLNode_children root)) as [element|];
    [|repeat split].
  destruct (GetText element) as [text|]; cbn; repeat split.
  intros H. contradiction H. reflexivity.
Qed.

(** X7.  [from_XML] of the document [to_XML] writes for a testing
    analysis returns and gives the receiving object the display flag of
    the one written, leaving its two pointers as they were; the XML
    constructor builds from it an object with that flag and null
    pointers; writing the loaded object gives the same document
    again. *)
Theorem testing_analysis_XML_round_trip (ta target : TestingAnalysis) :
  from_XML (to_XML ta) target = (Ok tt, set_display (display ta) target)
  /\ TestingAnalysis_of_XML (to_XML ta)
     = (Ok tt, {| neural_network_pointer := None;
                  data_set_pointer := None;
                  display := display ta |})
  /\ to_XML (snd (from_XML (to_XML ta) target)) = to_XML ta.
Proof.
  unfold TestingAnalysis_of_XML. rewrite !from_XML_of_to_XML.
  repeat split.
Qed.

(** X8.  [from_XML] of a testing analysis never changes the two
    pointers; it throws exactly when the document has no
    [TestingAnalysis] element, is undefined exactly when the [Display]
    element holds no text, and in both cases, as for a document without
    a [Display] element, leaves the object as it was. *)
Theorem testing_analysis_from_XML_outcome
        (document : XMLDocument) (ta : TestingAnalysis) :
  let outcome := fst (from_XML document ta) in
  let ta' := snd (from_XML document ta) in
  neural_network_pointer ta' = neural_network_pointer ta
  /\ data_set_pointer ta' = data_set_pointer ta
  /\ (throws outcome <-> FirstChildElement "TestingAnalysis" document = None)
  /\ (outcome = Undefined
      <-> exists element, display_element document = Some element
                          /\ GetText element = None)
  /\ (outcome <> Ok tt -> ta' = ta)
  /\ (display_element document = None -> ta' = ta).
Proof.
  cbv zeta. unfold from_XML, display_element.
  destruct (FirstChildElement "TestingAnalysis" document) as [root|].
  - destruct (FirstChildElement "Display" (XMLNode_children root)) as [element|].
    + destruct (GetText element) as [text|] eqn:Text; cbn.
      * split; [reflexivity|]. split; [reflexivity|].
        split; [split; [intros [w H]; discriminate | discriminate]|].
        split; [split; [discriminate | intros (e & E & H); congruence]|].
        split; [congruence | discriminate].
      * split; [reflexivity|]. split; [reflexivity|].
        split; [split; [intros [w H]; discriminate | discriminate]|].
        split; [split; [intros _; exists element; auto | reflexivity]|].
        split; reflexivity.
    + cbn. split; [reflexivity|]. split; [reflexivity|].
      split; [split; [intros [w H]; discriminate | discriminate]|].
      split; [split; [discriminate | intros (e & E & H); discriminate]|].
      split; reflexivity.
  - cbn. split; [reflexivity|]. split; [reflexivity|].
    split; [split; [reflexivity | intros _; eexists; reflexivity]|].
    split; [split; [discriminate | intros (e & E & H); discriminate]|].
    split; reflexivity.
Qed.

(** A document with the root element alone. *)
Lemma testing_analysis_from_XML_outcome_witness :
  snd (from_XML [XMLElement "TestingAnalysis" [] []]
                (TestingAnalysis_new None None))
  = TestingAnalysis_new None None.
Proof.
  apply (testing_analysis_from_XML_outcome
           [XMLElement "TestingAnalysis" [] []] (TestingAnalysis_new None None)).
  reflexivity.
Defined.

(** X9.  When the [Display] element holds a text, [from_XML] returns and
    sets the display flag to false when the text is [0] and to true for
    every other text. *)
Theorem display_off_for_text_zero_only
        (document : XMLDocument) (ta : TestingAnalysis)
        (element : XMLNode) (text : string) :
  display_element document = Some element ->
  GetText element = Some text ->
  from_XML document ta = (Ok tt, set_display (negb (String.eqb text "0")) ta)
  /\ (display (snd (from_XML document ta)) = false <-> text = "0").
Proof.
  unfold display_element, from_XML.
  destruct (FirstChildElement "TestingAnalysis" document) as [root|];
    [|discriminate].
  intros -> ->. split; [reflexivity|]. cbn.
  destruct (String.eqb_spec text "0") as [E|E]; cbn.
  - split; [intros _; exact E | reflexivity].
  - split; [discriminate | intros H; contradiction].
Qed.

(** The text [false] switches the display on. *)
Lemma display_off_for_text_zero_only_witness :
  let document :=
    [XMLElement "TestingAnalysis" [] [XMLElement "Display" [] [XMLText "false"]]] in
  from_XML document (TestingAnalysis_new None None)
  = (Ok tt, set_display true (TestingAnalysis_new None None))
  /\ (display (snd (from_XML document (TestingAnalysis_new None None))) = false
      <-> "false" = "0").
Proof.
  cbv zeta.
  apply (@display_off_for_text_zero_only
           [XMLElement "TestingAnalysis" []
                       [XMLElement "Display" [] [XMLText "false"]]]
           (TestingAnalysis_new None None)
           (XMLElement "Display" [] [XMLText "false"]) "false");
    reflexivity.
Defined.

(** X10.  [load] sets the default display before it reads the file: it
    never changes the two pointers, a file that cannot be read makes it
    throw with the display flag set to true, every outcome other than a
    return leaves the flag true, and a file holding what [to_XML] wrote
    for an object gives the flag of that object. *)
Theorem load_resets_display_first
        (LoadFile : string -> option XMLDocument) (file_name : string)
        (ta : TestingAnalysis) :
  let outcome := fst (load LoadFile file_name ta) in
  let ta' := snd (load LoadFile file_name ta) in
  neural_network_pointer ta' = neural_network_pointer ta
  /\ data_set_pointer ta' = data_set_pointer ta
  /\ (LoadFile file_name = None ->
      throws outcome /\ ta' = set_display true ta)
  /\ (outcome <> Ok tt -> display ta' = true)
  /\ (forall saved : TestingAnalysis,
         LoadFile file_name = Some (to_XML saved) ->
         outcome = Ok tt /\ ta' = set_display (display saved) ta).
Proof.
  cbv zeta. unfold load.
  destruct (LoadFile file_name) as [document|].
  - destruct (from_XML_members document (set_default ta))
      as (NN & DS & Unchanged).
    split; [exact NN|]. split; [exact DS|].
    split; [discriminate|].
    split.
    + intros H. rewrite (Unchanged H). reflexivity.
    + intros saved E. injection E as ->.
      rewrite from_XML_of_to_XML. split; reflexivity.
  - cbn. split; [reflexivity|]. split; [reflexivity|].
    split; [intros _; split; [eexists; reflexivity | reflexivity]|].
    split; [reflexivity | discriminate].
Qed.

(** No file can be read, and the display was off. *)
Lemma load_resets_display_first_witness :
  throws (fst (load (fun _ => None) "testing_analysis.xml"
                    (set_display false (TestingAnalysis_new None None))))
  /\ snd (load (fun _ => None) "testing_analysis.xml"
               (set_display false (TestingAnalysis_new None None)))
     = set_display true (set_display false (TestingAnalysis_new None None)).
Proof.
  apply (load_resets_display_first
           (fun _ => None) "testing_analysis.xml"
           (set_display false (TestingAnalysis_new None None))).
  reflexivity.
Defined.

End TestingAnalysisSerializationProperties.

(* ================================================================== *)
(** * Properties of the ROC analysis and of the charts *)

Module TestingAnalysisChartsProperties.

Import NeuralNetwork TestingAnalysis TestingAnalysisCharts TestingAnalysisExamples.
Import TestingAnalysisChartsExamples.
Import ScalarProperties TestingAnalysisProperties TensorProperties.

(** ** Cumulative gain *)

Section Charts.

Variables prec emax : Z.
Variable OPENNN_DEBUG : bool.
Variable calculate_outputs : NeuralNetwork -> Tensor2 type -> Tensor2 type.
Variable memory : nat -> type.

Lemma cumulative_gain_returns_empty (targets outputs gain : Tensor2 type) :
  calculate_cumulative_gain prec targets outputs = Ok gain ->
  gain = Tensor2_empty type.
Proof.
  unfold calculate_cumulative_gain.
  destruct (calculate_positives_negatives_rate prec targets outputs) as [r| |];
    cbn [bind]; try discriminate.
  destruct (at1 r 0) as [p| |]; cbn [bind]; try discriminate.
  destruct (p =? 0)%Z; try discriminate.
  intros H. injection H as <-. reflexivity.
Qed.

Lemma negative_cumulative_gain_returns_empty (targets outputs gain : Tensor2 type) :
  calculate_negative_cumulative_gain prec targets outputs = Ok gain ->
  gain = Tensor2_empty type.
Proof.
  unfold calculate_negative_cumulative_gain.
  destruct (calculate_positives_negatives_rate prec targets outputs) as [r| |];
    cbn [bind]; try discriminate.
  destruct (at1 r 1) as [p| |]; cbn [bind]; try discriminate.
  destruct (p =? 0)%Z; try discriminate.
  intros H. injection H as <-. reflexivity.
Qed.

Section Data.

Variables targets outputs : Tensor2 type.
Hypothesis data : testing_data targets outputs.

Let positives : Index := count_instances (counted_positive prec) targets outputs.
Let negatives : Index := count_instances (counted_negative prec) targets outputs.

Lemma cumulative_gain_outcome :
  calculate_cumulative_gain prec targets outputs
  = if (positives =? 0)%Z then
      Throw ("OpenNN Exception: TestingAnalysis class." ++ nl
             ++ "Tensor<type, 2> calculate_cumulative_gain(const Tensor<type, 2>&, const Tensor<type, 2>&) const."
             ++ nl ++ "Number of positive instances("
             ++ string_of_Index positives
             ++ ") must be greater than zero." ++ nl)
    else Ok (Tensor2_empty type).
Proof.
  unfold calculate_cumulative_gain.
  rewrite (positives_negatives_rate_counts prec data).
  cbn [bind at1 nth_error]. fold positives.
  destruct (positives =? 0)%Z; reflexivity.
Qed.

Lemma negative_cumulative_gain_outcome :
  calculate_negative_cumulative_gain prec targets outputs
  = if (negatives =? 0)%Z then
      Throw ("OpenNN Exception: TestingAnalysis class." ++ nl
             ++ "Tensor<type, 2> calculate_negative_cumulative_gain(const Tensor<type, 2>&, const Tensor<type, 2>&) const."
             ++ nl ++ "Number of negative instances("
             ++ string_of_Index negatives
             ++ ") must be greater than zero." ++ nl)
    else Ok (Tensor2_empty type).
Proof.
  unfold calculate_negative_cumulative_gain.
  rewrite (positives_negatives_rate_counts prec data).
  cbn [bind at1 nth_error]. fold negatives.
  destruct (negatives =? 0)%Z; reflexivity.
Qed.

Lemma confidence_limit_outcome (area : type) :
  positives <> 0%Z -> negatives <> 0%Z ->
  calculate_area_under_curve_confidence_limit_of_area prec emax targets outputs area
  = Ok (confidence_limit_of prec emax positives negatives area).
Proof.
  intros P N. unfold calculate_area_under_curve_confidence_limit_of_area.
  rewrite (positives_negatives_rate_counts prec data).
  cbn [bind at1 nth_error]. fold positives negatives.
  destruct (Z.eqb_spec positives 0); [contradiction|].
  destruct (Z.eqb_spec negatives 0); [contradiction|]. reflexivity.
Qed.

End Data.

End Charts.

(** X11.  On testing data, [calculate_cumulative_gain] throws exactly
    when no instance is counted as a positive and
    [calculate_negative_cumulative_gain] exactly when none is counted as
    a negative (an instance is counted when its output is a number, as a
    positive when its target is at least 0.5); otherwise each returns an
    empty tensor, the chart being commented out in the source. *)
Theorem cumulative_gains_throw_or_are_empty
        (prec : Z) (targets outputs : Tensor2 type) :
  testing_data targets outputs ->
  let positives := count_instances (counted_positive prec) targets outputs in
  let negatives := count_instances (counted_negative prec) targets outputs in
  (throws (calculate_cumulative_gain prec targets outputs) <-> positives = 0%Z)
  /\ (positives <> 0%Z ->
      calculate_cumulative_gain prec targets outputs = Ok (Tensor2_empty type))
  /\ (throws (calculate_negative_cumulative_gain prec targets outputs)
      <-> negatives = 0%Z)
  /\ (negatives <> 0%Z ->
      calculate_negative_cumulative_gain prec targets outputs
      = Ok (Tensor2_empty type)).
Proof.
  intros data positives negatives.
  rewrite (cumulative_gain_outcome prec data),
          (negative_cumulative_gain_outcome prec data).
  fold positives negatives.
  destruct (Z.eqb_spec positives 0) as [P|P];
    destruct (Z.eqb_spec negatives 0) as [N|N];
    repeat split; intros; try contradiction; try assumption; try reflexivity;
    try (eexists; reflexivity);
    match goal with H : throws (Ok _) |- _ => destruct H; discriminate end.
Qed.

(** With a positive and a negative instance both return the empty tensor. *)
Lemma cumulative_gains_throw_or_are_empty_witness :
  calculate_cumulative_gain 24 (column [example_one; type_zero])
                            (column [example_one; type_zero])
  = Ok (Tensor2_empty type)
  /\ calculate_negative_cumulative_gain 24 (column [example_one; type_zero])
                                        (column [example_one; type_zero])
     = Ok (Tensor2_empty type).
Proof.
  destruct (@cumulative_gains_throw_or_are_empty
              24 (column [example_one; type_zero])
              (column [example_one; type_zero])
              (example_testing_data _ _ _ _))
    as (_ & Positive & _ & Negative).
  split; [apply Positive | apply Negative]; vm_compute; discriminate.
Defined.

(** ** Lift chart *)

Lemma lift_chart_of_empty (prec emax : Z) (memory : nat -> type) :
  calculate_lift_chart prec emax memory (Tensor2_empty type) = Undefined.
Proof. reflexivity. Qed.

(** X12.  [perform_cumulative_gain_analysis] returns no chart but the
    empty tensor, and [perform_lift_chart_analysis] returns for no
    testing analysis at all: the cumulative gain it computes is empty,
    and [calculate_lift_chart] writes [lift_chart(0,0)] into the empty
    tensor built from it, outside its dimensions. *)
Theorem lift_chart_analysis_never_returns
        (prec emax : Z) (OPENNN_DEBUG : bool)
        (calculate_outputs : NeuralNetwork -> Tensor2 type -> Tensor2 type)
        (memory : nat -> type) (ta : TestingAnalysis) :
  (forall gain : Tensor2 type,
      perform_cumulative_gain_analysis prec OPENNN_DEBUG calculate_outputs ta
      = Ok gain ->
      gain = Tensor2_empty type)
  /\ calculate_lift_chart prec emax memory (Tensor2_empty type) = Undefined
  /\ ~ returns (perform_lift_chart_analysis
                  prec emax OPENNN_DEBUG calculate_outputs memory ta).
Proof.
  split.
  { intros gain. unfold perform_cumulative_gain_analysis.
    destruct (debug_checks OPENNN_DEBUG _ ta); cbn [bind]; try discriminate.
    destruct (testing_targets_and_outputs calculate_outputs ta) as [[t o]| |];
      cbn [bind fst snd]; try discriminate.
    apply cumulative_gain_returns_empty. }
  split; [reflexivity|].
  intros [chart H]. unfold perform_lift_chart_analysis in H.
  destruct (debug_checks OPENNN_DEBUG _ ta); cbn [bind] in H; try discriminate.
  destruct (testing_targets_and_outputs calculate_outputs ta) as [[t o]| |];
    cbn [bind fst snd] in H; try discriminate.
  destruct (calculate_cumulative_gain prec t o) as [gain| |] eqn:G;
    cbn [bind] in H; try discriminate.
  apply cumulative_gain_returns_empty in G. subst gain.
  rewrite lift_chart_of_empty in H. discriminate.
Qed.

Section LiftChart.

Variables prec emax : Z.
Variable memory : nat -> type.
Variable cumulative_gain : Tensor2 type.
Hypothesis gain_well_formed : well_formed cumulative_gain.
Hypothesis gain_columns : 2 <= dimension1 cumulative_gain.

Lemma lift_chart_loop (l : list nat) :
  NoDup l -> (forall i, In i l -> i < dimension0 cumulative_gain) ->
  forall chart : Tensor2 type,
    well_formed chart ->
    dimension0 chart = dimension0 cumulative_gain ->
    dimension1 chart = dimension1 cumulative_gain ->
    exists chart' : Tensor2 type,
      for_each (lift_chart_body prec emax cumulative_gain) l chart = Ok chart'
      /\ dimension0 chart' = dimension0 cumulative_gain
      /\ dimension1 chart' = dimension1 cumulative_gain
      /\ (forall i x y,
             In i l ->
             at2 cumulative_gain i 0 = Ok x -> at2 cumulative_gain i 1 = Ok y ->
             at2 chart' i 0 = Ok x /\ at2 chart' i 1 = Ok (SFdiv prec emax y x))
      /\ (forall i j, i < dimension0 cumulative_gain -> ~ In i l ->
                      at2 chart' i j = at2 chart i j).
Proof.
  induction l as [|i l IH]; intros Distinct Rows chart W D0 D1; simpl.
  - exists chart. split; [reflexivity|]. split; [exact D0|]. split; [exact D1|].
    split; [intros i x y []|reflexivity].
  - assert (I : i < dimension0 cumulative_gain) by (apply Rows; left; reflexivity).
    assert (Fresh : ~ In i l) by (inversion Distinct; assumption).
    assert (Distinct' : NoDup l) by (inversion Distinct; assumption).
    unfold lift_chart_body.
    destruct (@at2_well_formed _ cumulative_gain i 0 gain_well_formed I ltac:(lia))
      as [x X].
    destruct (@at2_well_formed _ cumulative_gain i 1 gain_well_formed I ltac:(lia))
      as [y Y].
    rewrite X; cbn [bind].
    destruct (@set2_in_range _ chart i 0 x W ltac:(lia) ltac:(lia))
      as (c1 & S1 & W1 & D01 & D11 & Same1 & Other1).
    rewrite S1; cbn [bind]. rewrite Y; cbn [bind].
    destruct (@set2_in_range _ c1 i 1 (SFdiv prec emax y x) W1 ltac:(lia) ltac:(lia))
      as (c2 & S2 & W2 & D02 & D12 & Same2 & Other2).
    rewrite S2; cbn [bind].
    destruct (IH Distinct' (fun k Hk => Rows k (or_intror Hk)) c2 W2
                 ltac:(congruence) ltac:(congruence))
      as (chart' & Loop & D0' & D1' & Written & Kept).
    exists chart'. split; [exact Loop|]. split; [exact D0'|]. split; [exact D1'|].
    split.
    + intros k x' y' [<-|Hk] X' Y'.
      * rewrite !Kept by assumption.
        rewrite X in X'. injection X' as <-. rewrite Y in Y'. injection Y' as <-.
        split; [|exact Same2].
        rewrite Other2 by (try lia; intros E; discriminate E). exact Same1.
      * apply Written; assumption.
    + intros k j K Absent.
      rewrite Kept by (try assumption; intros H; apply Absent; right; exact H).
      assert (k <> i) by (intros ->; apply Absent; left; reflexivity).
      rewrite Other2 by (try lia; intros E; injection E; lia).
      apply Other1; [lia|]. intros E; injection E; lia.
Qed.

End LiftChart.

(** X13.  For a cumulative gain chart with at least one row and two
    columns, [calculate_lift_chart] returns a chart of the same
    dimensions whose first row is (0, 1) and whose every other row holds
    the first coefficient of the gain chart's row and the quotient of
    its second coefficient by the first. *)
Theorem lift_chart_of_gain_chart
        (prec emax : Z) (memory : nat -> type) (cumulative_gain : Tensor2 type) :
  well_formed cumulative_gain ->
  1 <= dimension0 cumulative_gain -> 2 <= dimension1 cumulative_gain ->
  exists lift_chart : Tensor2 type,
    calculate_lift_chart prec emax memory cumulative_gain = Ok lift_chart
    /\ dimension0 lift_chart = dimension0 cumulative_gain
    /\ dimension1 lift_chart = dimension1 cumulative_gain
    /\ at2 lift_chart 0 0 = Ok type_zero
    /\ at2 lift_chart 0 1 = Ok (type_one prec)
    /\ (forall i x y,
           1 <= i < dimension0 cumulative_gain ->
           at2 cumulative_gain i 0 = Ok x -> at2 cumulative_gain i 1 = Ok y ->
           at2 lift_chart i 0 = Ok x
           /\ at2 lift_chart i 1 = Ok (SFdiv prec emax y x)).
Proof.
  intros W Rows Columns. unfold calculate_lift_chart.
  destruct (@set2_in_range
              _ (Tensor2_new memory (dimension0 cumulative_gain)
                             (dimension1 cumulative_gain))
              0 0 type_zero (Tensor2_new_well_formed _ _ _)
              ltac:(simpl; lia) ltac:(simpl; lia))
    as (c1 & S1 & W1 & D01 & D11 & Same1 & Other1).
  rewrite S1; cbn [bind].
  destruct (@set2_in_range _ c1 0 1 (type_one prec) W1
                           ltac:(simpl in *; lia) ltac:(simpl in *; lia))
    as (c2 & S2 & W2 & D02 & D12 & Same2 & Other2).
  rewrite S2; cbn [bind]. simpl in D01, D11.
  destruct (@lift_chart_loop prec emax cumulative_gain W Columns
              (seq 1 (dimension0 cumulative_gain - 1))
              (seq_NoDup _ _)
              (fun i Hi => ltac:(apply in_seq in Hi; lia))
              c2 W2 ltac:(congruence) ltac:(congruence))
    as (chart & Loop & D0 & D1 & Written & Kept).
  exists chart. split; [exact Loop|]. split; [exact D0|]. split; [exact D1|].
  assert (First : ~ In 0 (seq 1 (dimension0 cumulative_gain - 1)))
    by (intros H; apply in_seq in H; lia).
  split; [|split].
  - rewrite Kept by (try lia; exact First).
    rewrite Other2 by (try lia; intros E; discriminate E). exact Same1.
  - rewrite Kept by (try lia; exact First). exact Same2.
  - intros i x y I. apply Written. apply in_seq. lia.
Qed.

(** ** The analyses of a bound testing analysis *)

Section Bound.

Variables prec emax : Z.
Variable OPENNN_DEBUG : bool.
Variable calculate_outputs : NeuralNetwork -> Tensor2 type -> Tensor2 type.
Variable memory : nat -> type.
Variable ta : TestingAnalysis.
Variable nn : NeuralNetwork.
Variable ds : DataSet.
Hypothesis NN : neural_network_pointer ta = Some nn.
Hypothesis DS : data_set_pointer ta = Some ds.
Hypothesis Debug :
  OPENNN_DEBUG = true ->
  get_inputs_number nn = get_input_variables_number ds
  /\ get_outputs_number nn = get_target_variables_number ds.

Lemma debug_checks_pass (signature : string) :
  debug_checks OPENNN_DEBUG signature ta = Ok tt.
Proof.
  unfold debug_checks, check. destruct OPENNN_DEBUG; [|reflexivity].
  rewrite NN, DS; cbn [bind deref].
  destruct (Debug eq_refl) as [-> ->]. rewrite !Nat.eqb_refl. reflexivity.
Qed.

Lemma testing_targets_and_outputs_bound :
  testing_targets_and_outputs calculate_outputs ta
  = Ok (get_testing_target_data ds,
        calculate_outputs nn (get_testing_input_data ds)).
Proof.
  unfold testing_targets_and_outputs. rewrite NN, DS. reflexivity.
Qed.

End Bound.

(** X14.  For a testing analysis bound to a network and a data set (in a
    debug build with matching numbers of inputs and outputs),
    [perform_roc_analysis] throws exactly when no testing instance is
    counted as a positive or none as a negative; otherwise it returns
    the empty ROC curve, the area [calculate_area_under_curve] gives, the
    confidence limit computed from that area and the two counts, and the
    optimal threshold 0. *)
Theorem roc_analysis_outcome
        (prec emax : Z) (OPENNN_DEBUG : bool)
        (calculate_outputs : NeuralNetwork -> Tensor2 type -> Tensor2 type)
        (ta : TestingAnalysis) (nn : NeuralNetwork) (ds : DataSet) :
  let targets := get_testing_target_data ds in
  let outputs := calculate_outputs nn (get_testing_input_data ds) in
  let positives := count_instances (counted_positive prec) targets outputs in
  let negatives := count_instances (counted_negative prec) targets outputs in
  neural_network_pointer ta = Some nn ->
  data_set_pointer ta = Some ds ->
  (OPENNN_DEBUG = true ->
   get_inputs_number nn = get_input_variables_number ds
   /\ get_outputs_number nn = get_target_variables_number ds) ->
  testing_data targets outputs ->
  (throws (perform_roc_analysis prec emax OPENNN_DEBUG calculate_outputs ta)
   <-> positives = 0%Z \/ negatives = 0%Z)
  /\ (positives <> 0%Z -> negatives <> 0%Z ->
      exists area : type,
        calculate_area_under_curve prec emax targets outputs = Ok area
        /\ perform_roc_analysis prec emax OPENNN_DEBUG calculate_outputs ta
           = Ok {| roc_curve := Tensor2_empty type;
                   area_under_curve := area;
                   confidence_limit :=
                     confidence_limit_of prec emax positives negatives area;
                   optimal_threshold := type_zero |}).
Proof.
  intros targets outputs positives negatives NN DS Debug data.
  unfold perform_roc_analysis.
  rewrite (@debug_checks_pass OPENNN_DEBUG ta nn ds NN DS Debug); cbn [bind].
  rewrite (@testing_targets_and_outputs_bound calculate_outputs ta nn ds NN DS);
    cbn [bind fst snd].
  fold targets outputs.
  rewrite (roc_curve_outcome prec emax data). fold positives negatives.
  destruct (area_under_curve_outcome prec emax data) as [_ Returns].
  fold positives negatives in Returns.
  destruct (Z.eqb_spec positives 0) as [P|P].
  { split; [split|]; [intros _; left; exact P | intros _; eexists; reflexivity|].
    intros H; contradiction. }
  destruct (Z.eqb_spec negatives 0) as [N|N].
  { split; [split|]; [intros _; right; exact N | intros _; eexists; reflexivity|].
    intros _ H; contradiction. }
  cbn [bind].
  destruct (Returns P N) as [area Area]. rewrite Area; cbn [bind].
  rewrite (confidence_limit_outcome prec emax data area P N); cbn [bind].
  split.
  - split; [intros [w H]; discriminate | intros [H|H]; contradiction].
  - intros _ _. exists area. split; reflexivity.
Qed.

(** The two instances of the example, in a debug build. *)
Lemma roc_analysis_outcome_witness :
  exists area : type,
    calculate_area_under_curve 24 128 (column [example_one; type_zero])
                               (column [example_one; type_zero])
    = Ok area
    /\ perform_roc_analysis 24 128 true example_outputs
                            (example_analysis (type_half 24))
       = Ok {| roc_curve := Tensor2_empty type;
               area_under_curve := area;
               confidence_limit := confidence_limit_of 24 128 1%Z 1%Z area;
               optimal_threshold := type_zero |}.
Proof.
  apply (@roc_analysis_outcome 24 128 true example_outputs
           (example_analysis (type_half 24))
           (example_network (type_half 24)) example_data_set
           eq_refl eq_refl (fun _ => conj eq_refl eq_refl)
           (example_testing_data _ _ _ _)).
  - vm_compute; discriminate.
  - vm_compute; discriminate.
Defined.

(** X15.  The overload of [calculate_area_under_curve_confidence_limit]
    that takes no area returns a limit exactly when
    [calculate_area_under_curve] returns an area and the overload that
    takes one returns that limit for it. *)
Theorem confidence_limit_overloads_agree
        (prec emax : Z) (targets outputs : Tensor2 type) (limit : type) :
  calculate_area_under_curve_confidence_limit prec emax targets outputs = Ok limit
  <-> exists area : type,
        calculate_area_under_curve prec emax targets outputs = Ok area
        /\ calculate_area_under_curve_confidence_limit_of_area
             prec emax targets outputs area = Ok limit.
Proof.
  unfold calculate_area_under_curve_confidence_limit,
         calculate_area_under_curve_confidence_limit_of_area.
  destruct (calculate_positives_negatives_rate prec targets outputs) as [r| |] eqn:R;
    cbn [bind].
  2,3: split; [discriminate | intros (area & _ & H); discriminate].
  destruct (at1 r 0) as [p| |]; cbn [bind].
  2,3: split; [discriminate | intros (area & _ & H); discriminate].
  destruct (at1 r 1) as [n| |]; cbn [bind].
  2,3: split; [discriminate | intros (area & _ & H); discriminate].
  destruct (p =? 0)%Z.
  { split; [discriminate | intros (area & _ & H); discriminate]. }
  destruct (n =? 0)%Z.
  { split; [discriminate | intros (area & _ & H); discriminate]. }
  destruct (calculate_area_under_curve prec emax targets outputs) as [area| |];
    cbn [bind].
  - split.
    + intros H. exists area. split; [reflexivity | exact H].
    + intros (area' & E & H). injection E as <-. exact H.
  - split; [discriminate | intros (area & E & _); discriminate].
  - split; [discriminate | intros (area & E & _); discriminate].
Qed.

(** ** Maximum gain *)

Section MaximumGain.

Variables prec emax : Z.
Variable OPENNN_DEBUG : bool.
Variable memory : nat -> type.
Variables positive negative : Tensor2 type.

(** Whatever the charts hold, the search keeps the second cell of
    [maximum_gain] as the memory was or leaves a positive number there,
    and writes the first cell only together with the second. *)
Lemma maximum_gain_loop (l : list nat) (s s' : GainSearch) :
  for_each (maximum_gain_body prec emax positive negative) l s = Ok s' ->
  (maximum_gain_0 s' = maximum_gain_0 s /\ maximum_gain_1 s' = maximum_gain_1 s)
  \/ (SFltb type_zero (maximum_gain_1 s') = true).
Proof.
  revert s. induction l as [|i l IH]; intros s; simpl.
  - intros H. injection H as <-. left. split; reflexivity.
  - unfold maximum_gain_body at 1.
    destruct (at2 positive (i + 1) 1) as [p| |]; cbn [bind]; try discriminate.
    destruct (at2 negative (i + 1) 1) as [n| |]; cbn [bind]; try discriminate.
    destruct (SFltb (maximum_gain_1 s) (SFsub prec emax p n)
              && SFltb type_zero (SFsub prec emax p n)) eqn:C; cbn [bind].
    + apply andb_true_iff in C. destruct C as [_ Positive].
      intros H. destruct (IH _ H) as [[_ Same]|Found].
      * right. rewrite Same. exact Positive.
      * right. exact Found.
    + intros H. destruct (IH _ H) as [[Same0 Same1]|Found].
      * left. split; assumption.
      * right. exact Found.
Qed.

Lemma maximum_gain_loop_nan (l : list nat) (s s' : GainSearch) :
  maximum_gain_1 s = S754_nan ->
  for_each (maximum_gain_body prec emax positive negative) l s = Ok s' ->
  maximum_gain_0 s' = maximum_gain_0 s /\ maximum_gain_1 s' = S754_nan.
Proof.
  revert s. induction l as [|i l IH]; intros s NaN; simpl.
  - intros H. injection H as <-. split; [reflexivity | exact NaN].
  - unfold maximum_gain_body at 1.
    destruct (at2 positive (i + 1) 1) as [p| |]; cbn [bind]; try discriminate.
    destruct (at2 negative (i + 1) 1) as [n| |]; cbn [bind]; try discriminate.
    rewrite NaN. cbn [SFltb SFcompare andb bind].
    intros H. apply IH in H; [|reflexivity]. exact H.
Qed.

Lemma maximum_gain_loop_returns (l : list nat) (s : GainSearch) :
  well_formed positive -> well_formed negative ->
  2 <= dimension1 positive -> 2 <= dimension1 negative ->
  (forall i, In i l -> i + 1 < dimension0 positive
                       /\ i + 1 < dimension0 negative) ->
  returns (for_each (maximum_gain_body prec emax positive negative) l s).
Proof.
  intros Wp Wn Cp Cn Rows. revert s. apply for_each_returns.
  intros i s Hi. destruct (Rows i Hi) as [Rp Rn].
  unfold maximum_gain_body.
  destruct (@at2_well_formed _ positive (i + 1) 1 Wp Rp ltac:(lia)) as [p ->].
  destruct (@at2_well_formed _ negative (i + 1) 1 Wn Rn ltac:(lia)) as [n ->].
  cbn [bind].
  destruct (SFltb (maximum_gain_1 s) (SFsub prec emax p n)
            && SFltb type_zero (SFsub prec emax p n)); eexists; reflexivity.
Qed.

End MaximumGain.

(** X16.  [calculate_maximum_gain] reads [maximum_gain] before anything
    is written to it.  For two charts of the same number of rows and at
    least two columns it returns two values that are either the two the
    fresh memory held or have a second one above 0; when the fresh memory
    holds a NaN in the second cell, it returns the first cell as it was
    and the NaN, whatever the charts are. *)
Theorem maximum_gain_starts_from_fresh_memory
        (prec emax : Z) (OPENNN_DEBUG : bool) (memory : nat -> type)
        (positive negative : Tensor2 type) :
  well_formed positive -> well_formed negative ->
  2 <= dimension1 positive -> 2 <= dimension1 negative ->
  dimension0 negative = dimension0 positive ->
  exists first second : type,
    calculate_maximum_gain prec emax OPENNN_DEBUG memory positive negative
    = Ok [first; second]
    /\ ((first = memory 0 /\ second = memory 1)
        \/ SFltb type_zero second = true)
    /\ (memory 1 = S754_nan -> first = memory 0 /\ second = S754_nan).
Proof.
  intros Wp Wn Cp Cn Rows. unfold calculate_maximum_gain.
  rewrite Rows, Nat.eqb_refl, andb_false_r; cbn [bind].
  destruct (@maximum_gain_loop_returns
              prec emax positive negative
              (seq 0 (dimension0 positive - 1))
              {| percentage := type_zero;
                 maximum_gain_0 := memory 0; maximum_gain_1 := memory 1 |}
              Wp Wn Cp Cn
              (fun i Hi => ltac:(apply in_seq in Hi; lia)))
    as [s Loop].
  rewrite Loop; cbn [bind].
  exists (maximum_gain_0 s), (maximum_gain_1 s).
  split; [reflexivity|]. split.
  - exact (@maximum_gain_loop prec emax positive negative _ _ _ Loop).
  - intros NaN.
    exact (@maximum_gain_loop_nan
             prec emax positive negative _
             {| percentage := type_zero;
                maximum_gain_0 := memory 0; maximum_gain_1 := memory 1 |}
             _ NaN Loop).
Qed.

Lemma maximum_gain_of_empty_charts
      (prec emax : Z) (OPENNN_DEBUG : bool) (memory : nat -> type) :
  calculate_maximum_gain prec emax OPENNN_DEBUG memory
                         (Tensor2_empty type) (Tensor2_empty type)
  = Ok [memory 0; memory 1].
Proof.
  unfold calculate_maximum_gain; simpl. rewrite andb_false_r. reflexivity.
Qed.

(** X17.  For a bound testing analysis,
    [perform_Kolmogorov_Smirnov_analysis] throws exactly when no testing
    instance is counted as a positive or none as a negative; otherwise
    it returns two empty gain charts and, as the maximum gain, the two
    values the fresh memory held. *)
Theorem Kolmogorov_Smirnov_analysis_outcome
        (prec emax : Z) (OPENNN_DEBUG : bool)
        (calculate_outputs : NeuralNetwork -> Tensor2 type -> Tensor2 type)
        (memory : nat -> type)
        (ta : TestingAnalysis) (nn : NeuralNetwork) (ds : DataSet) :
  let targets := get_testing_target_data ds in
  let outputs := calculate_outputs nn (get_testing_input_data ds) in
  let positives := count_instances (counted_positive prec) targets outputs in
  let negatives := count_instances (counted_negative prec) targets outputs in
  neural_network_pointer ta = Some nn ->
  data_set_pointer ta = Some ds ->
  (OPENNN_DEBUG = true ->
   get_inputs_number nn = get_input_variables_number ds
   /\ get_outputs_number nn = get_target_variables_number ds) ->
  testing_data targets outputs ->
  (throws (perform_Kolmogorov_Smirnov_analysis
             prec emax OPENNN_DEBUG calculate_outputs memory ta)
   <-> positives = 0%Z \/ negatives = 0%Z)
  /\ (positives <> 0%Z -> negatives <> 0%Z ->
      perform_Kolmogorov_Smirnov_analysis
        prec emax OPENNN_DEBUG calculate_outputs memory ta
      = Ok {| positive_cumulative_gain := Tensor2_empty type;
              negative_cumulative_gain := Tensor2_empty type;
              maximum_gain := [memory 0; memory 1] |}).
Proof.
  intros targets outputs positives negatives NN DS Debug data.
  unfold perform_Kolmogorov_Smirnov_analysis.
  rewrite (@debug_checks_pass OPENNN_DEBUG ta nn ds NN DS Debug); cbn [bind].
  rewrite (@testing_targets_and_outputs_bound calculate_outputs ta nn ds NN DS);
    cbn [bind fst snd].
  fold targets outputs.
  rewrite (cumulative_gain_outcome prec data),
          (negative_cumulative_gain_outcome prec data).
  fold positives negatives.
  destruct (Z.eqb_spec positives 0) as [P|P].
  { split; [split|]; [intros _; left; exact P | intros _; eexists; reflexivity|].
    intros H; contradiction. }
  cbn [bind].
  destruct (Z.eqb_spec negatives 0) as [N|N].
  { split; [split|]; [intros _; right; exact N | intros _; eexists; reflexivity|].
    intros _ H; contradiction. }
  cbn [bind]. rewrite maximum_gain_of_empty_charts; cbn [bind].
  split.
  - split; [intros [w H]; discriminate | intros [H|H]; contradiction].
  - intros _ _. reflexivity.
Qed.

(** The two instances of the example, with NaNs in fresh memory. *)
Lemma Kolmogorov_Smirnov_analysis_outcome_witness :
  perform_Kolmogorov_Smirnov_analysis
    24 128 true example_outputs (fun _ => S754_nan)
    (example_analysis (type_half 24))
  = Ok {| positive_cumulative_gain := Tensor2_empty type;
          negative_cumulative_gain := Tensor2_empty type;
          maximum_gain := [S754_nan; S754_nan] |}.
Proof.
  apply (@Kolmogorov_Smirnov_analysis_outcome
           24 128 true example_outputs (fun _ => S754_nan)
           (example_analysis (type_half 24))
           (example_network (type_half 24)) example_data_set
           eq_refl eq_refl (fun _ => conj eq_refl eq_refl)
           (example_testing_data _ _ _ _)).
  - vm_compute; discriminate.
  - vm_compute; discriminate.
Defined.

(** The lift chart of the chart of three points. *)
Lemma lift_chart_of_gain_chart_witness :
  exists lift_chart : Tensor2 type,
    calculate_lift_chart 24 128 (fun _ => S754_nan) example_gain_chart
    = Ok lift_chart
    /\ dimension0 lift_chart = 3
    /\ dimension1 lift_chart = 2
    /\ at2 lift_chart 0 0 = Ok type_zero
    /\ at2 lift_chart 0 1 = Ok (type_one 24)
    /\ (forall i x y,
           1 <= i < 3 ->
           at2 example_gain_chart i 0 = Ok x ->
           at2 example_gain_chart i 1 = Ok y ->
           at2 lift_chart i 0 = Ok x
           /\ at2 lift_chart i 1 = Ok (SFdiv 24 128 y x)).
Proof.
  apply (@lift_chart_of_gain_chart 24 128 (fun _ => S754_nan) example_gain_chart).
  - reflexivity.
  - simpl; lia.
  - simpl; lia.
Defined.

(** The chart of three points against itself, with NaNs in fresh memory. *)
Lemma maximum_gain_starts_from_fresh_memory_witness :
  exists first second : type,
    calculate_maximum_gain 24 128 true (fun _ => S754_nan)
                           example_gain_chart example_gain_chart
    = Ok [first; second]
    /\ ((first = S754_nan /\ second = S754_nan)
        \/ SFltb type_zero second = true)
    /\ (S754_nan = S754_nan -> first = S754_nan /\ second = S754_nan).
Proof.
  apply (@maximum_gain_starts_from_fresh_memory
           24 128 true (fun _ => S754_nan) example_gain_chart example_gain_chart).
  - reflexivity.
  - reflexivity.
  - simpl; lia.
  - simpl; lia.
  - reflexivity.
Defined.

End TestingAnalysisChartsProperties.

(* ================================================================== *)
(** * Properties of the calibration plot *)

Module TestingAnalysisCalibrationProperties.

Import NeuralNetwork TestingAnalysis TestingAnalysisCalibration TestingAnalysisExamples.
Import ScalarProperties TestingAnalysisProperties TensorProperties.

Section Plot.

Variables prec emax : Z.
Variable memory : nat -> type.
Variables targets outputs : Tensor2 type.
Hypothesis data : testing_data targets outputs.

Lemma calibration_inner_returns (probability : type) (bin : Bin) :
  returns (for_each (calibration_inner prec emax targets outputs probability)
                    (seq 0 (dimension0 targets)) bin).
Proof.
  destruct data as (Wt & Wo & Ct & Co & Rows).
  apply for_each_returns. intros j b Hj. apply in_seq in Hj.
  unfold calibration_inner.
  rewrite (at2_in_range Wo Co) by lia. cbn [bind].
  destruct (in_bin _ _); [|eexists; reflexivity].
  rewrite (at2_in_range Wt Ct) by lia. cbn [bind]. eexists; reflexivity.
Qed.

(** The inner loop leaves the bin as it was when no output falls in it. *)
Lemma calibration_inner_empty (probability : type) (bin : Bin) :
  (forall j, j < dimension0 targets ->
             in_bin probability (first_column outputs j) = false) ->
  for_each (calibration_inner prec emax targets outputs probability)
           (seq 0 (dimension0 targets)) bin
  = Ok bin.
Proof.
  destruct data as (Wt & Wo & Ct & Co & Rows). intros Empty.
  assert (Loop : forall l, (forall j, In j l -> j < dimension0 targets) ->
            for_each (calibration_inner prec emax targets outputs probability) l bin
            = Ok bin).
  { induction l as [|j l IH]; intros R; simpl; [reflexivity|].
    unfold calibration_inner at 1.
    rewrite (at2_in_range Wo Co) by (rewrite Rows; apply R; left; reflexivity).
    cbn [bind]. rewrite Empty by (apply R; left; reflexivity). cbn [bind].
    apply IH. intros k Hk. apply R. right; exact Hk. }
  apply Loop. intros j Hj. apply in_seq in Hj. lia.
Qed.

(** A turn of the outer loop writes the two coefficients of its row and
    moves the probability on; when no output falls in the bin it writes
    -1 twice. *)
Lemma calibration_outer_row (i : nat) (s : Calibration) :
  well_formed (calibration_plot s) ->
  i < dimension0 (calibration_plot s) -> dimension1 (calibration_plot s) = 2 ->
  exists (s' : Calibration) (x y : type),
    calibration_outer prec emax targets outputs i s = Ok s'
    /\ well_formed (calibration_plot s')
    /\ dimension0 (calibration_plot s') = dimension0 (calibration_plot s)
    /\ dimension1 (calibration_plot s') = 2
    /\ at2 (calibration_plot s') i 0 = Ok x
    /\ at2 (calibration_plot s') i 1 = Ok y
    /\ (forall i' j, i' < dimension0 (calibration_plot s) -> i' <> i ->
                     at2 (calibration_plot s') i' j = at2 (calibration_plot s) i' j)
    /\ probability s' = next_probability prec emax (probability s)
    /\ ((forall j, j < dimension0 targets ->
                   in_bin (next_probability prec emax (probability s))
                          (first_column outputs j) = false) ->
        x = type_of_Index prec emax (-1)%Z /\ y = type_of_Index prec emax (-1)%Z).
Proof.
  intros W I Columns. unfold calibration_outer.
  destruct (calibration_inner_returns
              (next_probability prec emax (probability s))
              {| count := 0%Z; positives := 0%Z; sum := type_zero |})
    as [bin Inner].
  rewrite Inner; cbn [bind].
  assert (Writes : forall x y : type,
    exists plot : Tensor2 type,
      (plot <- set2 (calibration_plot s) i 0 x ;; set2 plot i 1 y) = Ok plot
      /\ well_formed plot
      /\ dimension0 plot = dimension0 (calibration_plot s)
      /\ dimension1 plot = 2
      /\ at2 plot i 0 = Ok x /\ at2 plot i 1 = Ok y
      /\ (forall i' j, i' < dimension0 (calibration_plot s) -> i' <> i ->
                       at2 plot i' j = at2 (calibration_plot s) i' j)).
  { intros x y.
    destruct (@set2_in_range _ (calibration_plot s) i 0 x W I ltac:(lia))
      as (p1 & S1 & W1 & D01 & D11 & Same1 & Other1).
    rewrite S1; cbn [bind].
    destruct (@set2_in_range _ p1 i 1 y W1 ltac:(lia) ltac:(lia))
      as (p2 & S2 & W2 & D02 & D12 & Same2 & Other2).
    exists p2. split; [exact S2|]. split; [exact W2|].
    split; [congruence|]. split; [congruence|].
    split; [|split; [exact Same2|]].
    - rewrite Other2 by (try lia; intros E; discriminate E). exact Same1.
    - intros i' j I' Ne.
      rewrite Other2 by (try lia; intros E; injection E; lia).
      apply Other1; [lia|]. intros E; injection E; lia. }
  destruct (count bin =? 0)%Z eqn:Count.
  - destruct (Writes (type_of_Index prec emax (-1)%Z)
                     (type_of_Index prec emax (-1)%Z))
      as (plot & E & Wp & D0 & D1 & X & Y & Other).
    rewrite E; cbn [bind].
    eexists; eexists; eexists. split; [reflexivity|].
    cbn [calibration_plot probability].
    repeat (split; [eassumption|]). split; [reflexivity|].
    intros _. split; reflexivity.
  - destruct (Writes (SFdiv prec emax (sum bin)
                            (type_of_Index prec emax (count bin)))
                     (SFdiv prec emax (type_of_Index prec emax (positives bin))
                            (type_of_Index prec emax (count bin))))
      as (plot & E & Wp & D0 & D1 & X & Y & Other).
    rewrite E; cbn [bind].
    eexists; eexists; eexists. split; [reflexivity|].
    cbn [calibration_plot probability].
    repeat (split; [eassumption|]). split; [reflexivity|].
    intros Empty. rewrite (calibration_inner_empty _ _ Empty) in Inner.
    injection Inner as <-. discriminate Count.
Qed.

Lemma calibration_loop (n base : nat) :
  forall s : Calibration,
    well_formed (calibration_plot s) ->
    base + n < dimension0 (calibration_plot s) ->
    dimension1 (calibration_plot s) = 2 ->
    probability s = bin_probability prec emax base ->
    exists s' : Calibration,
      for_each (calibration_outer prec emax targets outputs) (seq (S base) n) s
      = Ok s'
      /\ well_formed (calibration_plot s')
      /\ dimension0 (calibration_plot s') = dimension0 (calibration_plot s)
      /\ dimension1 (calibration_plot s') = 2
      /\ (forall i j, i < dimension0 (calibration_plot s) ->
                      ~ (base < i <= base + n) ->
                      at2 (calibration_plot s') i j = at2 (calibration_plot s) i j)
      /\ (forall i, base < i <= base + n ->
                    (forall j, j < dimension0 targets ->
                               in_bin (bin_probability prec emax i)
                                      (first_column outputs j) = false) ->
                    at2 (calibration_plot s') i 0
                    = Ok (type_of_Index prec emax (-1)%Z)
                    /\ at2 (calibration_plot s') i 1
                       = Ok (type_of_Index prec emax (-1)%Z)).
Proof.
  revert base. induction n as [|n IH]; intros base s W Rows Columns P; simpl.
  - exists s. split; [reflexivity|]. split; [exact W|]. split; [reflexivity|].
    split; [exact Columns|]. split; [reflexivity|]. intros i I. lia.
  - destruct (@calibration_outer_row (S base) s W ltac:(lia) Columns)
      as (s1 & x & y & E & W1 & D0 & D1 & X & Y & Other & P1 & Empty).
    rewrite E; cbn [bind].
    assert (P1' : probability s1 = bin_probability prec emax (S base))
      by (rewrite P1, P; reflexivity).
    destruct (IH (S base) s1 W1 ltac:(lia) D1 P1')
      as (s' & Loop & W' & D0' & D1' & Kept & Marked).
    exists s'. split; [exact Loop|]. split; [exact W'|].
    split; [congruence|]. split; [exact D1'|]. split.
    + intros k j K Absent.
      rewrite Kept by lia. apply Other; lia.
    + intros k K Bin.
      destruct (Nat.eq_dec k (S base)) as [->|Later].
      * rewrite !Kept by lia. rewrite P in Empty.
        destruct (Empty Bin) as [-> ->]. split; assumption.
      * apply Marked; [lia | exact Bin].
Qed.

End Plot.

(** X18.  On testing data [calculate_calibration_plot] prints its title
    and returns a tensor of twelve rows and two columns whose first row
    is (0, 0) and whose last row is (1, 1); the row of every bin that no
    output falls in is (-1, -1), the loop that removed such rows being
    commented out in the source. *)
Theorem calibration_plot_keeps_its_twelve_rows
        (prec emax : Z) (memory : nat -> type) (targets outputs : Tensor2 type) :
  testing_data targets outputs ->
  exists plot : Tensor2 type,
    calculate_calibration_plot prec emax memory targets outputs
    = Ok (("Calibration plot" ++ nl)%string, plot)
    /\ dimension0 plot = 12 /\ dimension1 plot = 2
    /\ at2 plot 0 0 = Ok type_zero /\ at2 plot 0 1 = Ok type_zero
    /\ at2 plot 11 0 = Ok (type_one prec) /\ at2 plot 11 1 = Ok (type_one prec)
    /\ (forall i,
           1 <= i <= 10 ->
           (forall j, j < dimension0 targets ->
                      in_bin (bin_probability prec emax i)
                             (first_column outputs j) = false) ->
           at2 plot i 0 = Ok (type_of_Index prec emax (-1)%Z)
           /\ at2 plot i 1 = Ok (type_of_Index prec emax (-1)%Z)).
Proof.
  intros data. unfold calculate_calibration_plot.
  destruct (@set2_in_range _ (Tensor2_new memory (10 + 2) 2) 0 0 type_zero
                           (Tensor2_new_well_formed _ _ _)
                           ltac:(simpl; lia) ltac:(simpl; lia))
    as (p1 & S1 & W1 & D01 & D11 & Same1 & Other1).
  rewrite S1; cbn [bind]. simpl in D01, D11.
  destruct (@set2_in_range _ p1 0 1 type_zero W1 ltac:(lia) ltac:(lia))
    as (p2 & S2 & W2 & D02 & D12 & Same2 & Other2).
  rewrite S2; cbn [bind].
  destruct (@calibration_loop
              prec emax targets outputs data 10 0
              {| calibration_plot := p2; probability := type_zero |}
              W2 ltac:(cbn [calibration_plot]; lia)
              ltac:(cbn [calibration_plot]; lia) eq_refl)
    as (s & Loop & W & D0 & D1 & Kept & Marked).
  cbn [calibration_plot] in *.
  rewrite Loop; cbn [bind].
  destruct (@set2_in_range _ (calibration_plot s) (10 + 1) 0 (type_one prec)
                           W ltac:(simpl; lia) ltac:(lia))
    as (p3 & S3 & W3 & D03 & D13 & Same3 & Other3).
  rewrite S3; cbn [bind].
  destruct (@set2_in_range _ p3 (10 + 1) 1 (type_one prec)
                           W3 ltac:(simpl; lia) ltac:(lia))
    as (p4 & S4 & W4 & D04 & D14 & Same4 & Other4).
  rewrite S4; cbn [bind].
  exists p4. split; [reflexivity|].
  split; [lia|]. split; [lia|].
  assert (Old : forall i j, i < 11 -> at2 p4 i j = at2 (calibration_plot s) i j).
  { intros i j I.
    rewrite Other4 by (try lia; intros E; injection E; simpl; lia).
    apply Other3; [lia|]. intros E; injection E; simpl; lia. }
  split; [|split; [|split; [|split]]].
  - rewrite Old, Kept by lia.
    rewrite Other2 by (try lia; intros E; discriminate E). exact Same1.
  - rewrite Old, Kept by lia. exact Same2.
  - rewrite Other4 by (try (simpl; lia); intros E; discriminate E). exact Same3.
  - exact Same4.
  - intros i I Bin. rewrite !Old by lia.
    apply Marked; [lia | exact Bin].
Qed.

(** The two instances of the example, with NaNs in fresh memory. *)
Lemma calibration_plot_keeps_its_twelve_rows_witness :
  exists plot : Tensor2 type,
    calculate_calibration_plot 24 128 (fun _ => S754_nan)
                               (column [example_one; type_zero])
                               (column [example_one; type_zero])
    = Ok (("Calibration plot" ++ nl)%string, plot)
    /\ dimension0 plot = 12 /\ dimension1 plot = 2
    /\ at2 plot 0 0 = Ok type_zero /\ at2 plot 0 1 = Ok type_zero
    /\ at2 plot 11 0 = Ok (type_one 24) /\ at2 plot 11 1 = Ok (type_one 24)
    /\ (forall i,
           1 <= i <= 10 ->
           (forall j, j < 2 ->
                      in_bin (bin_probability 24 128 i)
                             (first_column (column [example_one; type_zero]) j)
                      = false) ->
           at2 plot i 0 = Ok (type_of_Index 24 128 (-1)%Z)
           /\ at2 plot i 1 = Ok (type_of_Index 24 128 (-1)%Z)).
Proof.
  apply (@calibration_plot_keeps_its_twelve_rows
           24 128 (fun _ => S754_nan)
           (column [example_one; type_zero]) (column [example_one; type_zero])
           (example_testing_data _ _ _ _)).
Defined.

End TestingAnalysisCalibrationProperties.

(* ================================================================== *)
(** * Properties of the binary classification tests *)

Module TestingAnalysisTestsProperties.

Import NeuralNetwork TestingAnalysis TestingAnalysisTests TestingAnalysisExamples.
Import TestingAnalysisChartsExamples.

Lemma tests_of_no_instance (prec emax : Z) :
  binary_classification_tests_of prec emax 0%Z 0%Z 0%Z 0%Z
  = repeat type_zero 13 ++ [type_minus_one prec emax; type_minus_one prec emax].
Proof. reflexivity. Qed.

(** X19.  For a bound testing analysis of a network with one output (in
    a debug build with matching numbers of inputs and one target) and a
    data set without testing instances,
    [calculate_binary_classification_tests] divides by no count: it
    returns thirteen zeros followed by an informedness and a markedness
    of -1. *)
Theorem binary_classification_tests_without_instances
        (prec emax : Z) (OPENNN_DEBUG : bool)
        (calculate_outputs : NeuralNetwork -> Tensor2 type -> Tensor2 type)
        (memory : nat -> Index)
        (ta : TestingAnalysis) (nn : NeuralNetwork) (ds : DataSet) :
  neural_network_pointer ta = Some nn ->
  data_set_pointer ta = Some ds ->
  get_outputs_number nn = 1 ->
  (OPENNN_DEBUG = true ->
   get_inputs_number nn = get_input_variables_number ds
   /\ get_target_variables_number ds = 1) ->
  dimension0 (get_testing_target_data ds) = 0 ->
  calculate_binary_classification_tests
    prec emax OPENNN_DEBUG calculate_outputs memory ta
  = Ok (repeat type_zero 13
        ++ [type_minus_one prec emax; type_minus_one prec emax]).
Proof.
  intros NN DS One Debug Empty.
  unfold calculate_binary_classification_tests, calculate_confusion, check.
  rewrite NN, DS; cbn [deref bind]. rewrite One; cbn [Nat.eqb negb].
  unfold calculate_confusion_binary_classification. rewrite Empty.
  destruct OPENNN_DEBUG.
  - destruct (Debug eq_refl) as [In Out]. rewrite In, Out, Nat.eqb_refl.
    reflexivity.
  - reflexivity.
Qed.

(** X20.  The markedness that [calculate_binary_classification_tests]
    reports does not depend on the number of false negatives: with a
    true negative or a false positive it is the precision plus the
    specificity minus 1, and without one the specificity is 0 and it is
    the precision minus 1. *)
Theorem markedness_ignores_false_negatives
        (prec emax : Z)
        (true_positive false_positive false_negative true_negative : Index) :
  let tests :=
    binary_classification_tests_of
      prec emax true_positive false_positive false_negative true_negative in
  let specificity := nth 3 tests type_zero in
  let precision := nth 4 tests type_zero in
  let markedness := nth 14 tests type_zero in
  (forall false_negative' : Index,
      nth 14 (binary_classification_tests_of
                prec emax true_positive false_positive false_negative'
                true_negative) type_zero
      = markedness)
  /\ (Index_add true_negative false_positive <> 0%Z ->
      markedness
      = of_double prec emax
          (SFsub 53 1024 (to_double (SFadd prec emax precision specificity))
                 double_one))
  /\ (Index_add true_negative false_positive = 0%Z ->
      specificity = type_zero
      /\ markedness
         = of_double prec emax (SFsub 53 1024 (to_double precision) double_one)).
Proof.
  cbv zeta. unfold binary_classification_tests_of. cbn [nth].
  split; [reflexivity|]. split.
  - intros H. apply Z.eqb_neq in H. rewrite H. reflexivity.
  - intros H. rewrite H. split; reflexivity.
Qed.

(** Three true positives, one false positive, two false negatives and
    four true negatives. *)
Lemma markedness_ignores_false_negatives_witness :
  let tests := binary_classification_tests_of 24 128 3%Z 1%Z 2%Z 4%Z in
  nth 14 tests type_zero
  = of_double 24 128
      (SFsub 53 1024
         (to_double (SFadd 24 128 (nth 4 tests type_zero) (nth 3 tests type_zero)))
         double_one).
Proof.
  cbv zeta.
  apply (markedness_ignores_false_negatives 24 128 3%Z 1%Z 2%Z 4%Z).
  vm_compute. discriminate.
Defined.

(** The network of the example on the data set without testing
    instances, in a debug build. *)
Lemma binary_classification_tests_without_instances_witness :
  calculate_binary_classification_tests
    24 128 true example_empty_outputs (fun _ => 0%Z) example_empty_analysis
  = Ok (repeat type_zero 13 ++ [type_minus_one 24 128; type_minus_one 24 128]).
Proof.
  apply (@binary_classification_tests_without_instances
           24 128 true example_empty_outputs (fun _ => 0%Z)
           example_empty_analysis (example_network (type_half 24))
           example_empty_data_set).
  - reflexivity.
  - reflexivity.
  - reflexivity.
  - intros _. split; reflexivity.
  - reflexivity.
Defined.

End TestingAnalysisTestsProperties.

(* ================================================================== *)
(** * Properties of the setters and selections of model selection *)

Module ModelSelectionOperationsProperties.

Import NeuralNetwork ModelSelection ModelSelectionOperations ModelSelectionExamples.
Import ModelSelectionOperationsExamples.

Section Algorithms.

Variable Settings : Type.
Variable default_settings : AlgorithmClass -> Settings.
Variable write_settings : AlgorithmClass -> Settings -> list XMLNode.
Variable read_settings :
  AlgorithmClass -> list XMLNode -> Settings -> result Settings.

(** ** Constructors and set_default *)

Lemma set_default_constructed (ms : ModelSelection Settings) :
  set_default default_settings ms
  = ModelSelection_new default_settings (training_strategy_pointer ms).
Proof.
  destruct ms as [ts inp gip pip gap nsm ism d].
  cbn [training_strategy_pointer]. destruct ts; reflexivity.
Qed.

Lemma constructed_members (p : option TrainingStrategy) :
  ModelSelection_new default_settings p
  = {| training_strategy_pointer := p;
       incremental_neurons_pointer :=
         Some (new_Algorithm default_settings IncrementalNeurons p);
       growing_inputs_pointer :=
         Some (new_Algorithm default_settings GrowingInputs p);
       pruning_inputs_pointer := None;
       genetic_algorithm_pointer := None;
       neurons_selection_method := INCREMENTAL_NEURONS;
       inputs_selection_method := GROWING_INPUTS;
       display := true |}.
Proof. destruct p; reflexivity. Qed.

(** X21.  [set_default] leaves any model selection object as the
    constructor builds one for the same training strategy pointer:
    incremental neurons and growing inputs allocated with that pointer
    and their default settings, no pruning inputs and no genetic
    algorithm, the display on.  Calling it twice is calling it once. *)
Theorem set_default_gives_the_constructed_object
        (ms : ModelSelection Settings) :
  let p := training_strategy_pointer ms in
  set_default default_settings ms = ModelSelection_new default_settings p
  /\ set_default default_settings (set_default default_settings ms)
     = set_default default_settings ms
  /\ ModelSelection_new default_settings p
     = {| training_strategy_pointer := p;
          incremental_neurons_pointer :=
            Some (new_Algorithm default_settings IncrementalNeurons p);
          growing_inputs_pointer :=
            Some (new_Algorithm default_settings GrowingInputs p);
          pruning_inputs_pointer := None;
          genetic_algorithm_pointer := None;
          neurons_selection_method := INCREMENTAL_NEURONS;
          inputs_selection_method := GROWING_INPUTS;
          display := true |}.
Proof.
  cbv zeta. split; [apply set_default_constructed|].
  split; [|apply constructed_members].
  rewrite !set_default_constructed.
  rewrite (constructed_members (training_strategy_pointer ms)).
  cbn [training_strategy_pointer]. apply constructed_members.
Qed.

(** ** The algorithms in use stay allocated *)

Lemma set_inputs_selection_method_allocated
      (m : InputsSelectionMethod) (ms : ModelSelection Settings) :
  algorithms_allocated ms ->
  algorithms_allocated (set_inputs_selection_method default_settings m ms).
Proof.
  intros [_ Neurons]. unfold algorithms_allocated in *.
  unfold active_neurons_selection in *.
  destruct m; cbn;
    (split; [intros NE; first [discriminate | exfalso; apply NE; reflexivity]|]);
    try exact Neurons.
  intros NE. destruct (neurons_selection_method ms); [congruence | discriminate].
Qed.

Lemma set_neurons_selection_method_allocated
      (m : NeuronsSelectionMethod) (ms : ModelSelection Settings) :
  algorithms_allocated ms ->
  algorithms_allocated (set_neurons_selection_method default_settings m ms).
Proof.
  intros [Inputs _]. unfold algorithms_allocated in *.
  unfold active_inputs_selection in *.
  destruct m; cbn; (split; [exact Inputs|]).
  - intros H; congruence.
  - intros _; discriminate.
Qed.

Lemma set_inputs_selection_method_string_allocated
      (s : string) (ms : ModelSelection Settings) :
  algorithms_allocated ms ->
  algorithms_allocated (snd (set_inputs_selection_method_string default_settings s ms)).
Proof.
  intros A. unfold set_inputs_selection_method_string, modify, throw.
  repeat match goal with
         | |- context [if ?c then _ else _] => destruct c
         end; cbn [snd];
    try apply set_inputs_selection_method_allocated; exact A.
Qed.

Lemma set_neurons_selection_method_string_allocated
      (s : string) (ms : ModelSelection Settings) :
  algorithms_allocated ms ->
  algorithms_allocated (snd (set_neurons_selection_method_string default_settings s ms)).
Proof.
  intros A. unfold set_neurons_selection_method_string, modify, throw.
  repeat match goal with
         | |- context [if ?c then _ else _] => destruct c
         end; cbn [snd];
    try apply set_neurons_selection_method_allocated; exact A.
Qed.

Lemma constructed_allocated (p : option TrainingStrategy) :
  algorithms_allocated (ModelSelection_new default_settings p).
Proof.
  unfold ModelSelection_new, set_default, set_inputs_selection_method,
         set_neurons_selection_method, new_with_training_strategy; cbn.
  split; intros _; destruct p; discriminate.
Qed.

(** Replacing the algorithm in use by another object keeps it allocated. *)
Lemma store_allocated (ms : ModelSelection Settings) (a : Algorithm Settings) :
  algorithms_allocated ms ->
  algorithms_allocated (set_growing_inputs (Some a) ms)
  /\ algorithms_allocated (set_pruning_inputs (Some a) ms)
  /\ algorithms_allocated (set_genetic_algorithm (Some a) ms)
  /\ algorithms_allocated (set_incremental_neurons (Some a) ms).
Proof.
  intros [Inputs Neurons].
  unfold algorithms_allocated, active_inputs_selection, active_neurons_selection in *.
  repeat split; cbn; intros H;
    try (destruct (inputs_selection_method ms); try discriminate; auto; fail);
    try (destruct (neurons_selection_method ms); try discriminate; auto; fail);
    auto.
Qed.

Lemma from_XML_allocated (document : XMLDocument) (ms : ModelSelection Settings) :
  algorithms_allocated ms ->
  algorithms_allocated (snd (from_XML default_settings read_settings document ms)).
Proof.
  intros A. unfold from_XML.
  destruct (FirstChildElement "ModelSelection" document) as [root|];
    [|exact A].
  unfold then_ at 1.
  (* inputs selection *)
  assert (Inputs :
    algorithms_allocated
      (snd (match FirstChildElement "InputsSelection" (XMLNode_children root) with
            | Some element =>
                then_ (lift (deref (Attribute "Type" element)))
                  (fun new_inputs_selection_method =>
                   then_ (set_inputs_selection_method_string
                            default_settings new_inputs_selection_method)
                     (fun _ =>
                      then_ (@get Settings)
                        (fun ms0 =>
                         match inputs_selection_method ms0 with
                         | NO_INPUTS_SELECTION => ret tt
                         | GROWING_INPUTS =>
                             then_ (lift (load_algorithm read_settings GrowingInputs
                                            element (growing_inputs_pointer ms0)))
                               (fun a => modify (set_growing_inputs (Some a)))
                         | PRUNING_INPUTS =>
                             then_ (lift (load_algorithm read_settings PruningInputs
                                            element (pruning_inputs_pointer ms0)))
                               (fun a => modify (set_pruning_inputs (Some a)))
                         | GENETIC_ALGORITHM =>
                             then_ (lift (load_algorithm read_settings GeneticAlgorithm
                                            element (genetic_algorithm_pointer ms0)))
                               (fun a => modify (set_genetic_algorithm (Some a)))
                         end)))
            | None => ret tt
            end ms))).
  { destruct (FirstChildElement "InputsSelection" (XMLNode_children root))
      as [element|]; [|exact A].
    unfold then_ at 1, lift.
    destruct (deref (Attribute "Type" element)) as [s| |]; try exact A.
    unfold then_ at 1.
    pose proof (set_inputs_selection_method_string_allocated s A) as A1.
    destruct (set_inputs_selection_method_string default_settings s ms)
      as [[[]| |] ms1]; cbn [snd] in A1; try exact A1.
    unfold then_ at 1, get.
    destruct (inputs_selection_method ms1); try exact A1;
      unfold then_, lift, modify;
      match goal with
      | |- context [load_algorithm ?r ?k ?e ?p] =>
          destruct (load_algorithm r k e p) as [a| |]; cbn [snd]; try exact A1
      end;
      apply (store_allocated a A1). }
  match type of Inputs with
  | algorithms_allocated (snd ?c) => destruct c as [[[]| |] ms1]
  end; cbn [snd] in Inputs; try exact Inputs.
  (* neurons selection *)
  destruct (FirstChildElement "NeuronsSelection" (XMLNode_children root))
    as [element|]; [|exact Inputs].
  unfold then_ at 1, lift.
  destruct (deref (Attribute "Type" element)) as [s| |]; try exact Inputs.
  unfold then_ at 1.
  pose proof (set_neurons_selection_method_string_allocated s Inputs) as A2.
  destruct (set_neurons_selection_method_string default_settings s ms1)
    as [[[]| |] ms2]; cbn [snd] in A2; try exact A2.
  unfold then_ at 1, get.
  destruct (neurons_selection_method ms2); try exact A2.
  unfold then_, lift, modify.
  destruct (load_algorithm read_settings IncrementalNeurons element
                           (incremental_neurons_pointer ms2)) as [a| |];
    cbn [snd]; try exact A2.
  apply (store_allocated a A2).
Qed.

(** X22.  The constructors leave the algorithm of each selection method
    in use allocated, and [set_default], the four setters of the
    selection methods and [from_XML], on any document and whatever its
    outcome, keep it so. *)
Theorem algorithms_in_use_stay_allocated :
  (forall p, algorithms_allocated (ModelSelection_new default_settings p))
  /\ (forall ms, algorithms_allocated (set_default default_settings ms))
  /\ (forall m ms,
         algorithms_allocated ms ->
         algorithms_allocated (set_inputs_selection_method default_settings m ms))
  /\ (forall m ms,
         algorithms_allocated ms ->
         algorithms_allocated (set_neurons_selection_method default_settings m ms))
  /\ (forall s ms,
         algorithms_allocated ms ->
         algorithms_allocated
           (snd (set_inputs_selection_method_string default_settings s ms)))
  /\ (forall s ms,
         algorithms_allocated ms ->
         algorithms_allocated
           (snd (set_neurons_selection_method_string default_settings s ms)))
  /\ (forall document ms,
         algorithms_allocated ms ->
         algorithms_allocated
           (snd (from_XML default_settings read_settings document ms))).
Proof.
  split; [exact constructed_allocated|].
  split.
  { intros ms.
    rewrite set_default_constructed.
    apply constructed_allocated. }
  split; [exact set_inputs_selection_method_allocated|].
  split; [exact set_neurons_selection_method_allocated|].
  split; [exact set_inputs_selection_method_string_allocated|].
  split; [exact set_neurons_selection_method_string_allocated|].
  exact from_XML_allocated.
Qed.

(** ** The setters that take a string *)

Lemma inputs_selection_method_names (s : string) :
  (exists m, s = inputs_selection_method_name m)
  \/ (String.eqb s "NO_INPUTS_SELECTION" = false
      /\ String.eqb s "GROWING_INPUTS" = false
      /\ String.eqb s "PRUNING_INPUTS" = false
      /\ String.eqb s "GENETIC_ALGORITHM" = false).
Proof.
  destruct (String.eqb_spec s "NO_INPUTS_SELECTION") as [->|_];
    [left; exists NO_INPUTS_SELECTION; reflexivity|].
  destruct (String.eqb_spec s "GROWING_INPUTS") as [->|_];
    [left; exists GROWING_INPUTS; reflexivity|].
  destruct (String.eqb_spec s "PRUNING_INPUTS") as [->|_];
    [left; exists PRUNING_INPUTS; reflexivity|].
  destruct (String.eqb_spec s "GENETIC_ALGORITHM") as [->|_];
    [left; exists GENETIC_ALGORITHM; reflexivity|].
  right. repeat split.
Qed.

Lemma unknown_inputs_selection_method (s : string) (ms : ModelSelection Settings) :
  (forall m, s <> inputs_selection_method_name m) ->
  set_inputs_selection_method_string default_settings s ms
  = (Throw ("OpenNN Exception: ModelSelection class." ++ nl
            ++ "void set_inputs_selection_method(const string&) method." ++ nl
            ++ "Unknown inputs selection type: " ++ s ++ "." ++ nl), ms).
Proof.
  intros Unknown.
  destruct (inputs_selection_method_names s) as [[m ->]|(A & B & C & D)].
  - destruct (Unknown m eq_refl).
  - unfold set_inputs_selection_method_string. rewrite A, B, C, D. reflexivity.
Qed.

Lemma unknown_neurons_selection_method (s : string) (ms : ModelSelection Settings) :
  (forall m, s <> neurons_selection_method_name m) ->
  set_neurons_selection_method_string default_settings s ms
  = (Throw ("OpenNN Exception: ModelSelection class." ++ nl
            ++ "void set_neurons_selection_method(const string&) method." ++ nl
            ++ "Unknown order selection type: " ++ s ++ "." ++ nl), ms).
Proof.
  intros Unknown. unfold set_neurons_selection_method_string.
  destruct (String.eqb_spec s "NO_NEURONS_SELECTION") as [->|_];
    [destruct (Unknown NO_NEURONS_SELECTION eq_refl)|].
  destruct (String.eqb_spec s "INCREMENTAL_NEURONS") as [->|_];
    [destruct (Unknown INCREMENTAL_NEURONS eq_refl)|].
  reflexivity.
Qed.

Lemma known_inputs_selection_method
      (m : InputsSelectionMethod) (ms : ModelSelection Settings) :
  set_inputs_selection_method_string
    default_settings (inputs_selection_method_name m) ms
  = (Ok tt, set_inputs_selection_method default_settings m ms).
Proof. destruct m; reflexivity. Qed.

Lemma known_neurons_selection_method
      (m : NeuronsSelectionMethod) (ms : ModelSelection Settings) :
  set_neurons_selection_method_string
    default_settings (neurons_selection_method_name m) ms
  = (Ok tt, set_neurons_selection_method default_settings m ms).
Proof. destruct m; reflexivity. Qed.

(** X23.  The setters that take a string select a method for exactly the
    names of the enumerators, which are the texts [to_XML] writes in the
    [Type] attributes; for any other string they throw a text that names
    it and leave the object as it was. *)
Theorem string_setters_read_what_to_XML_writes :
  (forall m ms,
      set_inputs_selection_method_string
        default_settings (inputs_selection_method_name m) ms
      = (Ok tt, set_inputs_selection_method default_settings m ms))
  /\ (forall m ms,
         set_neurons_selection_method_string
           default_settings (neurons_selection_method_name m) ms
         = (Ok tt, set_neurons_selection_method default_settings m ms))
  /\ (forall s ms,
         (forall m, s <> inputs_selection_method_name m) ->
         set_inputs_selection_method_string default_settings s ms
         = (Throw ("OpenNN Exception: ModelSelection class." ++ nl
                   ++ "void set_inputs_selection_method(const string&) method."
                   ++ nl ++ "Unknown inputs selection type: " ++ s ++ "." ++ nl),
            ms))
  /\ (forall s ms,
         (forall m, s <> neurons_selection_method_name m) ->
         set_neurons_selection_method_string default_settings s ms
         = (Throw ("OpenNN Exception: ModelSelection class." ++ nl
                   ++ "void set_neurons_selection_method(const string&) method."
                   ++ nl ++ "Unknown order selection type: " ++ s ++ "." ++ nl),
            ms))
  /\ (forall ms document,
         to_XML write_settings ms = Ok document ->
         type_attribute "InputsSelection" document
         = Some (inputs_selection_method_name (inputs_selection_method ms))
         /\ type_attribute "NeuronsSelection" document
            = Some (neurons_selection_method_name (neurons_selection_method ms))).
Proof.
  split; [exact known_inputs_selection_method|].
  split; [exact known_neurons_selection_method|].
  split; [exact unknown_inputs_selection_method|].
  split; [exact unknown_neurons_selection_method|].
  intros ms document. unfold to_XML, algorithm_element.
  destruct (inputs_selection_method ms);
    destruct (neurons_selection_method ms);
    repeat match goal with
           | |- context [deref ?p] => destruct p; cbn [deref bind]
           end;
    try discriminate;
    intros H; injection H as <-; split; reflexivity.
Qed.

(** ** from_XML on documents it cannot read *)

(** X24.  [from_XML] leaves the object as it was when the document has no
    [ModelSelection] element (it throws), when that element has neither
    an [InputsSelection] nor a [NeuronsSelection] child (it returns),
    when the type of the inputs selection is not a known name (it throws
    the text of the setter) and when the [InputsSelection] element has no
    [Type] attribute (undefined behaviour). *)
Theorem from_XML_unread_document_changes_nothing
        (document : XMLDocument) (ms : ModelSelection Settings) :
  (FirstChildElement "ModelSelection" document = None ->
   from_XML default_settings read_settings document ms
   = (Throw ("OpenNN Exception: ModelSelection class." ++ nl
             ++ "void from_XML(const tinyxml2::XMLDocument&) method." ++ nl
             ++ "Model Selection element is nullptr." ++ nl), ms))
  /\ (forall root,
         FirstChildElement "ModelSelection" document = Some root ->
         FirstChildElement "InputsSelection" (XMLNode_children root) = None ->
         FirstChildElement "NeuronsSelection" (XMLNode_children root) = None ->
         from_XML default_settings read_settings document ms = (Ok tt, ms))
  /\ (forall s,
         type_attribute "InputsSelection" document = Some s ->
         (forall m, s <> inputs_selection_method_name m) ->
         from_XML default_settings read_settings document ms
         = (Throw ("OpenNN Exception: ModelSelection class." ++ nl
                   ++ "void set_inputs_selection_method(const string&) method."
                   ++ nl ++ "Unknown inputs selection type: " ++ s ++ "." ++ nl),
            ms))
  /\ (forall root element,
         FirstChildElement "ModelSelection" document = Some root ->
         FirstChildElement "InputsSelection" (XMLNode_children root)
         = Some element ->
         Attribute "Type" element = None ->
         from_XML default_settings read_settings document ms = (Undefined, ms)).
Proof.
  unfold from_XML, type_attribute.
  split; [intros ->; reflexivity|].
  split; [intros root -> -> ->; reflexivity|].
  split.
  - intros s.
    destruct (FirstChildElement "ModelSelection" document) as [root|];
      [|discriminate].
    destruct (FirstChildElement "InputsSelection" (XMLNode_children root))
      as [element|]; [|discriminate].
    intros -> Unknown. unfold then_ at 1 2, lift; cbn [deref].
    unfold then_ at 1.
    rewrite (unknown_inputs_selection_method ms Unknown). reflexivity.
  - intros root element -> -> ->. reflexivity.
Qed.

(** X25.  [from_XML] does not undo what it has read: on a document with
    the inputs selection NO_INPUTS_SELECTION and a neurons selection of
    an unknown type it throws for the type, and leaves the object with
    its inputs selection algorithms destructed. *)
Theorem from_XML_keeps_the_inputs_selection_it_read
        (document : XMLDocument) (ms : ModelSelection Settings) (s : string) :
  type_attribute "InputsSelection" document = Some "NO_INPUTS_SELECTION" ->
  type_attribute "NeuronsSelection" document = Some s ->
  (forall m, s <> neurons_selection_method_name m) ->
  from_XML default_settings read_settings document ms
  = (Throw ("OpenNN Exception: ModelSelection class." ++ nl
            ++ "void set_neurons_selection_method(const string&) method." ++ nl
            ++ "Unknown order selection type: " ++ s ++ "." ++ nl),
     set_inputs_selection_method default_settings NO_INPUTS_SELECTION ms).
Proof.
  unfold from_XML, type_attribute.
  destruct (FirstChildElement "ModelSelection" document) as [root|];
    [|discriminate].
  destruct (FirstChildElement "InputsSelection" (XMLNode_children root))
    as [inputs|]; [|discriminate].
  destruct (FirstChildElement "NeuronsSelection" (XMLNode_children root))
    as [neurons|]; [|discriminate].
  intros -> -> Unknown.
  unfold then_, lift, get, ret; cbn [deref].
  change (set_inputs_selection_method_string default_settings "NO_INPUTS_SELECTION" ms)
    with (Ok tt, set_inputs_selection_method default_settings NO_INPUTS_SELECTION ms).
  cbn [inputs_selection_method set_inputs_selection_method set_inputs_method].
  rewrite (unknown_neurons_selection_method _ Unknown). reflexivity.
Qed.

End Algorithms.

(** ** Setters that reach the algorithms in use *)

Section Reach.

Variable Settings : Type.
Variable settings_set_display : AlgorithmClass -> bool -> Settings -> Settings.
Variable settings_set_approximation :
  AlgorithmClass -> bool -> Settings -> Settings.

Ltac run_setter :=
  unfold then_, modify, get, lift, ret; cbn.

(** X26.  [set_training_strategy_pointer] returns exactly when the
    algorithm of each method in use is allocated, and is undefined
    otherwise.  When it returns, the object and every algorithm in use
    point to the new training strategy, the methods, the settings and
    the display are unchanged, and an IncrementalNeurons object that is
    allocated but not in use keeps the pointer it had. *)
Theorem set_training_strategy_pointer_reaches_algorithms_in_use
        (p : option TrainingStrategy) (ms : ModelSelection Settings) :
  let outcome := fst (set_training_strategy_pointer p ms) in
  let ms' := snd (set_training_strategy_pointer p ms) in
  (outcome = Ok tt <-> algorithms_allocated ms)
  /\ (outcome <> Ok tt -> outcome = Undefined)
  /\ (algorithms_allocated ms ->
      training_strategy_pointer ms' = p
      /\ active_inputs_selection ms'
         = option_map (Algorithm_set_training_strategy_pointer p)
                      (active_inputs_selection ms)
      /\ active_neurons_selection ms'
         = option_map (Algorithm_set_training_strategy_pointer p)
                      (active_neurons_selection ms)
      /\ configuration ms' = configuration ms
      /\ display ms' = display ms
      /\ (neurons_selection_method ms = NO_NEURONS_SELECTION ->
          incremental_neurons_pointer ms' = incremental_neurons_pointer ms)).
Proof.
  cbv zeta. destruct ms as [ts inp gip pip gap nsm ism d].
  unfold set_training_strategy_pointer, algorithms_allocated, configuration,
         active_inputs_selection, active_neurons_selection.
  run_setter.
  destruct nsm, ism; cbn.
  all: repeat match goal with
         | |- context [deref ?x] => destruct x; cbn
         end.
  all: split;
    [split;
     [intros H; try discriminate H; split; intros NE;
      first [discriminate | exfalso; apply NE; reflexivity]
     |intros [A B];
      first [reflexivity
            |exfalso; apply A; [discriminate | reflexivity]
            |exfalso; apply B; [discriminate | reflexivity]]]|].
  all: split; [intros H; first [reflexivity | exfalso; apply H; reflexivity]|].
  all: intros [A B];
    first [exfalso; apply A; [discriminate | reflexivity]
          |exfalso; apply B; [discriminate | reflexivity]
          |repeat split; try discriminate].
Qed.

(** X28.  [set_display] returns exactly when the algorithm of each method
    in use is allocated and is undefined otherwise; it sets the display
    flag of the object in any case and, when it returns, that of every
    algorithm in use, leaving the training strategy and the methods.
    [set_approximation] returns exactly when the inputs selection
    algorithm in use is allocated, changes that algorithm alone and
    leaves the display and the neurons selection. *)
Theorem set_display_reaches_algorithms_in_use
        (b : bool) (ms : ModelSelection Settings) :
  let shown := set_display settings_set_display b ms in
  let approximated := set_approximation settings_set_approximation b ms in
  (fst shown = Ok tt <-> algorithms_allocated ms)
  /\ (fst shown <> Ok tt -> fst shown = Undefined)
  /\ display (snd shown) = b
  /\ training_strategy_pointer (snd shown) = training_strategy_pointer ms
  /\ inputs_selection_method (snd shown) = inputs_selection_method ms
  /\ neurons_selection_method (snd shown) = neurons_selection_method ms
  /\ (algorithms_allocated ms ->
      (forall k a,
          inputs_selection_class (inputs_selection_method ms) = Some k ->
          active_inputs_selection ms = Some a ->
          active_inputs_selection (snd shown)
          = Some (Algorithm_set_display settings_set_display k b a))
      /\ (forall k a,
             neurons_selection_class (neurons_selection_method ms) = Some k ->
             active_neurons_selection ms = Some a ->
             active_neurons_selection (snd shown)
             = Some (Algorithm_set_display settings_set_display k b a)))
  /\ (fst approximated = Ok tt
      <-> (inputs_selection_method ms <> NO_INPUTS_SELECTION ->
           active_inputs_selection ms <> None))
  /\ display (snd approximated) = display ms
  /\ incremental_neurons_pointer (snd approximated)
     = incremental_neurons_pointer ms
  /\ (forall k a,
         inputs_selection_class (inputs_selection_method ms) = Some k ->
         active_inputs_selection ms = Some a ->
         active_inputs_selection (snd approximated)
         = Some (Algorithm_set_approximation settings_set_approximation k b a)).
Proof.
  cbv zeta. destruct ms as [ts inp gip pip gap nsm ism d].
  unfold set_display, set_approximation, algorithms_allocated,
         active_inputs_selection, active_neurons_selection.
  run_setter.
  destruct nsm, ism; cbn.
  all: repeat match goal with
         | |- context [deref ?x] => destruct x; cbn
         end.
  all: repeat match goal with
         | |- _ /\ _ => split
         | |- _ <-> _ => split
         | |- _ -> _ => intro
         | |- forall _, _ => intro
         end.
  all: try reflexivity; try discriminate; try congruence.
  all: repeat match goal with
         | H : _ /\ _ |- _ => destruct H
         end.
  all: try (exfalso;
            match goal with
            | H : _ -> None <> None |- _ => apply H; [discriminate | reflexivity]
            | H : ?x <> ?x |- _ => apply H; reflexivity
            end).
Qed.

End Reach.

(** ** Performing the selections *)

Section Perform.

Variable Settings : Type.
Variable settings_set_display : AlgorithmClass -> bool -> Settings -> Settings.
Variable World : Type.
Variable SelectionResults : AlgorithmClass -> Type.
Variable perform_selection :
  forall k : AlgorithmClass,
    Algorithm Settings -> World ->
    result (option (SelectionResults k)) * (Algorithm Settings * World).

Let perform_inputs :=
  perform_inputs_selection settings_set_display SelectionResults perform_selection.
Let perform_neurons :=
  perform_neurons_selection settings_set_display SelectionResults perform_selection.
Let perform_model :=
  perform_model_selection settings_set_display SelectionResults perform_selection.

Lemma perform_inputs_members (ms : ModelSelection Settings) (w : World) :
  same_members ms (fst (snd (perform_inputs ms w)))
  /\ incremental_neurons_pointer (fst (snd (perform_inputs ms w)))
     = incremental_neurons_pointer ms.
Proof.
  unfold perform_inputs, perform_inputs_selection, perform_with, same_members.
  destruct (inputs_selection_method ms) eqn:IM; cbn.
  - repeat split; assumption.
  - destruct (growing_inputs_pointer ms); cbn; repeat split; assumption.
  - destruct (pruning_inputs_pointer ms); cbn; repeat split; assumption.
  - destruct (genetic_algorithm_pointer ms); cbn; repeat split; assumption.
Qed.

Lemma perform_neurons_members (ms : ModelSelection Settings) (w : World) :
  same_members ms (fst (snd (perform_neurons ms w))).
Proof.
  unfold perform_neurons, perform_neurons_selection, perform_with, same_members.
  destruct (neurons_selection_method ms) eqn:NM; cbn.
  - repeat split; assumption.
  - destruct (incremental_neurons_pointer ms); cbn; repeat split; assumption.
Qed.

Lemma perform_neurons_results (ms : ModelSelection Settings) (w : World)
      (results : Results SelectionResults) (s : ModelSelection Settings * World) :
  perform_neurons ms w = (Ok results, s) ->
  growing_inputs_results_pointer results = None
  /\ pruning_inputs_results_pointer results = None
  /\ genetic_algorithm_results_pointer results = None
  /\ (neurons_selection_method ms = NO_NEURONS_SELECTION ->
      results = Results_new SelectionResults /\ s = (ms, w)).
Proof.
  unfold perform_neurons, perform_neurons_selection.
  destruct (neurons_selection_method ms).
  - intros H. injection H as <- <-. repeat split.
  - cbv zeta.
    match goal with
    | |- context [bind (fst ?c) _] => destruct c as [[r| |] s']
    end; cbn [fst snd bind]; intros H; try discriminate H.
    injection H as <- <-. repeat split; discriminate.
Qed.

(** X29.  When [perform_model_selection] returns, its results are those
    of [perform_neurons_selection] run after [perform_inputs_selection]:
    the three pointers to results of an inputs selection are null, all
    four are null without a neurons selection method, and the training
    strategy pointer, the two methods and the display of the object are
    as before. *)
Theorem model_selection_returns_the_neurons_results_only
        (ms : ModelSelection Settings) (w : World)
        (results : Results SelectionResults)
        (s : ModelSelection Settings * World) :
  perform_model ms w = (Ok results, s) ->
  growing_inputs_results_pointer results = None
  /\ pruning_inputs_results_pointer results = None
  /\ genetic_algorithm_results_pointer results = None
  /\ (neurons_selection_method ms = NO_NEURONS_SELECTION ->
      results = Results_new SelectionResults)
  /\ (exists inputs_results ms1 w1,
         perform_inputs ms w = (Ok inputs_results, (ms1, w1))
         /\ perform_neurons ms1 w1 = (Ok results, s))
  /\ same_members ms (fst s).
Proof.
  unfold perform_model, perform_model_selection.
  fold perform_inputs perform_neurons.
  pose proof (perform_inputs_members ms w) as [Members _].
  destruct (perform_inputs ms w) as [[inputs_results| |] [ms1 w1]] eqn:Inputs;
    try discriminate.
  cbn [fst snd] in Members.
  intros Neurons.
  pose proof (perform_neurons_members ms1 w1) as Members'.
  rewrite Neurons in Members'. cbn [fst snd] in Members'.
  destruct (perform_neurons_results _ _ Neurons) as (G & P & GA & None).
  destruct Members as (M1 & M2 & M3 & M4), Members' as (N1 & N2 & N3 & N4).
  split; [exact G|]. split; [exact P|]. split; [exact GA|].
  split; [intros H; apply None; congruence|].
  split; [exists inputs_results, ms1, w1; split; [reflexivity | exact Neurons]|].
  unfold same_members. repeat split; congruence.
Qed.

End Perform.

(** ** Concrete objects *)

Lemma example_pruning_selection_allocated :
  algorithms_allocated example_pruning_selection.
Proof. split; cbn; intros _; discriminate. Qed.

(** The example object after a document it cannot read to the end. *)
Lemma algorithms_in_use_stay_allocated_witness :
  algorithms_allocated
    (snd (from_XML example_default_settings example_read_settings
                   example_unknown_neurons_selection example_pruning_selection)).
Proof.
  destruct (algorithms_in_use_stay_allocated
              example_default_settings example_read_settings)
    as (_ & _ & _ & _ & _ & _ & Loaded).
  apply Loaded. split; cbn; intros _; discriminate.
Defined.

(** A method of neurons selection the class does not have. *)
Lemma string_setters_read_what_to_XML_writes_witness :
  set_neurons_selection_method_string
    example_default_settings "GOLDEN_SECTION" example_pruning_selection
  = (Throw ("OpenNN Exception: ModelSelection class." ++ nl
            ++ "void set_neurons_selection_method(const string&) method." ++ nl
            ++ "Unknown order selection type: " ++ "GOLDEN_SECTION" ++ "." ++ nl),
     example_pruning_selection).
Proof.
  destruct (string_setters_read_what_to_XML_writes
              example_default_settings example_write_settings)
    as (_ & _ & _ & Unknown & _).
  apply Unknown. intros []; discriminate.
Defined.

(** The empty document. *)
Lemma from_XML_unread_document_changes_nothing_witness :
  from_XML example_default_settings example_read_settings []
           example_pruning_selection
  = (Throw ("OpenNN Exception: ModelSelection class." ++ nl
            ++ "void from_XML(const tinyxml2::XMLDocument&) method." ++ nl
            ++ "Model Selection element is nullptr." ++ nl),
     example_pruning_selection).
Proof.
  apply (from_XML_unread_document_changes_nothing
           example_default_settings example_read_settings []
           example_pruning_selection).
  reflexivity.
Defined.

(** The example object loses its pruning inputs to a document it cannot
    read to the end. *)
Lemma from_XML_keeps_the_inputs_selection_it_read_witness :
  from_XML example_default_settings example_read_settings
           example_unknown_neurons_selection example_pruning_selection
  = (Throw ("OpenNN Exception: ModelSelection class." ++ nl
            ++ "void set_neurons_selection_method(const string&) method." ++ nl
            ++ "Unknown order selection type: " ++ "GOLDEN_SECTION" ++ "." ++ nl),
     set_inputs_selection_method example_default_settings NO_INPUTS_SELECTION
                                 example_pruning_selection).
Proof.
  apply (@from_XML_keeps_the_inputs_selection_it_read
           (list XMLNode) example_default_settings example_read_settings
           example_unknown_neurons_selection example_pruning_selection
           "GOLDEN_SECTION").
  - reflexivity.
  - reflexivity.
  - intros []; discriminate.
Defined.

(** The example object can be unbound. *)
Lemma set_training_strategy_pointer_reaches_algorithms_in_use_witness :
  fst (set_training_strategy_pointer None example_pruning_selection) = Ok tt.
Proof.
  apply (proj1 (set_training_strategy_pointer_reaches_algorithms_in_use
                  None example_pruning_selection)).
  split; cbn; intros _; discriminate.
Defined.

(** The display of the example object can be switched on. *)
Lemma set_display_reaches_algorithms_in_use_witness :
  fst (set_display example_set_display true example_pruning_selection) = Ok tt.
Proof.
  apply (proj1 (set_display_reaches_algorithms_in_use
                  example_set_display example_set_approximation
                  true example_pruning_selection)).
  split; cbn; intros _; discriminate.
Defined.

(** The example object performs its two selections and returns no
    results of the pruning. *)
Lemma model_selection_returns_the_neurons_results_only_witness :
  exists (results : Results (fun _ => unit))
         (s : ModelSelection (list XMLNode) * nat),
    perform_model_selection example_set_display (fun _ => unit)
                            example_perform_selection
                            example_pruning_selection 0
    = (Ok results, s)
    /\ snd s = 2
    /\ pruning_inputs_results_pointer results = None
    /\ same_members example_pruning_selection (fst s).
Proof.
  eexists. eexists. split; [reflexivity|]. split; [reflexivity|].
  destruct (@model_selection_returns_the_neurons_results_only
              (list XMLNode) example_set_display nat (fun _ => unit)
              example_perform_selection example_pruning_selection 0 _ _ eq_refl)
    as (_ & Pruning & _ & _ & _ & Members).
  split; [exact Pruning | exact Members].
Defined.

End ModelSelectionOperationsProperties.
